(** * crossput: a shallow embedding of the device core

    The development follows the C++ sources
    ([src/common.hpp], [src/impl.cpp], [src/impl_linux.cpp],
    [include/crossput.hpp]).  Machine integers are [Z] with their
    wrap-around written out, [float] is IEEE-754 binary32 (the
    executable specification [SpecFloat] of the standard library at
    precision 24), hash containers are finite maps or association
    lists, and the process-wide globals are fields of one record. *)

From Stdlib Require Import ZArith Bool List Lia Ascii String DecimalString DecimalN.
From Stdlib Require Import Floats.SpecFloat.
From stdpp Require Import base option list gmap.

Local Open Scope Z_scope.

(* ===================================================================== *)
(** * Part I: definitions                                                *)
(* ===================================================================== *)

(** ** binary32 arithmetic, as the C++ [float] *)

Module Float32.

Definition prec : Z := 24.
Definition emax : Z := 128.

Definition float : Type := spec_float.

Definition fadd : float -> float -> float := SFadd prec emax.
Definition fsub : float -> float -> float := SFsub prec emax.
Definition fmul : float -> float -> float := SFmul prec emax.
Definition fdiv : float -> float -> float := SFdiv prec emax.

(** [a < b], [a > b], [a != b]; every ordered comparison with a NaN is
    false and [!=] with a NaN is true. *)
Definition flt (a b : float) : bool := SFltb a b.
Definition fgt (a b : float) : bool := SFltb b a.
Definition fneq (a b : float) : bool := negb (SFeqb a b).

(** [static_cast<float>(n)] for an integer [n]. *)
Definition of_Z (n : Z) : float := binary_normalize prec emax n 0 false.

(** A decimal literal [num/den] with [num] and [den] exactly
    representable: the correctly rounded quotient is the float
    nearest to the decimal, which is what the literal denotes. *)
Definition of_decimal (num den : Z) : float := fdiv (of_Z num) (of_Z den).

Definition zero : float := S754_zero false.
Definition one : float := of_Z 1.

(** [std::min(a, b)] is [(b < a) ? b : a], [std::max(a, b)] is
    [(a < b) ? b : a], [std::clamp(v, lo, hi)] is
    [(v < lo) ? lo : (hi < v) ? hi : v]. *)
Definition fmin (a b : float) : float := if flt b a then b else a.
Definition fmax (a b : float) : float := if flt a b then b else a.
Definition fclamp (v lo hi : float) : float :=
  if flt v lo then lo else if flt hi v then hi else v.

(** Conversion of a float to an integer type truncates toward zero;
    the result is [None] for NaN and the infinities (the C++
    conversion is undefined there, as it is when the truncated value
    does not fit the target type, see [to_uint16]). *)
Definition trunc (x : float) : option Z :=
  match x with
  | S754_zero _ => Some 0
  | S754_finite s m e =>
      let a := if (0 <=? e) then Z.shiftl (Zpos m) e
               else Z.shiftr (Zpos m) (- e) in
      Some (if s then - a else a)
  | _ => None
  end.

Definition to_uint16 (x : float) : option Z :=
  match trunc x with
  | Some n => if (0 <=? n) && (n <? 65536) then Some n else None
  | None => None
  end.

End Float32.

Import Float32.

(** ** Identifiers and enumerations ([crossput.hpp]) *)

(** [ID]: a 64-bit counter value, 0 is invalid. *)
Definition ID : Type := Z.

Definition uint64_wrap (n : Z) : Z := n mod 2 ^ 64.
Definition uint32_wrap (n : Z) : Z := n mod 2 ^ 32.
Definition int64_wrap (n : Z) : Z := (n + 2 ^ 63) mod 2 ^ 64 - 2 ^ 63.

Definition timestamp_t : Type := Z.

Inductive DeviceType := UNKNOWN | MOUSE | KEYBOARD | GAMEPAD.

Inductive DeviceStatusChange := DISCOVERED | CONNECTED | DISCONNECTED | DESTROYED.

#[global] Instance DeviceType_eq_dec : EqDecision DeviceType.
Proof. solve_decision. Defined.

#[global] Instance DeviceStatusChange_eq_dec : EqDecision DeviceStatusChange.
Proof. solve_decision. Defined.

(** ** The input-value cell [TSTV] ([common.hpp], lines 61-169) *)

(** prevent rapid changes of digital state when the analog value
    bounces around the threshold; [ANTI_BOUNCE] is [0.025F], that is
    [13421773 * 2^-29]. *)
Definition ANTI_BOUNCE : float := S754_finite false 13421773 (-29).

Definition AnalogToDigital (value threshold : float) (current_state : bool) : bool :=
  let m := fmul (fmin threshold (fsub one threshold)) ANTI_BOUNCE in
  fgt value (if current_state then fsub threshold m else fadd threshold m).

Definition STATE_BITMASK : Z := Z.shiftl 1 63.
Definition TIMESTAMP_BITMASK : Z := Z.ones 63.

(** timestamp, state (encoded), threshold, value *)
Record TSTV : Type := mkTSTV {
  _a : Z;       (* uint64: state bit 63, timestamp bits 0..62 *)
  _b : float;   (* threshold *)
  _c : float    (* value *)
}.

Module Cell.

Definition Timestamp (d : TSTV) : timestamp_t := Z.land (_a d) TIMESTAMP_BITMASK.
Definition State (d : TSTV) : bool := negb (Z.land (_a d) STATE_BITMASK =? 0).
Definition Threshold (d : TSTV) : float := _b d.
Definition Value (d : TSTV) : float := _c d.

Definition SetTimestampState (timestamp : timestamp_t) (state : bool) (d : TSTV) : TSTV :=
  {| _a := Z.lor (Z.shiftl (Z.b2z state) 63) (Z.land timestamp TIMESTAMP_BITMASK);
     _b := _b d; _c := _c d |}.

(** [SetTimestamp] and [SetState] write one half of [_a] and keep the
    other. *)
Definition SetTimestamp (timestamp : timestamp_t) (d : TSTV) : TSTV :=
  {| _a := Z.lor (Z.land (_a d) STATE_BITMASK) (Z.land timestamp TIMESTAMP_BITMASK);
     _b := _b d; _c := _c d |}.

Definition SetState (state : bool) (d : TSTV) : TSTV :=
  {| _a := Z.lor (Z.shiftl (Z.b2z state) 63) (Z.land (_a d) TIMESTAMP_BITMASK);
     _b := _b d; _c := _c d |}.

Definition SetThreshold (threshold : float) (d : TSTV) : TSTV :=
  {| _a := _a d; _b := threshold; _c := _c d |}.

Definition SetValue (value : float) (d : TSTV) : TSTV :=
  {| _a := _a d; _b := _b d; _c := value |}.

(** the all-zero cell, as left by [= {}] and by [memset(.., 0, ..)] *)
Definition zeroed : TSTV := {| _a := 0; _b := zero; _c := zero |}.

(** [Modify(new_value, ts, new_state)]: the result is
    (modified?, new_state, cell after). *)
Definition Modify (new_value : float) (ts : timestamp_t) (d : TSTV)
  : bool * bool * TSTV :=
  let old_state := State d in
  let new_state := AnalogToDigital new_value (Threshold d) old_state in
  let value_changed := fneq new_value (Value d) in
  let state_changed := negb (Bool.eqb new_state old_state) in
  let force_write := Timestamp d =? 0 in
  let d1 := if state_changed || force_write
            then SetTimestampState ts new_state d else d in
  let d2 := if value_changed || force_write then SetValue new_value d1 else d1 in
  (value_changed || state_changed || (force_write && new_state), new_state, d2).

(** KBD VERSION: [counter] is the keyboard's [uint32_t num_keys_pressed_];
    the result is (modified?, new_state, cell after, counter after). *)
Definition Modify_kbd (new_value : float) (ts : timestamp_t) (d : TSTV) (counter : Z)
  : bool * bool * TSTV * Z :=
  let old_state := State d in
  let new_state := AnalogToDigital new_value (Threshold d) old_state in
  let value_changed := fneq new_value (Value d) in
  let state_changed := negb (Bool.eqb new_state old_state) in
  let force_write := Timestamp d =? 0 in
  let '(d1, counter1) :=
    if state_changed || force_write
    then (SetTimestampState ts new_state d,
          if new_state then uint32_wrap (counter + 1)
          else if negb force_write then uint32_wrap (counter - 1)
          else counter)
    else (d, counter) in
  let d2 := if value_changed || force_write then SetValue new_value d1 else d1 in
  (value_changed || state_changed || (force_write && new_state), new_state, d2, counter1).

(** The overloads without the [new_state] out-parameter return nothing. *)
Definition Modify_void (new_value : float) (ts : timestamp_t) (d : TSTV) : TSTV :=
  let old_state := State d in
  let new_state := AnalogToDigital new_value (Threshold d) old_state in
  let force_write := Timestamp d =? 0 in
  let d1 := if negb (Bool.eqb new_state old_state) || force_write
            then SetTimestampState ts new_state d else d in
  if fneq new_value (Value d) || force_write then SetValue new_value d1 else d1.

Definition Modify_kbd_void (new_value : float) (ts : timestamp_t) (d : TSTV) (counter : Z)
  : TSTV * Z :=
  let old_state := State d in
  let new_state := AnalogToDigital new_value (Threshold d) old_state in
  let force_write := Timestamp d =? 0 in
  let '(d1, counter1) :=
    if negb (Bool.eqb new_state old_state) || force_write
    then (SetTimestampState ts new_state d,
          if new_state then uint32_wrap (counter + 1)
          else if negb force_write then uint32_wrap (counter - 1)
          else counter)
    else (d, counter) in
  (if fneq new_value (Value d) || force_write then SetValue new_value d1 else d1, counter1).

(** A sequence of [modify(v, ts)] calls on one cell: the digital
    states reported by the calls, in order, and the cell at the end. *)
Fixpoint run (calls : list (float * timestamp_t)) (d : TSTV) : list bool * TSTV :=
  match calls with
  | [] => ([], d)
  | (v, ts) :: rest =>
      let '(_, s, d') := Modify v ts d in
      let '(ss, dn) := run rest d' in
      (s :: ss, dn)
  end.

(** The hysteresis rule alone, iterated from a digital state. *)
Fixpoint hysteresis (threshold : float) (s : bool) (values : list float) : list bool :=
  match values with
  | [] => []
  | v :: rest =>
      let s' := AnalogToDigital v threshold s in
      s' :: hysteresis threshold s' rest
  end.

End Cell.

(** ** Process-wide state ([common.hpp], [impl.cpp], [impl_linux.cpp]) *)

(** [LinuxHardwareID]: of the sections a, b and c only the one named by
    [idm] holds data. *)
Record input_id : Type := mk_input_id {
  bustype : Z; vendor : Z; product : Z; version : Z
}.

Inductive LinuxHardwareID :=
  | HWID_a (unique_id : string)                          (* idm = 0 *)
  | HWID_b (phys_location : string) (metadata : input_id) (* idm = 1 *)
  | HWID_c (eventx : Z).                                 (* idm = 2 *)

#[global] Instance input_id_eq_dec : EqDecision input_id.
Proof. solve_decision. Defined.

#[global] Instance LinuxHardwareID_eq_dec : EqDecision LinuxHardwareID.
Proof. solve_decision. Defined.

(** The seven callback shapes and their [CTYPEID]. *)
Inductive CallbackType :=
  | _StatusCallback | _MouseMoveCallback | _MouseScrollCallback
  | _MouseButtonCallback | _KeyboardKeyCallback
  | _GamepadButtonCallback | _GamepadThumbstickCallback.

Definition CTYPEID (t : CallbackType) : Z :=
  match t with
  | _StatusCallback => 1 | _MouseMoveCallback => 2 | _MouseScrollCallback => 3
  | _MouseButtonCallback => 4 | _KeyboardKeyCallback => 5
  | _GamepadButtonCallback => 6 | _GamepadThumbstickCallback => 7
  end.

Definition DeviceStatusChange_value (s : DeviceStatusChange) : Z :=
  match s with DISCOVERED => 0 | CONNECTED => 1 | DISCONNECTED => 2 | DESTROYED => 3 end.

Record EventCallbackKey : Type := mkEventCallbackKey {
  device_id : ID;
  filter : Z;        (* uint64 *)
  ctypeid : Z;       (* unsigned short *)
  has_filter : bool
}.

#[global] Instance EventCallbackKey_eq_dec : EqDecision EventCallbackKey.
Proof. solve_decision. Defined.

(** non-filtered callback *)
Definition ConstructEventCallbackKey (t : CallbackType) (device_id : ID) : EventCallbackKey :=
  {| device_id := device_id; filter := 0; ctypeid := CTYPEID t; has_filter := false |}.

(** filtered callback; the filter is cast to [uint64_t] *)
Definition ConstructEventCallbackKey_filter (t : CallbackType) (device_id : ID)
    (value_filter : Z) : EventCallbackKey :=
  {| device_id := device_id; filter := uint64_wrap value_filter;
     ctypeid := CTYPEID t; has_filter := true |}.

(** The data handed to a callback after the device pointer. *)
Inductive EventData :=
  | StatusData (status : DeviceStatusChange)
  | MouseMoveData (x y dx dy : Z)
  | MouseScrollData (x y dx dy : Z)
  | MouseButtonData (index : Z) (value : float) (state : bool)
  | KeyboardKeyData (key : Z) (value : float) (state : bool)
  | GamepadButtonData (button : Z) (value : float) (state : bool)
  | GamepadThumbstickData (index : Z) (x y : float).

Inductive exn :=
  | runtime_error (what : string)
  | user_exception.

(** What the registry needs to know of a device object: a physical
    device of the Linux backend (with its hardware id) or an aggregate
    (with its ordered members).  The connection state and the input
    state of the objects are modelled with their classes below. *)
Inductive InterfaceKind :=
  | LinuxDevice (hardware_id_ : LinuxHardwareID)
  | AggregateImpl (members_ : list ID).

Record BaseInterface : Type := mkBaseInterface {
  id_ : ID;
  type_ : DeviceType;                 (* TypedInterface<TYPE> *)
  attached_callbacks_ : list ID;      (* DeviceCallbackManagerImpl *)
  kind_ : InterfaceKind
}.

(** [struct input_event] *)
Record input_event : Type := mk_input_event {
  ev_type : Z;       (* type *)
  ev_code : Z;       (* code *)
  ev_value : Z;      (* value, int32 *)
  input_event_sec : Z;
  input_event_usec : Z
}.

(** One node of [/dev/input], as the evented bridge shows it. *)
Inductive OpenResult :=
  | Opened
  | OpenEPERM          (* open() < 0 with errno == EPERM *)
  | OpenFailed.        (* open() < 0 with any other errno *)

Record DirEntry : Type := mkDirEntry {
  is_directory : bool;
  filename : string;
  open_result : OpenResult;    (* open() with O_RDONLY | O_NONBLOCK *)
  uniq : option string;        (* EVIOCGUNIQ, [None] when the ioctl fails *)
  phys : option string;        (* EVIOCGPHYS *)
  devid : option input_id;     (* EVIOCGID *)
  ev_capabilities : Z;         (* EVIOCGBIT(0, ..), bit i = Z.testbit *)
  key_capabilities : Z;        (* EVIOCGBIT(EV_KEY, ..) *)
  ff_capabilities : Z;         (* EVIOCGBIT(EV_FF, ..) *)
  open_rdwr_result : OpenResult;   (* open() with O_RDWR | O_NONBLOCK *)
  clock_settable : bool;       (* EVIOCSCLOCKID succeeds *)
  global_keys : option Z;      (* EVIOCGKEY, [None] when the ioctl fails *)
  events : list input_event;   (* what read() delivers next, in order *)
  read_error : bool            (* with no event left, read() fails with an
                                  errno other than EAGAIN / EWOULDBLOCK *)
}.

(** The management functions, as user code calls them, and user
    callbacks: a callback is a sequence of steps, each a call of a
    management function (whose exception either escapes or is caught by
    the user) or a throw of its own. *)
Inductive ApiCall :=
  | DiscoverDevices_
  | UpdateAllDevices_
  | DestroyAllDevices_
  | DestroyDevice_ (id : ID)
  | Update_ (id : ID)
  | UnregisterCallback_ (id : ID)
  | UnregisterAllCallbacks_
  | RegisterGlobalCallback_ (t : CallbackType) (filter : option Z) (callback : list UserStep)
  | RegisterCallback_ (device : ID) (t : CallbackType) (filter : option Z) (callback : list UserStep)
  | Aggregate_ (ids : list ID) (hint_type : DeviceType)
with UserStep :=
  | Call (c : ApiCall)          (* the exception, if any, leaves the callback *)
  | TryCall (c : ApiCall)       (* try { c } catch (...) { } *)
  | ThrowUser.                  (* throw of the user's own *)

Definition UserCallback : Type := list UserStep.

(** What an observer of the process sees, in order. *)
Inductive LogEntry :=
  | Emitted (device : ID) (t : CallbackType) (data : EventData)  (* an event is handed to dispatch *)
  | Invoked (callback : ID) (device : ID) (data : EventData)     (* a user callback is entered *)
  | Deleted (device : ID).                                       (* [delete] of a device object *)

Record Glob : Type := mkGlob {
  glob_id_counter : Z;                                        (* unsigned long long *)
  glob_interfaces : gmap Z BaseInterface;                     (* unordered_map<ID, BaseInterface *> *)
  glob_disable_management_api : bool;
  glob_callbacks : gmap Z (CallbackType * UserCallback);      (* unordered_map<ID, EventCallbackWrapper *> *)
  glob_callback_mapping : list (EventCallbackKey * ID);       (* unordered_multimap *)
  glob_dev_to_aggr : list (ID * ID);                          (* unordered_multimap: member -> aggregate *)
  nat_device_ids : list LinuxHardwareID;                      (* unordered_set *)
  dev_input : list DirEntry;                                  (* the directory /dev/input *)
  clock_now : timestamp_t;                                    (* clock_gettime, in microseconds *)
  log : list LogEntry
}.

(** The state at program start ([impl.cpp], lines 88-99). *)
Definition Glob_initial (dir : list DirEntry) : Glob :=
  {| glob_id_counter := 1; glob_interfaces := ∅;
     glob_disable_management_api := false; glob_callbacks := ∅;
     glob_callback_mapping := []; glob_dev_to_aggr := [];
     nat_device_ids := []; dev_input := dir; clock_now := 0; log := [] |}.

(** *** Field updates *)

Definition set_id_counter (v : Z) (g : Glob) : Glob :=
  mkGlob v (glob_interfaces g) (glob_disable_management_api g) (glob_callbacks g) (glob_callback_mapping g) (glob_dev_to_aggr g) (nat_device_ids g) (dev_input g) (clock_now g) (log g).
Definition set_interfaces (v : gmap Z BaseInterface) (g : Glob) : Glob :=
  mkGlob (glob_id_counter g) v (glob_disable_management_api g) (glob_callbacks g) (glob_callback_mapping g) (glob_dev_to_aggr g) (nat_device_ids g) (dev_input g) (clock_now g) (log g).
Definition set_disable_management_api (v : bool) (g : Glob) : Glob :=
  mkGlob (glob_id_counter g) (glob_interfaces g) v (glob_callbacks g) (glob_callback_mapping g) (glob_dev_to_aggr g) (nat_device_ids g) (dev_input g) (clock_now g) (log g).
Definition set_callbacks (v : gmap Z (CallbackType * UserCallback)) (g : Glob) : Glob :=
  mkGlob (glob_id_counter g) (glob_interfaces g) (glob_disable_management_api g) v (glob_callback_mapping g) (glob_dev_to_aggr g) (nat_device_ids g) (dev_input g) (clock_now g) (log g).
Definition set_callback_mapping (v : list (EventCallbackKey * ID)) (g : Glob) : Glob :=
  mkGlob (glob_id_counter g) (glob_interfaces g) (glob_disable_management_api g) (glob_callbacks g) v (glob_dev_to_aggr g) (nat_device_ids g) (dev_input g) (clock_now g) (log g).
Definition set_dev_to_aggr (v : list (ID * ID)) (g : Glob) : Glob :=
  mkGlob (glob_id_counter g) (glob_interfaces g) (glob_disable_management_api g) (glob_callbacks g) (glob_callback_mapping g) v (nat_device_ids g) (dev_input g) (clock_now g) (log g).
Definition set_nat_device_ids (v : list LinuxHardwareID) (g : Glob) : Glob :=
  mkGlob (glob_id_counter g) (glob_interfaces g) (glob_disable_management_api g) (glob_callbacks g) (glob_callback_mapping g) (glob_dev_to_aggr g) v (dev_input g) (clock_now g) (log g).
Definition set_dev_input (v : list DirEntry) (g : Glob) : Glob :=
  mkGlob (glob_id_counter g) (glob_interfaces g) (glob_disable_management_api g) (glob_callbacks g) (glob_callback_mapping g) (glob_dev_to_aggr g) (nat_device_ids g) v (clock_now g) (log g).
Definition set_clock_now (v : timestamp_t) (g : Glob) : Glob :=
  mkGlob (glob_id_counter g) (glob_interfaces g) (glob_disable_management_api g) (glob_callbacks g) (glob_callback_mapping g) (glob_dev_to_aggr g) (nat_device_ids g) (dev_input g) v (log g).
Definition add_log (e : LogEntry) (g : Glob) : Glob :=
  mkGlob (glob_id_counter g) (glob_interfaces g) (glob_disable_management_api g) (glob_callbacks g) (glob_callback_mapping g) (glob_dev_to_aggr g) (nat_device_ids g) (dev_input g) (clock_now g) (log g ++ [e]).

(** *** Hash multimaps as association lists *)

Section Multimap.
Context {K V : Type} `{EqDecision K, EqDecision V}.

Definition mm_contains (k : K) (m : list (K * V)) : bool :=
  existsb (fun kv => bool_decide (fst kv = k)) m.

(** the values of [equal_range(k)], in the order of the model *)
Definition mm_equal_range (k : K) (m : list (K * V)) : list V :=
  map snd (List.filter (fun kv => bool_decide (fst kv = k)) m).

Definition mm_insert (k : K) (v : V) (m : list (K * V)) : list (K * V) := m ++ [(k, v)].

(** [erase(it)] of the first entry equal to [(k, v)] *)
Fixpoint mm_erase_one (k : K) (v : V) (m : list (K * V)) : list (K * V) :=
  match m with
  | [] => []
  | kv :: rest =>
      if bool_decide (kv = (k, v)) then rest else kv :: mm_erase_one k v rest
  end.
End Multimap.

(** *** Computations over the process state: a result, an exception, or
    no result within the given number of steps *)

Inductive Outcome (S A : Type) :=
  | Ok (a : A) (s : S)
  | Throw (e : exn) (s : S)
  | OutOfFuel.
Arguments Ok {S A} a s.
Arguments Throw {S A} e s.
Arguments OutOfFuel {S A}.

Definition StM (S A : Type) : Type := S -> Outcome S A.

Definition ret {S A} (a : A) : StM S A := fun s => Ok a s.
Definition throw {S A} (e : exn) : StM S A := fun s => Throw e s.
Definition bind {S A B} (m : StM S A) (f : A -> StM S B) : StM S B :=
  fun s => match m s with
           | Ok a s' => f a s'
           | Throw e s' => Throw e s'
           | OutOfFuel => OutOfFuel
           end.
Definition get {S} : StM S S := fun s => Ok s s.
Definition modify {S} (f : S -> S) : StM S unit := fun s => Ok tt (f s).
Definition out_of_fuel {S A} : StM S A := fun _ => OutOfFuel.

#[global] Instance StM_ret {S} : MRet (StM S) := fun A => @ret S A.
#[global] Instance StM_bind {S} : MBind (StM S) := fun A B f m => bind m f.

(** Computations over the process-wide state alone. *)
Abbreviation M := (StM Glob).

(** A computation on a part of the state, run on the whole. *)
Definition zoom {S T A} (proj : T -> S) (inj : S -> T -> T) (m : StM S A) : StM T A :=
  fun t => match m (proj t) with
           | Ok a s' => Ok a (inj s' t)
           | Throw e s' => Throw e (inj s' t)
           | OutOfFuel => OutOfFuel
           end.

(** [for (x : xs) body(x)] *)
Fixpoint for_each {S A} (xs : list A) (body : A -> StM S unit) : StM S unit :=
  match xs with
  | [] => ret tt
  | x :: rest => body x ;; for_each rest body
  end.

(** [ReserveID()] is [{ glob_id_counter++ }]. *)
Definition ReserveID : M ID :=
  fun g => Ok (glob_id_counter g) (set_id_counter (uint64_wrap (glob_id_counter g + 1)) g).

Definition Illegal_access_message (details_str : string) : string :=
  ("Illegal access to crossput management API from within a callback. Details: " ++ details_str)%string.

Definition ProtectManagementAPI (details_str : string) : M unit :=
  fun g => if glob_disable_management_api g
           then Throw (runtime_error (Illegal_access_message details_str)) g
           else Ok tt g.

(** What a management function returns. *)
Inductive ApiResult :=
  | RVoid
  | RID (id : ID)
  | RSize (n : Z)
  | RDevice (p : option ID).     (* IDevice *, [None] is nullptr *)

(** ** Callback manager ([common.hpp], lines 338-660) *)

Definition InsertCallback (t : CallbackType) (callback : UserCallback) (device_id : ID)
    (value_filter : option Z) : M ID :=
  id ← ReserveID;
  modify (fun g =>
    let key := match value_filter with
               | None => ConstructEventCallbackKey t device_id
               | Some f => ConstructEventCallbackKey_filter t device_id f
               end in
    (* unordered_map::insert keeps an entry that is already there *)
    let cbs := match glob_callbacks g !! id with
               | Some _ => glob_callbacks g
               | None => <[id := (t, callback)]> (glob_callbacks g)
               end in
    set_callback_mapping (mm_insert key id (glob_callback_mapping g)) (set_callbacks cbs g));;
  mret id.

Definition EraseCallback (id : ID) : M unit :=
  modify (fun g => set_callbacks (delete id (glob_callbacks g)) g).

(** [DeviceCallbackManagerImpl::AttachCallback], a method of the device
    object [device]: the callback is also recorded on the device. *)
Definition AttachCallback (device : BaseInterface) (t : CallbackType) (callback : UserCallback)
    (value_filter : option Z) : M ID :=
  cbid ← InsertCallback t callback (id_ device) value_filter;
  modify (fun g =>
    set_interfaces
      (alter (fun d => mkBaseInterface (id_ d) (type_ d)
                         (attached_callbacks_ d ++ [cbid]) (kind_ d))
             (id_ device) (glob_interfaces g)) g);;
  mret cbid.

Section Dispatch.

(** How a management call made by user code is carried out. *)
Variable api : ApiCall -> M ApiResult.

Definition run_step (s : UserStep) : M unit :=
  match s with
  | Call c => api c;; mret tt
  | TryCall c =>
      fun g => match api c g with
               | Ok _ g' => Ok tt g'
               | Throw _ g' => Ok tt g'
               | OutOfFuel => OutOfFuel
               end
  | ThrowUser => throw user_exception
  end.

(** [EventCallbackWrapper::Invoke]: block management functions during
    callback invocation; the block is lifted on both exits. *)
Definition Invoke (callback : ID) (body : UserCallback) (device : ID) (data : EventData)
  : M unit :=
  fun g =>
    let g1 := set_disable_management_api true (add_log (Invoked callback device data) g) in
    match for_each body run_step g1 with
    | Ok _ g2 => Ok tt (set_disable_management_api false g2)
    | Throw e g2 => Throw e (set_disable_management_api false g2)
    | OutOfFuel => OutOfFuel
    end.

(** find all callbacks linked to the key; a mapping whose callback is
    gone is erased. *)
Definition ExecuteCallbacks_Impl (key : EventCallbackKey) (device : ID) (data : EventData)
  : M unit :=
  g0 ← get;
  for_each (mm_equal_range key (glob_callback_mapping g0)) (fun current =>
    g ← get;
    match glob_callbacks g !! current with
    | Some (_, body) => Invoke current body device data
    | None => modify (fun g => set_callback_mapping
                                 (mm_erase_one key current (glob_callback_mapping g)) g)
    end).

(** execute global and device-specific callbacks using a value filter;
    prioritize callbacks that are attached to the device *)
Definition ExecuteCallbacksWithFilter (t : CallbackType) (device : ID) (value_filter : Z)
    (data : EventData) : M unit :=
  ExecuteCallbacks_Impl (ConstructEventCallbackKey_filter t device value_filter) device data;;
  ExecuteCallbacks_Impl (ConstructEventCallbackKey_filter t 0 value_filter) device data.

(** execute global and device-specific callbacks;
    prioritize callbacks that are attached to the device *)
Definition ExecuteCallbacks (t : CallbackType) (device : ID) (data : EventData) : M unit :=
  ExecuteCallbacks_Impl (ConstructEventCallbackKey t device) device data;;
  ExecuteCallbacks_Impl (ConstructEventCallbackKey t 0) device data.

(** An event of kind [t] on [device] with discriminator [value_filter]:
    prioritize callbacks with a filter.  This is the common body of
    [DeviceStatusChanged], [ButtonChanged], [KeyChanged] and
    [ThumbstickChanged]. *)
Definition dispatch_filtered (t : CallbackType) (device : ID) (value_filter : Z)
    (data : EventData) : M unit :=
  modify (add_log (Emitted device t data));;
  ExecuteCallbacksWithFilter t device value_filter data;;
  ExecuteCallbacks t device data.

Definition DeviceStatusChanged (device : ID) (status : DeviceStatusChange) : M unit :=
  dispatch_filtered _StatusCallback device (DeviceStatusChange_value status) (StatusData status).

Definition MouseMoved (this : ID) (x y dx dy : Z) : M unit :=
  modify (add_log (Emitted this _MouseMoveCallback (MouseMoveData x y dx dy)));;
  ExecuteCallbacks _MouseMoveCallback this (MouseMoveData x y dx dy).

Definition MouseScrolled (this : ID) (x y dx dy : Z) : M unit :=
  modify (add_log (Emitted this _MouseScrollCallback (MouseScrollData x y dx dy)));;
  ExecuteCallbacks _MouseScrollCallback this (MouseScrollData x y dx dy).

(** [MouseCallbackManagerImpl::ButtonChanged] *)
Definition Mouse_ButtonChanged (this : ID) (index : Z) (value : float) (state : bool) : M unit :=
  dispatch_filtered _MouseButtonCallback this index (MouseButtonData index value state).

Definition KeyChanged (this : ID) (key : Z) (value : float) (state : bool) : M unit :=
  dispatch_filtered _KeyboardKeyCallback this key (KeyboardKeyData key value state).

(** [GamepadCallbackManagerImpl::ButtonChanged] *)
Definition Gamepad_ButtonChanged (this : ID) (button : Z) (value : float) (state : bool)
  : M unit :=
  dispatch_filtered _GamepadButtonCallback this button (GamepadButtonData button value state).

Definition ThumbstickChanged (this : ID) (index : Z) (x y : float) : M unit :=
  dispatch_filtered _GamepadThumbstickCallback this index (GamepadThumbstickData index x y).

End Dispatch.

(** ** Aggregate linkage and destruction ([common.hpp], lines 849-910;
    [impl.cpp], lines 127-286) *)

(** link aggregate with other device *)
Definition LinkAggregate (aggregate other : ID) : M unit :=
  modify (fun g => set_dev_to_aggr (mm_insert other aggregate (glob_dev_to_aggr g)) g).

(** unlink aggregate from other device *)
Definition UnlinkAggregate (aggregate other : ID) : M unit :=
  modify (fun g => set_dev_to_aggr (mm_erase_one other aggregate (glob_dev_to_aggr g)) g).

(** [delete p] for a device object: the destructors of its classes.
    [~AggregateImpl] removes the association between aggregate and
    members, [~LinuxDevice] releases the hardware id (and closes the
    device file, which is not part of this state),
    [~DeviceCallbackManagerImpl] erases the attached callbacks. *)
Definition delete_interface (d : BaseInterface) : M unit :=
  modify (add_log (Deleted (id_ d)));;
  match kind_ d with
  | AggregateImpl members => for_each members (fun m => UnlinkAggregate (id_ d) m)
  | LinuxDevice hwid =>
      modify (fun g => set_nat_device_ids
                         (List.filter (fun h => negb (bool_decide (h = hwid))) (nat_device_ids g)) g)
  end;;
  for_each (attached_callbacks_ d) EraseCallback.

Definition erase_interface (id : ID) : M unit :=
  modify (fun g => set_interfaces (delete id (glob_interfaces g)) g).

Definition GetDevice (id : ID) (g : Glob) : option BaseInterface :=
  if id =? 0 then None else glob_interfaces g !! id.

Definition circular_chain_message : string :=
  "Unknown error occurred in crossput. Please ensure no circular chain of aggregated input devices exists or any kind of undefined behaviour was caused.".

(** [DestroyDevice]: recursively gather all interface IDs which must be
    destroyed (aggregates are destroyed as soon as any of their targets
    are).  [stack.back()] is the last element. *)
Fixpoint gather_targets (fuel : nat) (links : list (ID * ID)) (stack targets : list ID)
  : option (list ID) :=
  match fuel with
  | O => None
  | S fuel' =>
      match last stack with
      | None => Some targets      (* unreachable: the loop body runs on a non-empty stack *)
      | Some current =>
          let found := mm_equal_range current links in
          let stack' := List.removelast stack ++ found in
          let targets' := targets ++ found in
          match stack' with
          | [] => Some targets'
          | _ => gather_targets fuel' links stack' targets'
          end
      end
  end.

Section Management.

Variable api : ApiCall -> M ApiResult.
(** bound on the iterations of the loops that need not terminate *)
Variable fuel : nat.
(** the device-specific remainder of [IDevice::Update()], after its
    guard (see [LinuxMouse] and [Aggregate] below) *)
Variable update_body : ID -> M unit.

(** One pass of [DestroyHierarchy] over [targets]: those which are
    not members of aggregates are destroyed, the others are kept. *)
Fixpoint DestroyHierarchy_pass (targets remaining : list ID) : M (list ID) :=
  match targets with
  | [] => mret remaining
  | id :: rest =>
      g ← get;
      if negb (mm_contains id (glob_dev_to_aggr g)) then
        match glob_interfaces g !! id with
        | None => DestroyHierarchy_pass rest remaining     (* failsafe *)
        | Some d =>
            DeviceStatusChanged api id DESTROYED;;
            g' ← get;
            delete_interface (default d (glob_interfaces g' !! id));;
            erase_interface id;;
            DestroyHierarchy_pass rest remaining
        end
      else DestroyHierarchy_pass rest (remaining ++ [id])
  end.

(** The passes repeat while targets remain; a pass that destroys
    nothing is an error.  Every pass shortens the targets, so [n]
    passes after the first suffice for [n] targets. *)
Fixpoint DestroyHierarchy_loop (n : nat) (targets : list ID) : M unit :=
  remaining ← DestroyHierarchy_pass targets [];
  if (length remaining =? length targets)%nat
  then throw (runtime_error circular_chain_message)
  else match remaining, n with
       | [], _ => mret tt
       | _, O => out_of_fuel
       | _, S n' => DestroyHierarchy_loop n' remaining
       end.

Definition DestroyHierarchy (targets : list ID) : M unit :=
  DestroyHierarchy_loop (length targets) targets.

Definition DestroyDevice (id : ID) : M unit :=
  ProtectManagementAPI "crossput::DestroyDevice";;
  if id =? 0 then mret tt else
  g ← get;
  (* try to find main target *)
  match glob_interfaces g !! id with
  | None => mret tt
  | Some kv_main =>
      if negb (mm_contains (id_ kv_main) (glob_dev_to_aggr g)) then
        (* shortcut *)
        DeviceStatusChanged api id DESTROYED;;
        g' ← get;
        delete_interface (default kv_main (glob_interfaces g' !! id));;
        erase_interface id
      else
        match gather_targets fuel (glob_dev_to_aggr g) [id] [id] with
        | None => out_of_fuel
        | Some targets => DestroyHierarchy targets
        end
  end.

Definition DestroyAllDevices : M unit :=
  ProtectManagementAPI "crossput::DestroyAllDevices";;
  g ← get;
  if (size (glob_interfaces g) =? 0)%nat then mret tt else
  DestroyHierarchy (map (fun elm => id_ (snd elm)) (map_to_list (glob_interfaces g)));;
  modify (fun g => set_dev_to_aggr [] (set_interfaces ∅ g)).

(** [IDevice::Update()]: the guard, then the device's own work. *)
Definition Update_details (id : ID) : string :=
  ("crossput::IDevice::Update() - Device ID "
     ++ DecimalString.NilZero.string_of_uint (N.to_uint (Z.to_N id)))%string.

Definition Update (id : ID) : M unit :=
  ProtectManagementAPI (Update_details id);;
  update_body id.

(** only update devices which are not members of any aggregate
    (aggregates update their members anyway) *)
Definition UpdateAllDevices : M unit :=
  ProtectManagementAPI "crossput::UpdateAllDevices";;
  g ← get;
  for_each (map_to_list (glob_interfaces g)) (fun elm =>
    g' ← get;
    if negb (mm_contains (id_ (snd elm)) (glob_dev_to_aggr g'))
    then Update (id_ (snd elm)) else mret tt).

Definition UnregisterCallback (id : ID) : M unit :=
  ProtectManagementAPI "crossput::UnregisterCallback";;
  EraseCallback id.

Definition UnregisterAllCallbacks : M unit :=
  ProtectManagementAPI "crossput::UnregisterAllCallbacks";;
  modify (set_callbacks ∅).

End Management.

(** ** Recognising input nodes ([impl_linux.cpp], lines 176-552 and 1019-1144) *)

(** Event and key codes of [<linux/input-event-codes.h>]. *)
Definition EV_SYN : Z := 0.
Definition EV_KEY : Z := 1.
Definition EV_REL : Z := 2.
Definition EV_ABS : Z := 3.
Definition EV_FF : Z := 21.
Definition BTN_LEFT : Z := 272.
Definition BTN_RIGHT : Z := 273.
Definition BTN_MIDDLE : Z := 274.
Definition BTN_SIDE : Z := 275.
Definition BTN_EXTRA : Z := 276.
Definition BTN_FORWARD : Z := 277.
Definition BTN_BACK : Z := 278.
Definition BTN_TASK : Z := 279.
Definition BTN_SOUTH : Z := 304.
Definition BTN_THUMBR : Z := 318.
Definition BTN_DIGI : Z := 320.
Definition BTN_TOOL_PEN : Z := 320.
Definition BTN_TOOL_RUBBER : Z := 321.
Definition BTN_TOOL_BRUSH : Z := 322.
Definition BTN_TOOL_PENCIL : Z := 323.
Definition BTN_TOOL_AIRBRUSH : Z := 324.
Definition BTN_TOOL_FINGER : Z := 325.
Definition BTN_TOOL_LENS : Z := 327.
Definition BTN_TOOL_QUINTTAP : Z := 328.
Definition BTN_STYLUS3 : Z := 329.
Definition BTN_TOUCH : Z := 330.
Definition BTN_STYLUS : Z := 331.
Definition BTN_STYLUS2 : Z := 332.
Definition BTN_TOOL_DOUBLETAP : Z := 333.
Definition BTN_TOOL_TRIPLETAP : Z := 334.
Definition BTN_TOOL_QUADTAP : Z := 335.
Definition BTN_WHEEL : Z := 336.
Definition BTN_GEAR_DOWN : Z := 336.
Definition BTN_GEAR_UP : Z := 337.
Definition BTN_DPAD_UP : Z := 544.
Definition BTN_DPAD_RIGHT : Z := 547.

Definition NUM_KEY_CODES : Z := 112.
Definition NUM_BUTTON_CODES : Z := 16.
Definition INVALID_KEY : Z := 255.
Definition INVALID_BUTTON : Z := 255.
Definition IsValidKey (key : Z) : bool := key <? NUM_KEY_CODES.
Definition IsValidButton (button : Z) : bool := button <? NUM_BUTTON_CODES.

(** [enum class Button], sequential from 0. *)
Module Button.
Definition NORTH : Z := 0.
Definition SOUTH : Z := 1.
Definition WEST : Z := 2.
Definition EAST : Z := 3.
Definition DPAD_UP : Z := 4.
Definition DPAD_DOWN : Z := 5.
Definition DPAD_LEFT : Z := 6.
Definition DPAD_RIGHT : Z := 7.
Definition L1 : Z := 8.
Definition L2 : Z := 9.
Definition R1 : Z := 10.
Definition R2 : Z := 11.
Definition THUMBSTICK_L : Z := 12.
Definition THUMBSTICK_R : Z := 13.
Definition SELECT : Z := 14.
Definition START : Z := 15.
End Button.

(** Linux Keycode -> crossput Key; each entry is the value of the
    [Key] enumerator named beside it ([enum class Key] is sequential
    from [ESC = 0]). *)
Definition keycode_mapping : list Z :=
  [
    255;    (* 0000 INVALID_KEY *)
    0;      (* 0001 Key::ESC *)
    13;     (* 0002 Key::NUMROW1 *)
    14;     (* 0003 Key::NUMROW2 *)
    15;     (* 0004 Key::NUMROW3 *)
    16;     (* 0005 Key::NUMROW4 *)
    17;     (* 0006 Key::NUMROW5 *)
    18;     (* 0007 Key::NUMROW6 *)
    19;     (* 0008 Key::NUMROW7 *)
    20;     (* 0009 Key::NUMROW8 *)
    21;     (* 0010 Key::NUMROW9 *)
    12;     (* 0011 Key::NUMROW0 *)
    48;     (* 0012 Key::MINUS *)
    49;     (* 0013 Key::EQUAL *)
    2;      (* 0014 Key::BACKSPACE *)
    3;      (* 0015 Key::TAB *)
    38;     (* 0016 Key::Q *)
    44;     (* 0017 Key::W *)
    26;     (* 0018 Key::E *)
    39;     (* 0019 Key::R *)
    41;     (* 0020 Key::T *)
    46;     (* 0021 Key::Y *)
    42;     (* 0022 Key::U *)
    30;     (* 0023 Key::I *)
    36;     (* 0024 Key::O *)
    37;     (* 0025 Key::P *)
    50;     (* 0026 Key::BRACE_L *)
    51;     (* 0027 Key::BRACE_R *)
    1;      (* 0028 Key::ENTER *)
    10;     (* 0029 Key::CTRL_L *)
    22;     (* 0030 Key::A *)
    40;     (* 0031 Key::S *)
    25;     (* 0032 Key::D *)
    27;     (* 0033 Key::F *)
    28;     (* 0034 Key::G *)
    29;     (* 0035 Key::H *)
    31;     (* 0036 Key::J *)
    32;     (* 0037 Key::K *)
    33;     (* 0038 Key::L *)
    52;     (* 0039 Key::SEMICOLON *)
    53;     (* 0040 Key::APOSTROPHE *)
    54;     (* 0041 Key::GRAVE *)
    6;      (* 0042 Key::SHIFT_L *)
    58;     (* 0043 Key::BACKSLASH *)
    47;     (* 0044 Key::Z *)
    45;     (* 0045 Key::X *)
    24;     (* 0046 Key::C *)
    43;     (* 0047 Key::V *)
    23;     (* 0048 Key::B *)
    35;     (* 0049 Key::N *)
    34;     (* 0050 Key::M *)
    55;     (* 0051 Key::COMMA *)
    56;     (* 0052 Key::DOT *)
    57;     (* 0053 Key::SLASH *)
    7;      (* 0054 Key::SHIFT_R *)
    86;     (* 0055 Key::NUMPAD_MULTIPLY *)
    8;      (* 0056 Key::ALT_L *)
    4;      (* 0057 Key::SPACE *)
    5;      (* 0058 Key::CAPSLOCK *)
    88;     (* 0059 Key::F1 *)
    89;     (* 0060 Key::F2 *)
    90;     (* 0061 Key::F3 *)
    91;     (* 0062 Key::F4 *)
    92;     (* 0063 Key::F5 *)
    93;     (* 0064 Key::F6 *)
    94;     (* 0065 Key::F7 *)
    95;     (* 0066 Key::F8 *)
    96;     (* 0067 Key::F9 *)
    97;     (* 0068 Key::F10 *)
    60;     (* 0069 Key::NUMLOCK *)
    61;     (* 0070 Key::SCROLLLOCK *)
    80;     (* 0071 Key::NUMPAD7 *)
    81;     (* 0072 Key::NUMPAD8 *)
    82;     (* 0073 Key::NUMPAD9 *)
    85;     (* 0074 Key::NUMPAD_MINUS *)
    77;     (* 0075 Key::NUMPAD4 *)
    78;     (* 0076 Key::NUMPAD5 *)
    79;     (* 0077 Key::NUMPAD6 *)
    84;     (* 0078 Key::NUMPAD_PLUS *)
    74;     (* 0079 Key::NUMPAD1 *)
    75;     (* 0080 Key::NUMPAD2 *)
    76;     (* 0081 Key::NUMPAD3 *)
    73;     (* 0082 Key::NUMPAD0 *)
    83;     (* 0083 Key::NUMPAD_DECIMAL *)
    255;    (* 0084 INVALID_KEY *)
    255;    (* 0085 INVALID_KEY *)
    59;     (* 0086 Key::KEY102 *)
    98;     (* 0087 Key::F11 *)
    99;     (* 0088 Key::F12 *)
    255;    (* 0089 INVALID_KEY *)
    255;    (* 0090 INVALID_KEY *)
    255;    (* 0091 INVALID_KEY *)
    255;    (* 0092 INVALID_KEY *)
    255;    (* 0093 INVALID_KEY *)
    255;    (* 0094 INVALID_KEY *)
    255;    (* 0095 INVALID_KEY *)
    1;      (* 0096 Key::ENTER *)
    11;     (* 0097 Key::CTRL_R *)
    87;     (* 0098 Key::NUMPAD_SLASH *)
    255;    (* 0099 INVALID_KEY *)
    9;      (* 0100 Key::ALT_R *)
    1;      (* 0101 Key::ENTER *)
    65;     (* 0102 Key::HOME *)
    70;     (* 0103 Key::UP *)
    67;     (* 0104 Key::PAGEUP *)
    69;     (* 0105 Key::LEFT *)
    71;     (* 0106 Key::RIGHT *)
    66;     (* 0107 Key::END *)
    72;     (* 0108 Key::DOWN *)
    68;     (* 0109 Key::PAGEDOWN *)
    63;     (* 0110 Key::INSERT *)
    64;     (* 0111 Key::DEL *)
    255;    (* 0112 INVALID_KEY *)
    255;    (* 0113 INVALID_KEY *)
    255;    (* 0114 INVALID_KEY *)
    255;    (* 0115 INVALID_KEY *)
    255;    (* 0116 INVALID_KEY *)
    1;      (* 0117 Key::ENTER *)
    255;    (* 0118 INVALID_KEY *)
    62;     (* 0119 Key::PAUSE *)
    255;    (* 0120 INVALID_KEY *)
    83;     (* 0121 Key::NUMPAD_DECIMAL *)
    255;    (* 0122 INVALID_KEY *)
    255;    (* 0123 INVALID_KEY *)
    255;    (* 0124 INVALID_KEY *)
    255;    (* 0125 INVALID_KEY *)
    255;    (* 0126 INVALID_KEY *)
    255;    (* 0127 INVALID_KEY *)
    255;    (* 0128 INVALID_KEY *)
    255;    (* 0129 INVALID_KEY *)
    255;    (* 0130 INVALID_KEY *)
    255;    (* 0131 INVALID_KEY *)
    255;    (* 0132 INVALID_KEY *)
    255;    (* 0133 INVALID_KEY *)
    255;    (* 0134 INVALID_KEY *)
    255;    (* 0135 INVALID_KEY *)
    255;    (* 0136 INVALID_KEY *)
    255;    (* 0137 INVALID_KEY *)
    255;    (* 0138 INVALID_KEY *)
    255;    (* 0139 INVALID_KEY *)
    255;    (* 0140 INVALID_KEY *)
    255;    (* 0141 INVALID_KEY *)
    255;    (* 0142 INVALID_KEY *)
    255;    (* 0143 INVALID_KEY *)
    255;    (* 0144 INVALID_KEY *)
    255;    (* 0145 INVALID_KEY *)
    255;    (* 0146 INVALID_KEY *)
    255;    (* 0147 INVALID_KEY *)
    255;    (* 0148 INVALID_KEY *)
    255;    (* 0149 INVALID_KEY *)
    255;    (* 0150 INVALID_KEY *)
    255;    (* 0151 INVALID_KEY *)
    255;    (* 0152 INVALID_KEY *)
    255;    (* 0153 INVALID_KEY *)
    255;    (* 0154 INVALID_KEY *)
    255;    (* 0155 INVALID_KEY *)
    255;    (* 0156 INVALID_KEY *)
    255;    (* 0157 INVALID_KEY *)
    255;    (* 0158 INVALID_KEY *)
    255;    (* 0159 INVALID_KEY *)
    255;    (* 0160 INVALID_KEY *)
    255;    (* 0161 INVALID_KEY *)
    255;    (* 0162 INVALID_KEY *)
    255;    (* 0163 INVALID_KEY *)
    255;    (* 0164 INVALID_KEY *)
    255;    (* 0165 INVALID_KEY *)
    255;    (* 0166 INVALID_KEY *)
    255;    (* 0167 INVALID_KEY *)
    255;    (* 0168 INVALID_KEY *)
    255;    (* 0169 INVALID_KEY *)
    255;    (* 0170 INVALID_KEY *)
    255;    (* 0171 INVALID_KEY *)
    255;    (* 0172 INVALID_KEY *)
    255;    (* 0173 INVALID_KEY *)
    255;    (* 0174 INVALID_KEY *)
    255;    (* 0175 INVALID_KEY *)
    255;    (* 0176 INVALID_KEY *)
    255;    (* 0177 INVALID_KEY *)
    255;    (* 0178 INVALID_KEY *)
    255;    (* 0179 INVALID_KEY *)
    255;    (* 0180 INVALID_KEY *)
    255;    (* 0181 INVALID_KEY *)
    255;    (* 0182 INVALID_KEY *)
    100;    (* 0183 Key::F13 *)
    101;    (* 0184 Key::F14 *)
    102;    (* 0185 Key::F15 *)
    103;    (* 0186 Key::F16 *)
    104;    (* 0187 Key::F17 *)
    105;    (* 0188 Key::F18 *)
    106;    (* 0189 Key::F19 *)
    107;    (* 0190 Key::F20 *)
    108;    (* 0191 Key::F21 *)
    109;    (* 0192 Key::F22 *)
    110;    (* 0193 Key::F23 *)
    111;    (* 0194 Key::F24 *)
    255;    (* 0195 INVALID_KEY *)
    255;    (* 0196 INVALID_KEY *)
    255;    (* 0197 INVALID_KEY *)
    255;    (* 0198 INVALID_KEY *)
    255;    (* 0199 INVALID_KEY *)
    255;    (* 0200 INVALID_KEY *)
    255;    (* 0201 INVALID_KEY *)
    255;    (* 0202 INVALID_KEY *)
    255;    (* 0203 INVALID_KEY *)
    255;    (* 0204 INVALID_KEY *)
    255;    (* 0205 INVALID_KEY *)
    255;    (* 0206 INVALID_KEY *)
    255;    (* 0207 INVALID_KEY *)
    255;    (* 0208 INVALID_KEY *)
    255;    (* 0209 INVALID_KEY *)
    255;    (* 0210 INVALID_KEY *)
    255;    (* 0211 INVALID_KEY *)
    255;    (* 0212 INVALID_KEY *)
    255;    (* 0213 INVALID_KEY *)
    255;    (* 0214 INVALID_KEY *)
    255;    (* 0215 INVALID_KEY *)
    255;    (* 0216 INVALID_KEY *)
    255;    (* 0217 INVALID_KEY *)
    255;    (* 0218 INVALID_KEY *)
    255;    (* 0219 INVALID_KEY *)
    255;    (* 0220 INVALID_KEY *)
    255;    (* 0221 INVALID_KEY *)
    255;    (* 0222 INVALID_KEY *)
    255;    (* 0223 INVALID_KEY *)
    255;    (* 0224 INVALID_KEY *)
    255;    (* 0225 INVALID_KEY *)
    255;    (* 0226 INVALID_KEY *)
    255;    (* 0227 INVALID_KEY *)
    255;    (* 0228 INVALID_KEY *)
    255;    (* 0229 INVALID_KEY *)
    255;    (* 0230 INVALID_KEY *)
    255;    (* 0231 INVALID_KEY *)
    255;    (* 0232 INVALID_KEY *)
    255;    (* 0233 INVALID_KEY *)
    255;    (* 0234 INVALID_KEY *)
    255;    (* 0235 INVALID_KEY *)
    255;    (* 0236 INVALID_KEY *)
    255;    (* 0237 INVALID_KEY *)
    255;    (* 0238 INVALID_KEY *)
    255;    (* 0239 INVALID_KEY *)
    255;    (* 0240 INVALID_KEY *)
    255;    (* 0241 INVALID_KEY *)
    255;    (* 0242 INVALID_KEY *)
    255;    (* 0243 INVALID_KEY *)
    255;    (* 0244 INVALID_KEY *)
    255;    (* 0245 INVALID_KEY *)
    255;    (* 0246 INVALID_KEY *)
    255;    (* 0247 INVALID_KEY *)
    255;    (* 0248 INVALID_KEY *)
    255;    (* 0249 INVALID_KEY *)
    255;    (* 0250 INVALID_KEY *)
    255;    (* 0251 INVALID_KEY *)
    255;    (* 0252 INVALID_KEY *)
    255;    (* 0253 INVALID_KEY *)
    255;    (* 0254 INVALID_KEY *)
    255     (* 0255 INVALID_KEY *)
  ].

(** Linux Keycode -> crossput Button, from [BTN_SOUTH] *)
Definition button_mapping : list Z :=
  [ Button.SOUTH; Button.EAST; INVALID_BUTTON; Button.NORTH; Button.WEST;
    INVALID_BUTTON; Button.L1; Button.R1; Button.L2; Button.R2;
    Button.SELECT; Button.START; INVALID_BUTTON;
    Button.THUMBSTICK_L; Button.THUMBSTICK_R ].

(** Linux Keycode (dpad) -> crossput Button, from [BTN_DPAD_UP] *)
Definition button_mapping_dpad : list Z :=
  [ Button.DPAD_UP; Button.DPAD_DOWN; Button.DPAD_LEFT; Button.DPAD_RIGHT ].

(** [values[k] = i] for the codes [first, first + 1, ..] of [mapping]
    whose entry [k] passes [valid]; a later code replaces an earlier one. *)
Fixpoint fill_reverse (valid : Z -> bool) (mapping : list Z) (i : Z) (values : list Z) : list Z :=
  match mapping with
  | [] => values
  | k :: rest =>
      fill_reverse valid rest (i + 1)
        (if valid k then <[Z.to_nat k := i]> values else values)
  end.

(** crossput Key -> Linux Keycode *)
Definition reverse_keycode_mapping : list Z :=
  Eval vm_compute in
    fill_reverse IsValidKey keycode_mapping 0 (replicate (Z.to_nat NUM_KEY_CODES) 0).

(** crossput Button -> Linux Keycode *)
Definition reverse_button_mapping : list Z :=
  Eval vm_compute in
    fill_reverse IsValidButton button_mapping_dpad BTN_DPAD_UP
      (fill_reverse IsValidButton button_mapping BTN_SOUTH
         (replicate (Z.to_nat NUM_BUTTON_CODES) 0)).

(** key codes used to recognize mouse input devices *)
Definition devrecog_mouse : list Z :=
  [ BTN_LEFT; BTN_RIGHT; BTN_MIDDLE; BTN_SIDE; BTN_EXTRA; BTN_FORWARD; BTN_SIDE; BTN_TASK ].

(** key codes that are usually not found on any supported devices *)
Definition devrecog_avoid : list Z :=
  [ BTN_DIGI; BTN_TOOL_AIRBRUSH; BTN_TOOL_BRUSH; BTN_TOOL_FINGER; BTN_TOOL_LENS;
    BTN_TOOL_PEN; BTN_TOOL_PENCIL; BTN_TOOL_RUBBER; BTN_STYLUS; BTN_STYLUS2;
    BTN_STYLUS3; BTN_TOUCH; BTN_TOOL_DOUBLETAP; BTN_TOOL_TRIPLETAP;
    BTN_TOOL_QUADTAP; BTN_TOOL_QUINTTAP; BTN_WHEEL; BTN_GEAR_DOWN; BTN_GEAR_UP ].

(** fetch bit at offset within an array *)
Definition GETBIT_ (array : Z) (at_ : Z) : Z := Z.b2z (Z.testbit array at_).

Definition count_bits (array : Z) (codes : list Z) : Z :=
  fold_left (fun n code => n + GETBIT_ array code) codes 0.

(** returns the most likely device type of the target event device *)
Definition DeduceInputDeviceType (fd : DirEntry) : DeviceType :=
  let ev := ev_capabilities fd in
  let key := key_capabilities fd in
  (* must send EV_SYN events *)
  if negb (negb (ev =? 0) && Z.testbit ev EV_SYN) then UNKNOWN else
  let '(pm, pk, pg) := (0, 0, 0) in
  (* only mice generate relative events *)
  let '(pm, pk, pg) := if Z.testbit ev EV_REL then (pm + 1, pk - 1, pg - 1) else (pm, pk, pg) in
  (* only gamepads generate absolute events *)
  let '(pm, pk, pg) := if Z.testbit ev EV_ABS then (pm - 1, pk - 1, pg + 1) else (pm, pk, pg) in
  (* most gamepads support force-feedback *)
  let pg := if Z.testbit ev EV_FF then pg + 1 else pg in
  let kccount_keyboard := count_bits key reverse_keycode_mapping in
  let kccount_gamepad := count_bits key reverse_button_mapping in
  let kccount_mouse := count_bits key devrecog_mouse in
  (* blacklist *)
  let avoid := fold_left (fun n code => if Z.testbit key code then n + 1 else n) devrecog_avoid 0 in
  let '(pm, pk, pg) := (pm - avoid, pk - avoid, pg - avoid) in
  let '(pm, pk, pg) :=
    if (0 <? kccount_mouse) && (kccount_keyboard + kccount_gamepad <=? 0)
    then (pm + 2, pk - 1, pg - 1)
    else if (0 <? kccount_keyboard) && (kccount_gamepad <=? 0)
    then (pm - 1, pk + 3, pg - 1)
    else if 0 <? kccount_gamepad
    then (pm - 1, pk - 1, pg + 2)
    else (pm, pk, pg) in
  let '(deduced_type, deduced_proof) :=
    if (pk <? pm) && (pg <? pm) then (MOUSE, pm)
    else if pg <? pk then (KEYBOARD, pk)
    else (GAMEPAD, pg) in
  if 1 <? deduced_proof then deduced_type else UNKNOWN.

(** ** Discovery ([impl_linux.cpp], lines 121-143, 1147-1183, 1304-1340) *)

(** LinuxHardwareID from open eventX file *)
Definition GetHWID (fd : DirEntry) (x : Z) : LinuxHardwareID :=
  match uniq fd with
  | Some u => HWID_a u                               (* A (driver-provided UID) *)
  | None =>
      match phys fd, devid fd with
      | Some p, Some i => HWID_b p i                 (* B (device info + physical location) *)
      | _, _ => HWID_c x                             (* C (eventX fallback, weakest identity) *)
      end
  end.

Definition is_digit (c : Ascii.ascii) : bool :=
  let n := Z.of_nat (Ascii.nat_of_ascii c) in (48 <=? n) && (n <=? 57).

Fixpoint all_digits (s : string) : bool :=
  match s with
  | EmptyString => true
  | String c rest => is_digit c && all_digits rest
  end.

(** [std::regex_match(fnstr, "^event[0-9]+$")] and the number after
    the five letters, as [strtoul] reads it and the cast to
    [unsigned int] keeps it. *)
Definition eventX_number (fnstr : string) : option Z :=
  match fnstr with
  | String "e"%char (String "v"%char (String "e"%char (String "n"%char
      (String "t"%char (String c rest))))) =>
      if all_digits (String c rest)
      then Some (uint32_wrap
                   (Z.min (2 ^ 64 - 1)
                      (Z.of_N (N.of_uint
                                 (default Decimal.Nil
                                    (DecimalString.NilZero.uint_of_string (String c rest)))))))
      else None
  | _ => None
  end.

Definition dquote : string := String (Ascii.ascii_of_nat 34) EmptyString.

Definition access_denied_message (path : string) : string :=
  ("Access to " ++ dquote ++ path ++ dquote ++ " denied. Is the current user in the "
     ++ dquote ++ "input" ++ dquote ++ " group?")%string.

(** invoke the handler for every /dev/input/eventX file, returns the
    number of invocations; the handler returns whether to go on.
    [open_with] is the outcome of [open] with the flags of the call. *)
Fixpoint ForeachEventXFile {S} (open_with : DirEntry -> OpenResult)
    (handler : DirEntry -> Z -> StM S bool) (entries : list DirEntry) (num : Z) : StM S Z :=
  match entries with
  | [] => mret num
  | entry :: rest =>
      if is_directory entry then ForeachEventXFile open_with handler rest num else
      match eventX_number (filename entry) with
      | None => ForeachEventXFile open_with handler rest num      (* not an eventX file *)
      | Some x =>
          match open_with entry with
          | OpenEPERM =>
              throw (runtime_error (access_denied_message ("/dev/input/" ++ filename entry)))
          | OpenFailed => ForeachEventXFile open_with handler rest num
          | Opened =>
              status ← handler entry x;
              if (status : bool)
              then ForeachEventXFile open_with handler rest (num + 1) else mret (num + 1)
          end
      end
  end.

(** [new LinuxMouse(hwid)] and its siblings: [BaseInterface()] reserves
    the id. *)
Definition new_LinuxDevice (t : DeviceType) (hwid : LinuxHardwareID) : M BaseInterface :=
  id ← ReserveID;
  mret (mkBaseInterface id t [] (LinuxDevice hwid)).

(** [unordered_map::insert] keeps an entry that is already there. *)
Definition insert_interface (d : BaseInterface) : M unit :=
  modify (fun g => match glob_interfaces g !! id_ d with
                   | Some _ => g
                   | None => set_interfaces (<[id_ d := d]> (glob_interfaces g)) g
                   end).

Section Discovery.

Variable api : ApiCall -> M ApiResult.

Definition dev_analyzer (fd : DirEntry) (x : Z) : M bool :=
  (* check if hardware is already registered *)
  let hwid := GetHWID fd x in
  g ← get;
  if bool_decide (hwid ∈ nat_device_ids g) then mret true else
  match DeduceInputDeviceType fd with
  | UNKNOWN => mret true       (* type of input produced by device not recognizable *)
  | t =>
      p_vdev ← new_LinuxDevice t hwid;
      modify (fun g => set_nat_device_ids (nat_device_ids g ++ [hwid]) g);;
      insert_interface p_vdev;;
      DeviceStatusChanged api (id_ p_vdev) DISCOVERED;;
      mret true
  end.

(** [devices_created] is initialised to 0 and captured by the
    analyzer, which never writes it. *)
Definition DiscoverDevices : M Z :=
  ProtectManagementAPI "crossput::DiscoverDevices";;
  let devices_created := 0 in
  g ← get;
  ForeachEventXFile open_result dev_analyzer (dev_input g) 0;;
  mret devices_created.

End Discovery.

(** ** Aggregation ([impl.cpp], lines 376-489; [common.hpp], lines 939-950) *)

(** [unordered_set::insert] *)
Definition set_insert (x : ID) (s : list ID) : list ID :=
  if bool_decide (x ∈ s) then s else s ++ [x].

(** check if aggregate already exists: the candidates left by the loop
    over the members *)
Fixpoint aggr_candidates_loop (links : list (ID * ID)) (first : bool) (ids : list ID)
    (aggr_candidates : list ID) : list ID :=
  match ids with
  | [] => aggr_candidates
  | id :: rest =>
      match mm_equal_range id links with
      | [] => []                                              (* unique aggregation *)
      | range =>
          if first then
            (* gather initial candidates *)
            aggr_candidates_loop links false rest (fold_left (fun s a => set_insert a s) range [])
          else
            (* eliminate candidates *)
            let aggr_cache :=
              fold_left (fun s a => if bool_decide (a ∈ aggr_candidates) then set_insert a s else s)
                        range [] in
            match aggr_cache with
            | [] => aggr_candidates                           (* unique aggregation *)
            | _ => aggr_candidates_loop links false rest aggr_cache
            end
      end
  end.

Definition unexpected_type_message : string :=
  "Fatal error occurred during device aggregation - Unexpected crossput::DeviceType value 0".

(** [new AggregateMouse(members, member_count)] and its siblings:
    [BaseInterface()] reserves the id and [AggregateImpl] creates the
    association between aggregate and members.  (The constructor reads
    the member ids through its parameter after having moved it into
    [members_]; the model links the members that were passed.) *)
Definition new_Aggregate (t : DeviceType) (members : list ID) : M BaseInterface :=
  id ← ReserveID;
  for_each members (fun m => LinkAggregate id m);;
  mret (mkBaseInterface id t [] (AggregateImpl members)).

Definition Aggregate (ids : list ID) (hint_type : DeviceType) : M (option ID) :=
  ProtectManagementAPI "crossput::Aggregate";;
  g ← get;
  match ids with
  | [] => mret None
  | [id] =>
      (* single target -> do not create aggregate *)
      match GetDevice id g with
      | Some p_target =>
          if bool_decide (hint_type = UNKNOWN) || bool_decide (type_ p_target = hint_type)
          then mret (Some (id_ p_target)) else mret None
      | None => mret None
      end
  | _ =>
      let aggr_candidates := aggr_candidates_loop (glob_dev_to_aggr g) true ids [] in
      let p_existing := match aggr_candidates with
                        | [a] => GetDevice a g
                        | _ => None
                        end in
      match p_existing with
      | Some p => mret (Some (id_ p))                        (* found existing aggregate *)
      | None =>
          (* get member pointers *)
          match mapM (fun id => GetDevice id g) ids with
          | None => mret None
          | Some p_members =>
              (* ensure all targets are the same type *)
              let t := if bool_decide (hint_type = UNKNOWN)
                       then from_option type_ UNKNOWN (head p_members) else hint_type in
              if forallb (fun p => bool_decide (type_ p = t)) p_members then
                match t with
                | UNKNOWN => throw (runtime_error unexpected_type_message)
                | _ =>
                    p_aggregate ← new_Aggregate t (map id_ p_members);
                    (* register *)
                    insert_interface p_aggregate;;
                    mret (Some (id_ p_aggregate))
                end
              else mret None                                  (* not all target types match *)
          end
      end
  end.

(** ** The management interface ([impl.cpp], lines 289-373;
    [common.hpp], lines 487-659) *)

Definition RegisterGlobal_name (t : CallbackType) : string :=
  match t with
  | _StatusCallback => "crossput::RegisterGlobalStatusCallback"
  | _MouseMoveCallback => "crossput::RegisterGlobalMouseMoveCallback"
  | _MouseScrollCallback => "crossput::RegisterGlobalMouseScrollCallback"
  | _MouseButtonCallback => "crossput::RegisterGlobalMouseButtonCallback"
  | _KeyboardKeyCallback => "crossput::RegisterGlobalKeyboardKeyCallback"
  | _GamepadButtonCallback => "crossput::RegisterGlobalGamepadButtonCallback"
  | _GamepadThumbstickCallback => "crossput::RegisterGlobalGamepadThumbstickCallback"
  end.

Definition Register_name (t : CallbackType) : string :=
  match t with
  | _StatusCallback => "crossput::DeviceCallbackManagerImpl::RegisterStatusCallback"
  | _MouseMoveCallback => "crossput::MouseCallbackManagerImpl::RegisterMoveCallback"
  | _MouseScrollCallback => "crossput::MouseCallbackManagerImpl::RegisterScrollCallback"
  | _MouseButtonCallback => "crossput::MouseCallbackManagerImpl::RegisterButtonCallback"
  | _KeyboardKeyCallback => "crossput::KeyboardCallbackManagerImpl::RegisterKeyCallback"
  | _GamepadButtonCallback => "crossput::GamepadCallbackManagerImpl::RegisterButtonCallback"
  | _GamepadThumbstickCallback => "crossput::GamepadCallbackManagerImpl::RegisterThumbstickCallback"
  end.

(** [CROSSPUT_FUNCTION_STR], or the text formatted by [Update()]: the
    details handed to [ProtectManagementAPI] by each function.  The
    macro expands to the compiler's spelling of the enclosing function;
    the model writes the qualified name. *)
Definition details_of (c : ApiCall) : string :=
  match c with
  | DiscoverDevices_ => "crossput::DiscoverDevices"
  | UpdateAllDevices_ => "crossput::UpdateAllDevices"
  | DestroyAllDevices_ => "crossput::DestroyAllDevices"
  | DestroyDevice_ _ => "crossput::DestroyDevice"
  | Update_ id => Update_details id
  | UnregisterCallback_ _ => "crossput::UnregisterCallback"
  | UnregisterAllCallbacks_ => "crossput::UnregisterAllCallbacks"
  | RegisterGlobalCallback_ t _ _ => RegisterGlobal_name t
  | RegisterCallback_ _ t _ _ => Register_name t
  | Aggregate_ _ _ => "crossput::Aggregate"
  end.

Section Api.

Variable update_body : ID -> M unit.

(** One management call, with [api] for the calls that user
    callbacks make while it runs. *)
Definition api_step (fuel : nat) (api : ApiCall -> M ApiResult) (c : ApiCall) : M ApiResult :=
  match c with
  | DiscoverDevices_ => n ← DiscoverDevices api; mret (RSize n)
  | UpdateAllDevices_ => UpdateAllDevices update_body;; mret RVoid
  | DestroyAllDevices_ => DestroyAllDevices api;; mret RVoid
  | DestroyDevice_ id => DestroyDevice api fuel id;; mret RVoid
  | Update_ id => Update update_body id;; mret RVoid
  | UnregisterCallback_ id => UnregisterCallback id;; mret RVoid
  | UnregisterAllCallbacks_ => UnregisterAllCallbacks;; mret RVoid
  | RegisterGlobalCallback_ t value_filter callback =>
      ProtectManagementAPI (RegisterGlobal_name t);;
      id ← InsertCallback t callback 0 value_filter;
      mret (RID id)
  | RegisterCallback_ device t value_filter callback =>
      ProtectManagementAPI (Register_name t);;
      g ← get;
      match glob_interfaces g !! device with
      | Some this => id ← AttachCallback this t callback value_filter; mret (RID id)
      | None => mret (RID 0)    (* no such object: a call through a dangling pointer *)
      end
  | Aggregate_ ids hint_type => p ← Aggregate ids hint_type; mret (RDevice p)
  end.

Fixpoint run_api (fuel : nat) (c : ApiCall) : M ApiResult :=
  match fuel with
  | O => out_of_fuel
  | S fuel' => api_step fuel' (run_api fuel') c
  end.

End Api.

(** ** Device objects *)

(** A method runs on the process-wide state and on its object. *)
Record World (T : Type) : Type := mkWorld { w_glob : Glob; w_this : T }.
Arguments mkWorld {T} w_glob w_this.
Arguments w_glob {T} w.
Arguments w_this {T} w.

Definition in_glob {T A} (m : M A) : StM (World T) A :=
  zoom w_glob (fun g w => mkWorld g (w_this w)) m.
Definition this_ {T} : StM (World T) T := fun w => Ok (w_this w) w.
Definition modify_this {T} (f : T -> T) : StM (World T) unit :=
  modify (fun w => mkWorld (w_glob w) (f (w_this w))).

Module MD.
Record MouseData : Type := mk {
  x : Z;      (* position X *)
  y : Z;      (* position Y *)
  dx : Z;     (* position delta X *)
  dy : Z;     (* position delta Y *)
  sx : Z;     (* scroll X *)
  sy : Z;     (* scroll Y *)
  sdx : Z;    (* scroll delta X *)
  sdy : Z     (* scroll delta Y *)
}.
(** [data_ = {}] *)
Definition zero : MouseData := mk 0 0 0 0 0 0 0 0.
End MD.

Inductive ForceStatus := FS_UNKNOWN | FS_INACTIVE | FS_ACTIVE.

Record LinuxForce : Type := mkLinuxForce {
  force_id_ : ID;
  effect_id_ : Z;
  p_device_ : option ID;        (* [None] is nullptr: orphaned *)
  status_ : ForceStatus
}.

(** More codes of [<linux/input-event-codes.h>] and [<linux/input.h>]. *)
Definition EV_FF_STATUS : Z := 23.
Definition SYN_REPORT : Z := 0.
Definition SYN_DROPPED : Z := 3.
Definition REL_X : Z := 0.
Definition REL_Y : Z := 1.
Definition REL_HWHEEL : Z := 6.
Definition REL_WHEEL : Z := 8.
Definition REL_WHEEL_HI_RES : Z := 11.
Definition REL_HWHEEL_HI_RES : Z := 12.
Definition FF_STATUS_STOPPED : Z := 0.
Definition FF_STATUS_PLAYING : Z := 1.
Definition FF_RUMBLE : Z := 80.
Definition FF_PERIODIC : Z := 81.
Definition FF_SPRING : Z := 83.
Definition FF_FRICTION : Z := 84.
Definition FF_DAMPER : Z := 85.
Definition FF_INERTIA : Z := 86.
Definition FF_RAMP : Z := 87.
Definition FF_GAIN : Z := 96.
Definition FF_AUTOCENTER : Z := 97.

(** [enum class ForceType], sequential from 0. *)
Module ForceType.
Definition RUMBLE : Z := 0.
Definition CONSTANT : Z := 1.
Definition RAMP : Z := 2.
Definition SINE : Z := 3.
Definition TRIANGLE : Z := 4.
Definition SQUARE : Z := 5.
Definition SAW_UP : Z := 6.
Definition SAW_DOWN : Z := 7.
Definition SPRING : Z := 8.
Definition FRICTION : Z := 9.
Definition DAMPER : Z := 10.
Definition INERTIA : Z := 11.
End ForceType.

Definition GetEventTimestamp (ev : input_event) : timestamp_t :=
  uint64_wrap (uint64_wrap (input_event_sec ev) * 1000000 + uint64_wrap (input_event_usec ev)).

(** The node behind an open file descriptor.  The model's descriptor of
    an open node is the number of its eventX file; -1 is no file. *)
Definition is_node (fd : Z) (e : DirEntry) : bool :=
  negb (is_directory e) && bool_decide (eventX_number (filename e) = Some fd).

Definition os_node (fd : Z) (g : Glob) : option DirEntry :=
  if fd <? 0 then None else List.find (is_node fd) (dev_input g).

Inductive ReadResult :=
  | ReadEvent (ev : input_event)     (* read() > 0 *)
  | ReadAgain                        (* read() < 0 with EAGAIN / EWOULDBLOCK *)
  | ReadFailure.                     (* read() < 0 with another errno *)

Fixpoint pop_event (fd : Z) (entries : list DirEntry) : list DirEntry :=
  match entries with
  | [] => []
  | e :: rest =>
      if is_node fd e
      then mkDirEntry (is_directory e) (filename e) (open_result e) (uniq e) (phys e) (devid e)
             (ev_capabilities e) (key_capabilities e) (ff_capabilities e) (open_rdwr_result e)
             (clock_settable e) (global_keys e) (tail (events e)) (read_error e) :: rest
      else e :: pop_event fd rest
  end.

(** [read(file_desc_, &ev, sizeof(input_event))] *)
Definition os_read (fd : Z) : M ReadResult :=
  fun g =>
    match os_node fd g with
    | None => Ok ReadFailure g
    | Some e =>
        match events e with
        | ev :: _ => Ok (ReadEvent ev) (set_dev_input (pop_event fd (dev_input g)) g)
        | [] => Ok (if read_error e then ReadFailure else ReadAgain) g
        end
    end.

Definition GetTimestampNow : M timestamp_t := fun g => Ok (clock_now g) g.

(** ** [LinuxDevice] and [LinuxMouse] ([impl_linux.cpp], lines 679-820,
    1354-1612 and 1616-1819) *)

Module LinuxMouse.

Definition NUM_BUTTONS : Z := 8.

Record t : Type := mk {
  (* BaseInterface *)
  id_ : ID;
  is_connected_ : bool;
  (* LinuxDevice *)
  hardware_id_ : LinuxHardwareID;
  pending_events_ : list input_event;
  last_update_timestamp_ : timestamp_t;
  file_desc_ : Z;
  forces_ : list LinuxForce;              (* the force objects, by id *)
  force_mapping : list (Z * ID);          (* effect id -> force *)
  supported_forces_ : Z;                  (* bitset, bit i is ForceType i *)
  gain_ : float;
  force_count_noorph_ : Z;
  supports_gain_ : bool;
  supports_autocenter_ : bool;
  (* LinuxMouse *)
  button_data_ : list TSTV;               (* TSTV button_data_[NUM_BUTTONS] *)
  data_ : MD.MouseData
}.

(** [LinuxMouse(hardware_id)], with the id reserved by [BaseInterface()] *)
Definition new (id : ID) (hardware_id : LinuxHardwareID) : t :=
  mk id false hardware_id [] 0 (-1) [] [] 0 zero 0 false false
     (replicate (Z.to_nat NUM_BUTTONS) Cell.zeroed) MD.zero.

Definition set_connection (c : bool) (ts : timestamp_t) (pe : list input_event) (fd : Z) (m : t) : t :=
  mk (id_ m) c (hardware_id_ m) pe ts fd (forces_ m) (force_mapping m) (supported_forces_ m)
     (gain_ m) (force_count_noorph_ m) (supports_gain_ m) (supports_autocenter_ m)
     (button_data_ m) (data_ m).
Definition set_pending_events (pe : list input_event) (m : t) : t :=
  set_connection (is_connected_ m) (last_update_timestamp_ m) pe (file_desc_ m) m.
Definition set_last_update_timestamp (ts : timestamp_t) (m : t) : t :=
  set_connection (is_connected_ m) ts (pending_events_ m) (file_desc_ m) m.
Definition set_file_desc (fd : Z) (m : t) : t :=
  set_connection (is_connected_ m) (last_update_timestamp_ m) (pending_events_ m) fd m.
Definition set_forces (fs : list LinuxForce) (m : t) : t :=
  mk (id_ m) (is_connected_ m) (hardware_id_ m) (pending_events_ m) (last_update_timestamp_ m)
     (file_desc_ m) fs (force_mapping m) (supported_forces_ m)
     (gain_ m) (force_count_noorph_ m) (supports_gain_ m) (supports_autocenter_ m)
     (button_data_ m) (data_ m).
Definition set_force_caps (sf : Z) (gain : float) (count : Z) (sg sa : bool) (m : t) : t :=
  mk (id_ m) (is_connected_ m) (hardware_id_ m) (pending_events_ m) (last_update_timestamp_ m)
     (file_desc_ m) (forces_ m) (force_mapping m) sf gain count sg sa
     (button_data_ m) (data_ m).
Definition set_button_data (b : list TSTV) (m : t) : t :=
  mk (id_ m) (is_connected_ m) (hardware_id_ m) (pending_events_ m) (last_update_timestamp_ m)
     (file_desc_ m) (forces_ m) (force_mapping m) (supported_forces_ m)
     (gain_ m) (force_count_noorph_ m) (supports_gain_ m) (supports_autocenter_ m)
     b (data_ m).
Definition set_data (d : MD.MouseData) (m : t) : t :=
  mk (id_ m) (is_connected_ m) (hardware_id_ m) (pending_events_ m) (last_update_timestamp_ m)
     (file_desc_ m) (forces_ m) (force_mapping m) (supported_forces_ m)
     (gain_ m) (force_count_noorph_ m) (supports_gain_ m) (supports_autocenter_ m)
     (button_data_ m) d.

(** *** Getters: a reference parameter is the pair of the caller's
    variables before the call, the result is the pair after it. *)

Definition GetPosition (m : t) (xy : Z * Z) : Z * Z :=
  if negb (is_connected_ m) then xy else (MD.x (data_ m), MD.y (data_ m)).
Definition GetDelta (m : t) (xy : Z * Z) : Z * Z :=
  if negb (is_connected_ m) then xy else (MD.dx (data_ m), MD.dy (data_ m)).
Definition GetScroll (m : t) (xy : Z * Z) : Z * Z :=
  if negb (is_connected_ m) then xy else (MD.sx (data_ m), MD.sy (data_ m)).
Definition GetScrollDelta (m : t) (xy : Z * Z) : Z * Z :=
  if negb (is_connected_ m) then xy else (MD.sdx (data_ m), MD.sdy (data_ m)).

Definition GetButtonCount (m : t) : Z := if is_connected_ m then NUM_BUTTONS else 0.

Definition cell (index : Z) (m : t) : TSTV :=
  default Cell.zeroed (button_data_ m !! Z.to_nat index).

Definition SetButtonThreshold (index : Z) (threshold : float) (m : t) : t :=
  if index <? NUM_BUTTONS
  then set_button_data
         (alter (Cell.SetThreshold (fclamp threshold zero one)) (Z.to_nat index) (button_data_ m)) m
  else m.

Definition SetGlobalThreshold (threshold : float) (m : t) : t :=
  set_button_data (map (Cell.SetThreshold (fclamp threshold zero one)) (button_data_ m)) m.

Definition GetButtonThreshold (index : Z) (m : t) : float :=
  if index <? NUM_BUTTONS then Cell.Threshold (cell index m) else zero.

Definition GetButtonValue (index : Z) (m : t) : float :=
  if is_connected_ m && (index <? NUM_BUTTONS) then Cell.Value (cell index m) else zero.

Definition GetMotorCount (m : t) : Z :=
  if is_connected_ m && negb (supported_forces_ m =? 0) then 1 else 0.

(** *** Connection *)

Definition OnDisconnected (m : t) : t :=
  (* std::memset(button_data_, 0, sizeof(button_data_)); data_ = {}; *)
  set_data MD.zero (set_button_data (replicate (Z.to_nat NUM_BUTTONS) Cell.zeroed) m).

(** orphan forces, close the file *)
Definition CloseDevFile (m : t) : t :=
  if file_desc_ m <? 0 then m else
  set_file_desc (-1)
    (set_forces
       (map (fun f => if existsb (fun ef => bool_decide (snd ef = force_id_ f)) (force_mapping m)
                      then mkLinuxForce (force_id_ f) (effect_id_ f) None FS_INACTIVE
                      else f)
            (forces_ m)) m).

Section WithApi.

Variable api : ApiCall -> M ApiResult.

Definition Disconnect : StM (World t) unit :=
  this ← this_;
  if negb (is_connected_ this) then mret tt else
  modify_this (fun m =>
    OnDisconnected
      (CloseDevFile
         (set_force_caps 0 zero 0 false false
            (set_connection false 0 [] (file_desc_ m) m))));;
  in_glob (DeviceStatusChanged api (id_ this) DISCONNECTED).

(** [QUERY_FF_CAPABILITY_] assigns the bit of a force type from a
    capability bit, [ENABLE_FF_CAPABILITY_] sets it; the periodic
    types are only ever enabled. *)
Definition periodic_types : Z :=
  Z.lor (Z.shiftl 1 ForceType.SINE)
    (Z.lor (Z.shiftl 1 ForceType.TRIANGLE)
       (Z.lor (Z.shiftl 1 ForceType.SQUARE)
          (Z.lor (Z.shiftl 1 ForceType.SAW_UP) (Z.shiftl 1 ForceType.SAW_DOWN)))).

Definition query_forces (ff : Z) (supported : Z) : Z :=
  let bit (enum_value code : Z) := if Z.testbit ff code then Z.shiftl 1 enum_value else 0 in
  Z.lor (bit ForceType.RUMBLE FF_RUMBLE)
    (Z.lor (bit ForceType.CONSTANT FF_RUMBLE)
       (Z.lor (bit ForceType.RAMP FF_RAMP)
          (Z.lor (bit ForceType.SPRING FF_SPRING)
             (Z.lor (bit ForceType.FRICTION FF_FRICTION)
                (Z.lor (bit ForceType.DAMPER FF_DAMPER)
                   (Z.lor (bit ForceType.INERTIA FF_INERTIA)
                      (if Z.testbit ff FF_PERIODIC then periodic_types
                       else Z.land supported periodic_types))))))).

Definition analyze_device (fd : DirEntry) (x : Z) : StM (World t) bool :=
  this ← this_;
  (* hardware ID and device type must match *)
  if bool_decide (hardware_id_ this = GetHWID fd x)
     && bool_decide (DeduceInputDeviceType fd = MOUSE)
     && clock_settable fd                         (* set timestamp clock ID *)
  then modify_this (set_connection true (last_update_timestamp_ this)
                      (pending_events_ this) x);;
       mret false                                 (* stop searching for devices *)
  else mret true.

Definition TryConnect : StM (World t) bool :=
  this ← this_;
  if is_connected_ this then mret true else
  w ← get;
  ForeachEventXFile open_rdwr_result analyze_device (dev_input (w_glob w)) 0;;
  this ← this_;
  if is_connected_ this then
    w ← get;
    (* query force capabilities; apply default force-feedback parameters *)
    let ff := from_option ff_capabilities 0 (os_node (file_desc_ this) (w_glob w)) in
    modify_this (fun m =>
      set_force_caps (query_forces ff (supported_forces_ m)) one
        (force_count_noorph_ m) (Z.testbit ff FF_GAIN) (Z.testbit ff FF_AUTOCENTER) m);;
    (* OnConnected() is empty for a mouse *)
    in_glob (DeviceStatusChanged api (id_ this) CONNECTED);;
    this ← this_;
    mret (is_connected_ this)
  else mret false.

Definition HandleFFStatusEvent (ev : input_event) (m : t) : t :=
  match List.find (fun ef => bool_decide (fst ef = ev_code ev)) (force_mapping m) with
  | None => m
  | Some (_, fid) =>
      set_forces
        (map (fun f => if bool_decide (force_id_ f = fid)
                       then mkLinuxForce (force_id_ f) (effect_id_ f) (p_device_ f)
                              (if ev_value ev =? FF_STATUS_STOPPED then FS_INACTIVE
                               else if ev_value ev =? FF_STATUS_PLAYING then FS_ACTIVE
                               else FS_UNKNOWN)
                       else f)
             (forces_ m)) m
  end.

(** reset deltas *)
Definition PreInputHandling (m : t) : t :=
  let d := data_ m in
  set_data (MD.mk (MD.x d) (MD.y d) 0 0 (MD.sx d) (MD.sy d) 0 0) m.

(** [if (button_data_[mb].Modify(value, ts, state)) ButtonChanged(mb, value, state);] *)
Definition modify_button (mb : Z) (value : float) (ts : timestamp_t) : StM (World t) unit :=
  this ← this_;
  let '(modified, state, d) := Cell.Modify value ts (cell mb this) in
  modify_this (fun m => set_button_data (<[Z.to_nat mb := d]> (button_data_ m)) m);;
  if modified then in_glob (Mouse_ButtonChanged api (id_ this) mb value state) else mret tt.

Definition float_of_bit (b : bool) : float := if b then one else zero.

(** The loop of [HandlePendingEvents] over the pending events, with
    the accumulators [(dx, dy, sdx, sdy, hrsdx, hrsdy)]. *)
Fixpoint fold_pending (evs : list input_event) (acc : Z * Z * Z * Z * Z * Z)
  : StM (World t) (Z * Z * Z * Z * Z * Z) :=
  match evs with
  | [] => mret acc
  | ev :: rest =>
      let '(dx, dy, sdx, sdy, hrsdx, hrsdy) := acc in
      if ev_type ev =? EV_REL then
        (* accumulate cursor and wheel movement *)
        let v := ev_value ev in
        fold_pending rest
          (if ev_code ev =? REL_X then (int64_wrap (dx + v), dy, sdx, sdy, hrsdx, hrsdy)
           else if ev_code ev =? REL_Y then (dx, int64_wrap (dy + v), sdx, sdy, hrsdx, hrsdy)
           else if ev_code ev =? REL_HWHEEL then (dx, dy, int64_wrap (sdx + v), sdy, hrsdx, hrsdy)
           else if ev_code ev =? REL_WHEEL then (dx, dy, sdx, int64_wrap (sdy + v), hrsdx, hrsdy)
           else if ev_code ev =? REL_HWHEEL_HI_RES
                then (dx, dy, sdx, sdy, int64_wrap (hrsdx + v), hrsdy)
           else if ev_code ev =? REL_WHEEL_HI_RES
                then (dx, dy, sdx, sdy, hrsdx, int64_wrap (hrsdy + v))
           else acc)
      else if ev_type ev =? EV_KEY then
        (if (BTN_LEFT <=? ev_code ev) && (ev_code ev <=? BTN_TASK)
         then modify_button (ev_code ev - BTN_LEFT)
                (float_of_bit (negb (ev_value ev =? 0))) (GetEventTimestamp ev)
         else mret tt);;
        fold_pending rest acc
      else if ev_type ev =? EV_FF_STATUS then
        modify_this (HandleFFStatusEvent ev);;
        fold_pending rest acc
      else fold_pending rest acc
  end.

(** [data_.x += dx; data_.y += dy; data_.dx += dx; data_.dy += dy;] *)
Definition add_motion (d : MD.MouseData) (mx my : Z) : MD.MouseData :=
  MD.mk (int64_wrap (MD.x d + mx)) (int64_wrap (MD.y d + my))
        (int64_wrap (MD.dx d + mx)) (int64_wrap (MD.dy d + my))
        (MD.sx d) (MD.sy d) (MD.sdx d) (MD.sdy d).

(** [data_.sx += sx; data_.sy += sy; data_.sdx += sx; data_.sdy += sy;] *)
Definition add_scroll (d : MD.MouseData) (msx msy : Z) : MD.MouseData :=
  MD.mk (MD.x d) (MD.y d) (MD.dx d) (MD.dy d)
        (int64_wrap (MD.sx d + msx)) (int64_wrap (MD.sy d + msy))
        (int64_wrap (MD.sdx d + msx)) (int64_wrap (MD.sdy d + msy)).

Definition HandlePendingEvents : StM (World t) unit :=
  this ← this_;
  acc ← fold_pending (pending_events_ this) (0, 0, 0, 0, 0, 0);
  let '(dx, dy, sdx, sdy, hrsdx, hrsdy) := acc in
  modify_this (set_pending_events []);;
  (* accumulate movement *)
  (if negb (dx =? 0) || negb (dy =? 0) then
     modify_this (fun m => set_data (add_motion (data_ m) dx dy) m);;
     this ← this_;
     in_glob (MouseMoved api (id_ this) (MD.x (data_ this)) (MD.y (data_ this)) dx dy)
   else mret tt);;
  (* accumulate scroll *)
  if negb (hrsdx =? 0) || negb (hrsdy =? 0) then
    (* use high-res scroll *)
    modify_this (fun m => set_data (add_scroll (data_ m) hrsdx hrsdy) m);;
    this ← this_;
    in_glob (MouseScrolled api (id_ this) (MD.sx (data_ this)) (MD.sy (data_ this)) hrsdx hrsdy)
  else if negb (sdx =? 0) || negb (sdy =? 0) then
    (* use low-res scroll *)
    let sdx_120 := int64_wrap (sdx * 120) in
    let sdy_120 := int64_wrap (sdy * 120) in
    modify_this (fun m => set_data (add_scroll (data_ m) sdx_120 sdy_120) m);;
    this ← this_;
    in_glob (MouseScrolled api (id_ this) (MD.sx (data_ this)) (MD.sy (data_ this))
               sdx_120 sdy_120)
  else mret tt.

Definition HandleBufferOverrun (timestamp : timestamp_t) : StM (World t) unit :=
  this ← this_;
  w ← get;
  match os_node (file_desc_ this) (w_glob w) ≫= global_keys with
  | None => Disconnect                 (* cannot query global key states *)
  | Some globks =>
      (* update mouse button states based on global query *)
      for_each (map Z.of_nat (seq 0 (Z.to_nat NUM_BUTTONS))) (fun mb =>
        modify_button mb (float_of_bit (Z.testbit globks (BTN_LEFT + mb))) timestamp)
  end.

(** The read loop of [Update]: [None] when [Update] returns from
    inside the loop, [Some r] when the loop ends on the read [r].
    Each turn consumes an event of the node, so [n] turns suffice
    for [n] events. *)
Fixpoint read_loop (n : nat) : StM (World t) (option ReadResult) :=
  this ← this_;
  r ← in_glob (os_read (file_desc_ this));
  match r with
  | ReadEvent ev =>
      match n with
      | O => out_of_fuel
      | S n' =>
          if ev_type ev =? EV_SYN then
            if ev_code ev =? SYN_DROPPED then
              (* buffer overrun, drop events *)
              modify_this (set_pending_events []);;
              HandleBufferOverrun (GetEventTimestamp ev);;
              read_loop n'
            else
              (if ev_code ev =? SYN_REPORT then
                 (* process a group of events *)
                 modify_this (fun m => set_last_update_timestamp
                                         (Z.max (last_update_timestamp_ m) (GetEventTimestamp ev)) m);;
                 HandlePendingEvents
               else mret tt);;
              this ← this_;
              if negb (is_connected_ this)
              then mret None          (* error in event handler caused disconnect, abort *)
              else read_loop n'
          else if ev_type ev =? EV_FF_STATUS then
            modify_this (HandleFFStatusEvent ev);;
            read_loop n'
          else
            (* device implementation handles event *)
            modify_this (fun m => set_pending_events (pending_events_ m ++ [ev]) m);;
            read_loop n'
      end
  | _ => mret (Some r)
  end.

Definition Update : StM (World t) unit :=
  this ← this_;
  in_glob (ProtectManagementAPI (Update_details (id_ this)));;
  connected ← (if is_connected_ this then mret true else TryConnect);
  if negb (connected : bool) then mret tt else
  now ← in_glob GetTimestampNow;
  modify_this (set_last_update_timestamp now);;
  modify_this PreInputHandling;;
  this ← this_;
  w ← get;
  r ← read_loop (length (from_option events [] (os_node (file_desc_ this) (w_glob w))));
  match r with
  | Some ReadFailure => Disconnect     (* error during event reading *)
  | _ => mret tt
  end.

End WithApi.

End LinuxMouse.

(** ** Aggregates ([common.hpp], lines 919-1203; [impl.cpp], lines 492-883) *)

(** The device interfaces, as an aggregate uses them.  A member is a
    pointer into the heap [H] of device objects, named by its id;
    [Update] may change the whole heap and the process-wide state. *)
Module Member.

Class IDevice (H : Type) : Type := {
  Update : ID -> StM (World H) unit;
  IsConnected : ID -> H -> bool;
  GetMotorCount : ID -> H -> Z
}.

Class IMouse (H : Type) : Type := {
  IMouse_IDevice :: IDevice H;
  GetPosition : ID -> H -> Z * Z -> Z * Z;
  GetScroll : ID -> H -> Z * Z -> Z * Z;
  GetButtonCount : ID -> H -> Z;
  GetButtonValue : ID -> Z -> H -> float
}.

Class IKeyboard (H : Type) : Type := {
  IKeyboard_IDevice :: IDevice H;
  GetKeyValue : ID -> Z -> H -> float
}.

Class IGamepad (H : Type) : Type := {
  IGamepad_IDevice :: IDevice H;
  GetThumbstickCount : ID -> H -> Z;
  GetThumbstick : ID -> Z -> H -> float * float;
  GetPadButtonValue : ID -> Z -> H -> float
}.

#[global] Existing Instance IMouse_IDevice.
#[global] Existing Instance IKeyboard_IDevice.
#[global] Existing Instance IGamepad_IDevice.

End Member.

Module AggregateImpl.

Record t : Type := mk {
  id_ : ID;
  is_connected_ : bool;
  members_ : list ID;                    (* member_count_ is its length *)
  last_update_timestamp_ : timestamp_t;
  force_to_member_ : list (ID * ID);
  motor_to_member_ : list (ID * Z)
}.

(** the object right after construction *)
Definition new (id : ID) (members : list ID) : t := mk id false members 0 [] [].

(** The classes derived from [AggregateImpl]: their base sub-object
    and their [OnDisconnected]. *)
Class Derived (A : Type) : Type := {
  base : A -> t;
  with_base : t -> A -> A;
  OnDisconnected : A -> A
}.

(** What every derived class satisfies: [with_base] writes the base
    sub-object, and [OnDisconnected] leaves it alone. *)
Class DerivedLaws (A : Type) `{Derived A} : Prop := {
  base_with_base : forall (b : t) (a : A), base (with_base b a) = b;
  base_OnDisconnected : forall a : A, base (OnDisconnected a) = base a
}.

(** The state of a method of an aggregate: the heap of the member
    objects and the aggregate itself. *)
Record State (H A : Type) : Type := mkState { heap : H; this : A }.
Arguments mkState {H A} heap this.
Arguments heap {H A} s.
Arguments this {H A} s.

Definition on_heap {H A B} (m : StM (World H) B) : StM (World (State H A)) B :=
  zoom (fun w => mkWorld (w_glob w) (heap (w_this w)))
       (fun w' w => mkWorld (w_glob w') (mkState (w_this w') (this (w_this w)))) m.

Definition self {H A} : StM (World (State H A)) A := fun w => Ok (this (w_this w)) w.
Definition members_heap {H A} : StM (World (State H A)) H := fun w => Ok (heap (w_this w)) w.
Definition modify_self {H A} (f : A -> A) : StM (World (State H A)) unit :=
  modify_this (fun s => mkState (heap s) (f (this s))).

(** [std::chrono::high_resolution_clock::now()] in microseconds; the
    model has one clock. *)
Definition GenericTimestampNow : M timestamp_t := fun g => Ok (clock_now g) g.

Section Update.
Context {H A : Type} `{Member.IDevice H} `{Derived A}.

(** The member loop: [true] when it runs to its end, [false] when
    it breaks at a member that is not connected. *)
Fixpoint update_members (members : list ID) : StM (World H) bool :=
  match members with
  | [] => mret true
  | m :: rest =>
      Member.Update m;;
      w ← get;
      if negb (Member.IsConnected m (w_this w)) then mret false
      else update_members rest
  end.

(** update motor mapping *)
Definition motor_mapping (members : list ID) (h : H) : list (ID * Z) :=
  concat (map (fun m => map (fun j => (m, Z.of_nat j))
                          (seq 0 (Z.to_nat (Member.GetMotorCount m h)))) members).

Definition Update : StM (World (State H A)) unit :=
  a ← self;
  in_glob (ProtectManagementAPI (Update_details (id_ (base a))));;
  connected ← on_heap (update_members (members_ (base a)));
  a ← self;
  (if negb (Bool.eqb connected (is_connected_ (base a))) then
     if negb connected then
       (* -> disconnected *)
       modify_self (fun a =>
         OnDisconnected
           (with_base (mk (id_ (base a)) connected (members_ (base a)) 0
                          (force_to_member_ (base a)) []) a))
     else
       modify_self (fun a =>
         with_base (mk (id_ (base a)) connected (members_ (base a))
                       (last_update_timestamp_ (base a))
                       (force_to_member_ (base a)) (motor_to_member_ (base a))) a)
   else mret tt);;
  if (connected : bool) then
    h ← members_heap;
    now ← in_glob GenericTimestampNow;
    modify_self (fun a =>
      with_base (mk (id_ (base a)) (is_connected_ (base a)) (members_ (base a)) now
                    (force_to_member_ (base a))
                    (motor_mapping (members_ (base a)) h)) a)
  else mret tt.

Definition GetMotorCount (a : A) : Z :=
  if is_connected_ (base a)
  then Z.of_nat (length (motor_to_member_ (base a))) mod 2 ^ 32 else 0.

End Update.

End AggregateImpl.

Module AggregateMouse.

Record MouseAccu : Type := mkAccu {
  x : Z; y : Z; sx : Z; sy : Z; is_available : bool
}.
Definition accu_zero : MouseAccu := mkAccu 0 0 0 0 false.

Record t : Type := mk {
  impl : AggregateImpl.t;
  data_ : MD.MouseData;
  prev_data_ : list MouseAccu;           (* one per member *)
  button_data_ : list TSTV;              (* std::vector<TSTV> *)
  button_count_ : Z
}.

(** [AggregateMouse(members, member_count)] *)
Definition new (id : ID) (members : list ID) : t :=
  mk (AggregateImpl.new id members) MD.zero (replicate (length members) accu_zero) [] 0.

Definition OnDisconnected (a : t) : t :=
  (* std::memset(prev_data_.get(), 0, ..); button_data_.clear(); button_count_ = 0; *)
  mk (impl a) (data_ a) (replicate (length (AggregateImpl.members_ (impl a))) accu_zero) [] 0.

#[global] Instance derived : AggregateImpl.Derived t := {|
  AggregateImpl.base := impl;
  AggregateImpl.with_base := fun b a => mk b (data_ a) (prev_data_ a) (button_data_ a) (button_count_ a);
  AggregateImpl.OnDisconnected := OnDisconnected
|}.

Definition is_connected_ (a : t) : bool := AggregateImpl.is_connected_ (impl a).

Definition GetPosition (a : t) (xy : Z * Z) : Z * Z :=
  if negb (is_connected_ a) then xy else (MD.x (data_ a), MD.y (data_ a)).
Definition GetDelta (a : t) (xy : Z * Z) : Z * Z :=
  if negb (is_connected_ a) then xy else (MD.dx (data_ a), MD.dy (data_ a)).
Definition GetScroll (a : t) (xy : Z * Z) : Z * Z :=
  if negb (is_connected_ a) then xy else (MD.sx (data_ a), MD.sy (data_ a)).
Definition GetScrollDelta (a : t) (xy : Z * Z) : Z * Z :=
  if negb (is_connected_ a) then xy else (MD.sdx (data_ a), MD.sdy (data_ a)).

Definition GetButtonCount (a : t) : Z := if is_connected_ a then button_count_ a else 0.

Definition cell (index : Z) (a : t) : TSTV :=
  default Cell.zeroed (button_data_ a !! Z.to_nat index).

Definition SetButtonThreshold (index : Z) (threshold : float) (a : t) : t :=
  if index <? button_count_ a
  then mk (impl a) (data_ a) (prev_data_ a)
          (alter (Cell.SetThreshold (fclamp threshold zero one)) (Z.to_nat index) (button_data_ a))
          (button_count_ a)
  else a.

Definition SetGlobalThreshold (threshold : float) (a : t) : t :=
  mk (impl a) (data_ a) (prev_data_ a)
     (map (Cell.SetThreshold (fclamp threshold zero one)) (button_data_ a)) (button_count_ a).

Definition GetButtonValue (index : Z) (a : t) : float :=
  if is_connected_ a && (index <? button_count_ a) then Cell.Value (cell index a) else zero.

Section Update.
Context {H : Type} `{Member.IMouse H}.
Variable api : ApiCall -> M ApiResult.
(** the content of an uninitialised [int64_t] local *)
Variable indeterminate : Z.

Local Abbreviation St := (StM (World (AggregateImpl.State H t))).

(** The loop over the members: the deltas [(dx, dy, sdx, sdy)], the
    accumulators and [new_values]. *)
Fixpoint merge_members (h : H) (bc : Z) (button_data : list TSTV)
    (members : list ID) (prev : list MouseAccu)
    (acc : Z * Z * Z * Z) (new_values : list float)
  : Z * Z * Z * Z * list MouseAccu * list float :=
  match members, prev with
  | p_member :: members', accu :: prev' =>
      let '(dx, dy, sdx, sdy) := acc in
      let '(px, py) := Member.GetPosition p_member h (indeterminate, indeterminate) in
      let '(psx, psy) := Member.GetScroll p_member h (indeterminate, indeterminate) in
      (* accumulate delta of all members *)
      let acc' := if is_available accu
                  then (int64_wrap (dx + int64_wrap (px - x accu)),
                        int64_wrap (dy + int64_wrap (py - y accu)),
                        int64_wrap (sdx + int64_wrap (psx - sx accu)),
                        int64_wrap (sdy + int64_wrap (psy - sy accu)))
                  else acc in
      (* find max analog button values *)
      let maxb := Z.min bc (Member.GetButtonCount p_member h) in
      let new_values' :=
        fold_left (fun nv b =>
                     <[b := fmax (Member.GetButtonValue p_member (Z.of_nat b) h)
                                 (Cell.Value (default Cell.zeroed (button_data !! b)))]> nv)
                  (seq 0 (Z.to_nat maxb)) new_values in
      let '(r, prev'', nv) :=
        merge_members h bc button_data members' prev' acc' new_values' in
      (r, mkAccu px py psx psy true :: prev'', nv)
  | _, _ => (acc, prev, new_values)
  end.

(** update button data *)
Fixpoint update_buttons (bs : list nat) (new_values : list float) : St unit :=
  match bs with
  | [] => mret tt
  | b :: rest =>
      a ← AggregateImpl.self;
      let value := default zero (new_values !! b) in
      let '(modified, state, d) :=
        Cell.Modify value (AggregateImpl.last_update_timestamp_ (impl a))
                    (cell (Z.of_nat b) a) in
      AggregateImpl.modify_self (fun a =>
        mk (impl a) (data_ a) (prev_data_ a) (<[b := d]> (button_data_ a)) (button_count_ a));;
      (if modified
       then in_glob (Mouse_ButtonChanged api (AggregateImpl.id_ (impl a)) (Z.of_nat b) value state)
       else mret tt);;
      update_buttons rest new_values
  end.

Definition Update : St unit :=
  AggregateImpl.Update;;
  a ← AggregateImpl.self;
  if negb (is_connected_ a) then mret tt else
  h ← AggregateImpl.members_heap;
  let members := AggregateImpl.members_ (impl a) in
  (* get maximum number of addressable buttons *)
  let bc := fold_left (fun bc m => Z.max bc (Member.GetButtonCount m h)) members 0 in
  (* button count rarely changes *)
  let button_data := if negb (bc =? button_count_ a)
                     then replicate (Z.to_nat bc) Cell.zeroed else button_data_ a in
  let '(dx, dy, sdx, sdy, prev, new_values) :=
    merge_members h bc button_data members (prev_data_ a) (0, 0, 0, 0)
                  (replicate (Z.to_nat bc) zero) in
  (* update mouse data *)
  let d := data_ a in
  let data := MD.mk (int64_wrap (MD.x d + dx)) (int64_wrap (MD.y d + dy)) dx dy
                    (int64_wrap (MD.sx d + sdx)) (int64_wrap (MD.sy d + sdy)) sdx sdy in
  AggregateImpl.modify_self (fun a => mk (impl a) data prev button_data bc);;
  (if negb (dx =? 0) || negb (dy =? 0)
   then in_glob (MouseMoved api (AggregateImpl.id_ (impl a)) (MD.x data) (MD.y data) dx dy)
   else mret tt);;
  (if negb (sdx =? 0) || negb (sdy =? 0)
   then in_glob (MouseScrolled api (AggregateImpl.id_ (impl a)) (MD.sx data) (MD.sy data) sdx sdy)
   else mret tt);;
  update_buttons (seq 0 (Z.to_nat bc)) new_values.

End Update.

End AggregateMouse.

Module AggregateKeyboard.

Record t : Type := mk {
  impl : AggregateImpl.t;
  key_data_ : list TSTV;                 (* TSTV key_data_[NUM_KEY_CODES] *)
  num_keys_pressed_ : Z                  (* uint32_t *)
}.

Definition new (id : ID) (members : list ID) : t :=
  mk (AggregateImpl.new id members) (replicate (Z.to_nat NUM_KEY_CODES) Cell.zeroed) 0.

Definition OnDisconnected (a : t) : t :=
  (* std::memset(key_data_, 0, sizeof(key_data_)); num_keys_pressed_ = 0; *)
  mk (impl a) (replicate (Z.to_nat NUM_KEY_CODES) Cell.zeroed) 0.

#[global] Instance derived : AggregateImpl.Derived t := {|
  AggregateImpl.base := impl;
  AggregateImpl.with_base := fun b a => mk b (key_data_ a) (num_keys_pressed_ a);
  AggregateImpl.OnDisconnected := OnDisconnected
|}.

Definition is_connected_ (a : t) : bool := AggregateImpl.is_connected_ (impl a).

Definition GetNumKeysPressed (a : t) : Z := if is_connected_ a then num_keys_pressed_ a else 0.

Definition SetKeyThreshold (key : Z) (threshold : float) (a : t) : t :=
  if IsValidKey key
  then mk (impl a)
          (alter (Cell.SetThreshold (fclamp threshold zero one)) (Z.to_nat key) (key_data_ a))
          (num_keys_pressed_ a)
  else a.

Definition SetGlobalThreshold (threshold : float) (a : t) : t :=
  mk (impl a) (map (Cell.SetThreshold (fclamp threshold zero one)) (key_data_ a))
     (num_keys_pressed_ a).

Section Update.
Context {H : Type} `{Member.IKeyboard H}.
Variable api : ApiCall -> M ApiResult.

Local Abbreviation St := (StM (World (AggregateImpl.State H t))).

(** find maximum analog values of each key *)
Definition merged_value (h : H) (members : list ID) (k : Z) : float :=
  fold_left (fun v m => fmax v (Member.GetKeyValue m k h)) members zero.

(** update key data *)
Fixpoint update_keys (h : H) (ks : list nat) : St unit :=
  match ks with
  | [] => mret tt
  | k :: rest =>
      a ← AggregateImpl.self;
      let value := merged_value h (AggregateImpl.members_ (impl a)) (Z.of_nat k) in
      let '(modified, state, d, counter) :=
        Cell.Modify_kbd value (AggregateImpl.last_update_timestamp_ (impl a))
                        (default Cell.zeroed (key_data_ a !! k)) (num_keys_pressed_ a) in
      AggregateImpl.modify_self (fun a => mk (impl a) (<[k := d]> (key_data_ a)) counter);;
      (if modified
       then in_glob (KeyChanged api (AggregateImpl.id_ (impl a)) (Z.of_nat k) value state)
       else mret tt);;
      update_keys h rest
  end.

Definition Update : St unit :=
  AggregateImpl.Update;;
  a ← AggregateImpl.self;
  if negb (is_connected_ a) then mret tt else
  h ← AggregateImpl.members_heap;
  update_keys h (seq 0 (Z.to_nat NUM_KEY_CODES)).

End Update.

End AggregateKeyboard.

Module AggregateGamepad.

Record t : Type := mk {
  impl : AggregateImpl.t;
  button_data_ : list TSTV;              (* TSTV button_data_[NUM_BUTTON_CODES] *)
  thumbstick_values_ : list (float * float);
  thumbstick_count_ : Z                  (* uint32_t *)
}.

Definition new (id : ID) (members : list ID) : t :=
  mk (AggregateImpl.new id members) (replicate (Z.to_nat NUM_BUTTON_CODES) Cell.zeroed) [] 0.

Definition OnDisconnected (a : t) : t :=
  (* std::memset(button_data_, 0, ..); thumbstick_values_.clear(); thumbstick_count_ = 0; *)
  mk (impl a) (replicate (Z.to_nat NUM_BUTTON_CODES) Cell.zeroed) [] 0.

#[global] Instance derived : AggregateImpl.Derived t := {|
  AggregateImpl.base := impl;
  AggregateImpl.with_base :=
    fun b a => mk b (button_data_ a) (thumbstick_values_ a) (thumbstick_count_ a);
  AggregateImpl.OnDisconnected := OnDisconnected
|}.

Definition is_connected_ (a : t) : bool := AggregateImpl.is_connected_ (impl a).

Definition SetButtonThreshold (button : Z) (threshold : float) (a : t) : t :=
  if IsValidButton button
  then mk (impl a)
          (alter (Cell.SetThreshold (fclamp threshold zero one)) (Z.to_nat button) (button_data_ a))
          (thumbstick_values_ a) (thumbstick_count_ a)
  else a.

Definition SetGlobalThreshold (threshold : float) (a : t) : t :=
  mk (impl a) (map (Cell.SetThreshold (fclamp threshold zero one)) (button_data_ a))
     (thumbstick_values_ a) (thumbstick_count_ a).

Section Update.
Context {H : Type} `{Member.IGamepad H}.
Variable api : ApiCall -> M ApiResult.

Local Abbreviation St := (StM (World (AggregateImpl.State H t))).

(** update thumbstick data of one member, from [th_index] on *)
Fixpoint update_thumbsticks (h : H) (p_member : ID) (th_reset : bool) (ts : list nat)
    (th_index : Z) : St Z :=
  match ts with
  | [] => mret th_index
  | t_ :: rest =>
      a ← AggregateImpl.self;
      let '(x, y) := Member.GetThumbstick p_member (Z.of_nat t_) h in
      let tval := default (zero, zero) (thumbstick_values_ a !! Z.to_nat th_index) in
      (if fneq x (fst tval) || fneq y (snd tval) || th_reset
       then in_glob (ThumbstickChanged api (AggregateImpl.id_ (impl a)) th_index x y)
       else mret tt);;
      AggregateImpl.modify_self (fun a =>
        mk (impl a) (button_data_ a)
           (<[Z.to_nat th_index := (x, y)]> (thumbstick_values_ a)) (thumbstick_count_ a));;
      update_thumbsticks h p_member th_reset rest (uint32_wrap (th_index + 1))
  end.

Fixpoint update_members_thumbsticks (h : H) (th_reset : bool) (members : list ID)
    (th_index : Z) : St unit :=
  match members with
  | [] => mret tt
  | p_member :: rest =>
      th_index' ← update_thumbsticks h p_member th_reset
                     (seq 0 (Z.to_nat (Member.GetThumbstickCount p_member h))) th_index;
      update_members_thumbsticks h th_reset rest th_index'
  end.

(** find maximum analog values of each button *)
Definition merged_value (h : H) (members : list ID) (b : Z) : float :=
  fold_left (fun v m => fmax v (Member.GetPadButtonValue m b h)) members zero.

(** update button data *)
Fixpoint update_buttons (h : H) (bs : list nat) : St unit :=
  match bs with
  | [] => mret tt
  | b :: rest =>
      a ← AggregateImpl.self;
      let value := merged_value h (AggregateImpl.members_ (impl a)) (Z.of_nat b) in
      let '(modified, state, d) :=
        Cell.Modify value (AggregateImpl.last_update_timestamp_ (impl a))
                    (default Cell.zeroed (button_data_ a !! b)) in
      AggregateImpl.modify_self (fun a =>
        mk (impl a) (<[b := d]> (button_data_ a)) (thumbstick_values_ a) (thumbstick_count_ a));;
      (if modified
       then in_glob (Gamepad_ButtonChanged api (AggregateImpl.id_ (impl a)) (Z.of_nat b) value state)
       else mret tt);;
      update_buttons h rest
  end.

Definition Update : St unit :=
  AggregateImpl.Update;;
  a ← AggregateImpl.self;
  if negb (is_connected_ a) then mret tt else
  h ← AggregateImpl.members_heap;
  let members := AggregateImpl.members_ (impl a) in
  let tc := fold_left (fun tc m => uint32_wrap (tc + Member.GetThumbstickCount m h)) members 0 in
  (* reset when number of thumbsticks changes *)
  let th_reset := negb (tc =? thumbstick_count_ a) in
  (if th_reset
   then AggregateImpl.modify_self (fun a =>
          mk (impl a) (button_data_ a) (replicate (Z.to_nat tc) (zero, zero)) tc)
   else mret tt);;
  update_members_thumbsticks h th_reset members 0;;
  update_buttons h (seq 0 (Z.to_nat NUM_BUTTON_CODES)).

End Update.

End AggregateGamepad.

(** ** A heap of [LinuxMouse] objects as members *)

Module MouseHeap.

Definition object_method {A} (id : ID) (m : LinuxMouse.t)
    (method : StM (World LinuxMouse.t) A) : StM (World (gmap Z LinuxMouse.t)) A :=
  zoom (fun w => mkWorld (w_glob w) m)
       (fun w' w => mkWorld (w_glob w') (<[id := w_this w']> (w_this w))) method.

Definition Update (api : ApiCall -> M ApiResult) (id : ID)
  : StM (World (gmap Z LinuxMouse.t)) unit :=
  w ← get;
  match w_this w !! id with
  | Some m => object_method id m (LinuxMouse.Update api)
  | None => mret tt                      (* no object behind the pointer *)
  end.

Definition on_object {A} (f : LinuxMouse.t -> A) (dflt : A) (id : ID)
    (h : gmap Z LinuxMouse.t) : A :=
  from_option f dflt (h !! id).

Definition IDevice (api : ApiCall -> M ApiResult) : Member.IDevice (gmap Z LinuxMouse.t) := {|
  Member.Update := Update api;
  Member.IsConnected := on_object LinuxMouse.is_connected_ false;
  Member.GetMotorCount := on_object LinuxMouse.GetMotorCount 0
|}.

Definition IMouse (api : ApiCall -> M ApiResult) : Member.IMouse (gmap Z LinuxMouse.t) := {|
  Member.IMouse_IDevice := IDevice api;
  Member.GetPosition := fun id h xy => on_object (fun m => LinuxMouse.GetPosition m xy) xy id h;
  Member.GetScroll := fun id h xy => on_object (fun m => LinuxMouse.GetScroll m xy) xy id h;
  Member.GetButtonCount := on_object LinuxMouse.GetButtonCount 0;
  Member.GetButtonValue := fun id index => on_object (LinuxMouse.GetButtonValue index) zero id
|}.

End MouseHeap.

(** ** Force parameter translation ([crossput.hpp], lines 386-401;
    [impl_linux.cpp], lines 1186-1238) *)

Module Force.

Record ForceEnvelope : Type := mkForceEnvelope {
  attack_time : float;
  attack_gain : float;
  sustain_time : float;
  sustain_gain : float;
  release_time : float;
  release_gain : float
}.

(** Maximum total time any force can be active, in seconds. *)
Definition MAX_TIME : float := of_Z 32.

(** [struct ff_envelope] of [<linux/input.h>] *)
Record ff_envelope : Type := mk_ff_envelope {
  attack_length : Z;
  attack_level : Z;
  fade_length : Z;
  fade_level : Z
}.

Record ff_ramp_effect : Type := mk_ff_ramp_effect {
  start_level : Z;
  end_level : Z;
  envelope : ff_envelope
}.

Record RampForceParams : Type := mkRampForceParams {
  magnitude_start : float;
  magnitude_end : float;
  ramp_envelope : ForceEnvelope
}.

Definition f1E3 : float := of_Z 1000.

(** when the sum of times exceeds MAX_TIME, all times are scaled back
    into the valid range *)
Definition scale (envelope : ForceEnvelope) : float :=
  fdiv one
    (fmax one
       (fmul (fadd (fadd (fmax zero (attack_time envelope)) (fmax zero (sustain_time envelope)))
                   (fmax zero (release_time envelope)))
             (fdiv one MAX_TIME))).

(** The result is the envelope and the value stored in [duration];
    [None] where a conversion to [uint16_t] is undefined. *)
Definition TranslateEnvelope (envelope : ForceEnvelope) : option (ff_envelope * Z) :=
  let m := scale envelope in
  duration ← to_uint16 (fmul (fmul (sustain_time envelope) m) f1E3);
  al ← to_uint16 (fmul (fmul (attack_time envelope) m) f1E3);
  av ← to_uint16 (fmul (fclamp (attack_gain envelope) zero one) (of_Z 32767));
  fl ← to_uint16 (fmul (fmul (release_time envelope) m) f1E3);
  fv ← to_uint16 (fmul (fclamp (release_gain envelope) zero one) (of_Z 32767));
  Some (mk_ff_envelope al av fl fv, duration).

Definition to_int16 (x : float) : option Z :=
  n ← trunc x;
  if (-32768 <=? n) && (n <? 32768) then Some n else None.

Definition TranslateMagnitude (magnitude : float) : option Z :=
  let M_LIMIT := fdiv (of_Z 32767) f1E3 in
  to_int16 (fclamp (fmul magnitude f1E3) (SFopp M_LIMIT) M_LIMIT).

(** The ramp effect and the value stored in [effect.replay.length]. *)
Definition TranslateRampParams (params : RampForceParams) : option (ff_ramp_effect * Z) :=
  s ← TranslateMagnitude (magnitude_start params);
  e ← TranslateMagnitude (magnitude_end params);
  '(env, duration) ← TranslateEnvelope (ramp_envelope params);
  Some (mk_ff_ramp_effect s e env, duration).

(** The three durations of the native descriptor, in milliseconds:
    attack, sustain ([replay.length]) and release. *)
Definition durations (envelope : ForceEnvelope) : option (Z * Z * Z) :=
  '(env, duration) ← TranslateEnvelope envelope;
  Some (attack_length env, duration, fade_length env).

End Force.

(** ** Observations on outcomes *)

(** The state in which a computation ends, by return or by exception. *)
Definition final_state {S A} (o : Outcome S A) : option S :=
  match o with
  | Ok _ s => Some s
  | Throw _ s => Some s
  | OutOfFuel => None
  end.

Definition returns {S A} (o : Outcome S A) : bool :=
  match o with Ok _ _ => true | _ => false end.

(** The callbacks behind [equal_range(key)] that are still registered,
    in the order of the range: the invocations of one
    [ExecuteCallbacks_Impl]. *)
Definition bucket (key : EventCallbackKey) (g : Glob) : list ID :=
  List.filter (fun id => bool_decide (is_Some (glob_callbacks g !! id)))
              (mm_equal_range key (glob_callback_mapping g)).

(** [g1] differs from [g] at most in the dispatch index and the log. *)
Definition dispatch_frame (g g1 : Glob) : Prop :=
  glob_id_counter g1 = glob_id_counter g
  /\ glob_interfaces g1 = glob_interfaces g
  /\ glob_disable_management_api g1 = glob_disable_management_api g
  /\ glob_callbacks g1 = glob_callbacks g
  /\ glob_dev_to_aggr g1 = glob_dev_to_aggr g
  /\ nat_device_ids g1 = nat_device_ids g
  /\ dev_input g1 = dev_input g
  /\ clock_now g1 = clock_now g.

(** The callbacks entered, in order, as the log shows them. *)
Definition invoked (l : list LogEntry) : list ID :=
  omap (fun e => match e with Invoked cb _ _ => Some cb | _ => None end) l.

(** ** Scenarios: the concrete inputs used by the properties below *)

(** The values of scenario 2 and the nearby sequence, as [float]
    literals. *)
Definition half : float := of_decimal 5 10.
Definition scenario_values : list float :=
  [of_decimal 48 100; of_decimal 49 100; of_decimal 5125 10000;
   of_decimal 4875 10000; of_decimal 49 100].
Definition inside_values : list float :=
  [of_decimal 48 100; of_decimal 49 100; of_decimal 52 100;
   of_decimal 49 100; of_decimal 48 100].


(** The order of dispatch the specification gives: device-specific
    filtered, device-specific any, global filtered, global any. *)
Definition specified_order (t : CallbackType) (device : ID) (value_filter : Z) (g : Glob)
  : list ID :=
  bucket (ConstructEventCallbackKey_filter t device value_filter) g
  ++ bucket (ConstructEventCallbackKey t device) g
  ++ bucket (ConstructEventCallbackKey_filter t 0 value_filter) g
  ++ bucket (ConstructEventCallbackKey t 0) g.

(** The order of dispatch of the code: the filtered callbacks of the
    device and the global ones, then the unfiltered ones of the device
    and the global ones. *)
Definition dispatch_order (t : CallbackType) (device : ID) (value_filter : Z) (g : Glob)
  : list ID :=
  bucket (ConstructEventCallbackKey_filter t device value_filter) g
  ++ bucket (ConstructEventCallbackKey_filter t 0 value_filter) g
  ++ bucket (ConstructEventCallbackKey t device) g
  ++ bucket (ConstructEventCallbackKey t 0) g.

(** A management call made by the program itself, with no device work
    behind [Update()], and the state it leaves. *)
Definition no_update : ID -> M unit := fun _ => mret tt.
Definition call (c : ApiCall) (g : Glob) : Outcome Glob ApiResult := run_api no_update 8 c g.
Definition after {S A} (o : Outcome S A) (s : S) : S := default s (final_state o).
Definition exec (c : ApiCall) (g : Glob) : Glob := after (call c g) g.

(** An input node with the capabilities of a plain three-button mouse:
    EV_SYN, EV_KEY and EV_REL, and the keys BTN_LEFT, BTN_RIGHT and
    BTN_MIDDLE. *)
Definition mouse_ev_bits : Z :=
  Z.lor (Z.shiftl 1 EV_SYN) (Z.lor (Z.shiftl 1 EV_KEY) (Z.shiftl 1 EV_REL)).
Definition mouse_key_bits : Z :=
  Z.lor (Z.shiftl 1 BTN_LEFT) (Z.lor (Z.shiftl 1 BTN_RIGHT) (Z.shiftl 1 BTN_MIDDLE)).
Definition mouse_node (name : string) (evs : list input_event) (fails : bool) : DirEntry :=
  mkDirEntry false name Opened None None None mouse_ev_bits mouse_key_bits 0
             Opened true (Some 0) evs fails.

(** One mouse is discovered (device 1); a button callback is attached
    to it without a filter (callback 2) and a global button callback
    is registered for button 0 (callback 3). *)
Definition one_mouse : Glob := exec DiscoverDevices_ (Glob_initial [mouse_node "event0" [] false]).
Definition two_callbacks : Glob :=
  exec (RegisterGlobalCallback_ _MouseButtonCallback (Some 0) [])
       (exec (RegisterCallback_ 1 _MouseButtonCallback None []) one_mouse).

(** Button 0 of device 1 changes in that state. *)
Definition button_dispatched : Glob :=
  after (Mouse_ButtonChanged (run_api no_update 8) 1 0 one true two_callbacks) two_callbacks.

(** The initial state with the guard flag set, as inside a callback. *)
Definition blocked_initial : Glob := set_disable_management_api true (Glob_initial []).

(** The devices whose objects were deleted, and the devices for which
    a status change was emitted, in the order of the log. *)
Definition deleted (l : list LogEntry) : list ID :=
  omap (fun e => match e with Deleted d => Some d | _ => None end) l.

Definition emitted_status (s : DeviceStatusChange) (l : list LogEntry) : list ID :=
  omap (fun e => match e with
                 | Emitted d _ (StatusData s') => if bool_decide (s' = s) then Some d else None
                 | _ => None
                 end) l.

(** Scenario 7.  Two mice are discovered (D1 = 1, D2 = 2), a global
    callback for the status DESTROYED is registered (callback 3), the
    aggregate A over {D1, D2} is created (A = 4) and the aggregate B
    over {A} is constructed (B = 5).  [Aggregate] returns the device
    itself for a single id, so B is built by the constructor of the
    class and registered as [Aggregate] registers. *)
Definition two_mice : Glob :=
  exec DiscoverDevices_
       (Glob_initial [mouse_node "event0" [] false; mouse_node "event1" [] false]).
Definition with_A : Glob :=
  exec (Aggregate_ [1; 2] UNKNOWN)
       (exec (RegisterGlobalCallback_ _StatusCallback
                (Some (DeviceStatusChange_value DESTROYED)) []) two_mice).
Definition with_B : Glob :=
  after ((p ← new_Aggregate MOUSE [4]; insert_interface p) with_A) with_A.
Definition D1_destroyed : Glob := exec (DestroyDevice_ 1) with_B.


(** A mouse that moved, and its node unplugged.  The node of the one
    mouse holds a press of the left button and a motion by (5, 3); the
    first [Update()] of the device object connects and reads them.
    Then the node disappears from [/dev/input] and the next
    [Update()] fails to read. *)
Definition key_event (code value : Z) : input_event := mk_input_event EV_KEY code value 0 0.
Definition rel_event (code value : Z) : input_event := mk_input_event EV_REL code value 0 0.
Definition syn_report : input_event := mk_input_event EV_SYN SYN_REPORT 0 0 0.

Definition moving_node : DirEntry :=
  mouse_node "event0" [key_event BTN_LEFT 1; rel_event REL_X 5; rel_event REL_Y 3; syn_report]
             false.

Definition mouse_created : World LinuxMouse.t :=
  mkWorld (exec DiscoverDevices_ (Glob_initial [moving_node])) (LinuxMouse.new 1 (HWID_c 0)).

Definition mouse_moved : World LinuxMouse.t :=
  after (LinuxMouse.Update (run_api no_update 8) mouse_created) mouse_created.

Definition unplug {T} (w : World T) : World T :=
  mkWorld (set_dev_input [] (w_glob w)) (w_this w).

Definition mouse_unplugged : World LinuxMouse.t :=
  after (LinuxMouse.Update (run_api no_update 8) (unplug mouse_moved)) (unplug mouse_moved).

(** The object [LinuxDevice::Disconnect] leaves behind. *)
Definition disconnected_object (m : LinuxMouse.t) : LinuxMouse.t :=
  LinuxMouse.OnDisconnected
    (LinuxMouse.CloseDevFile
       (LinuxMouse.set_force_caps 0 zero 0 false false
          (LinuxMouse.set_connection false 0 [] (LinuxMouse.file_desc_ m) m))).

(** An aggregate mouse that accumulated a position and whose
    connection is lost. *)
Definition aggregate_moved : AggregateMouse.t :=
  AggregateMouse.mk (AggregateImpl.mk 3 true [1; 2] 7 [] [])
                    (MD.mk 5 3 5 3 0 (-120) 0 (-120))
                    [AggregateMouse.mkAccu 5 3 0 (-120) true; AggregateMouse.accu_zero]
                    [Cell.zeroed; Cell.zeroed; Cell.zeroed] 3.

(** Envelopes with times in whole seconds and full gains. *)
Definition envelope_of_seconds (a s r : Z) : Force.ForceEnvelope :=
  Force.mkForceEnvelope (of_Z a) one (of_Z s) one (of_Z r) one.

Definition whole_seconds : list Z := map Z.of_nat (seq 0 41).

(** A native duration [d] (milliseconds) against the exact share of
    [t] seconds out of [T] in 32 s: never above it, less than 2 ms
    below it. *)
Definition share_ok (t d T : Z) : bool :=
  (t * 32000 - 2 * T <? d * T) && (d * T <=? t * 32000).

Definition scaled_ok (a s r : Z) : bool :=
  if a + s + r <=? 32 then true else
  match Force.durations (envelope_of_seconds a s r) with
  | Some (da, ds, dr) =>
      (31997 <=? da + ds + dr) && (da + ds + dr <=? 32000)
      && share_ok a da (a + s + r) && share_ok s ds (a + s + r) && share_ok r dr (a + s + r)
  | None => false
  end.



(** ** Observations on aggregates *)

(** The world of the members behind the world of an aggregate's
    method, and the world of the method after the members ran. *)
Definition members_world {H A} (w : World (AggregateImpl.State H A)) : World H :=
  mkWorld (w_glob w) (AggregateImpl.heap (w_this w)).
Definition aggregate_world {H A} (wh : World H) (a : A) : World (AggregateImpl.State H A) :=
  mkWorld (w_glob wh) (AggregateImpl.mkState (w_this wh) a).

Definition aggregate_members {H A} `{AggregateImpl.Derived A}
    (w : World (AggregateImpl.State H A)) : list ID :=
  AggregateImpl.members_ (AggregateImpl.base (AggregateImpl.this (w_this w))).

(** Every member of the list is updated in its turn, returns, and is
    connected right after its own update. *)
Definition observed_connected {H} `{Member.IDevice H} (members : list ID) (w : World H) : Prop :=
  forall pre m post,
    members = pre ++ m :: post ->
    exists w1, for_each (pre ++ [m]) Member.Update w = Ok tt w1
               /\ Member.IsConnected m (w_this w1) = true.

(** The object [AggregateImpl::Update] leaves behind on the transition
    from connected to disconnected. *)
Definition aggregate_disconnected {A} `{AggregateImpl.Derived A} (a : A) : A :=
  AggregateImpl.OnDisconnected
    (AggregateImpl.with_base
       (AggregateImpl.mk (AggregateImpl.id_ (AggregateImpl.base a)) false
                         (AggregateImpl.members_ (AggregateImpl.base a)) 0
                         (AggregateImpl.force_to_member_ (AggregateImpl.base a)) [])
       a).

(** Two mice are discovered and aggregated (the aggregate is device 3).
    The first [Update()] of the aggregate connects both members and
    reads the press and the motion of the first one.  Then the node of
    the first mouse is unplugged, while the second mouse moves by 4. *)
Definition mouse_heap : gmap Z LinuxMouse.t :=
  <[1 := LinuxMouse.new 1 (HWID_c 0)]> (<[2 := LinuxMouse.new 2 (HWID_c 1)]> ∅).

Abbreviation AggregateMouseWorld :=
  (World (AggregateImpl.State (gmap Z LinuxMouse.t) AggregateMouse.t)).

Definition AggregateMouse_Update : StM AggregateMouseWorld unit :=
  @AggregateMouse.Update _ (MouseHeap.IMouse (run_api no_update 8)) (run_api no_update 8) 0.

Definition both_plugged : AggregateMouseWorld :=
  mkWorld (set_dev_input [moving_node; mouse_node "event1" [] false]
             (exec (Aggregate_ [1; 2] UNKNOWN) two_mice))
          (AggregateImpl.mkState mouse_heap (AggregateMouse.new 3 [1; 2])).

Definition aggregate_connected : AggregateMouseWorld :=
  after (AggregateMouse_Update both_plugged) both_plugged.

Definition first_lost : AggregateMouseWorld :=
  mkWorld (set_dev_input [mouse_node "event1" [rel_event REL_X 4; syn_report] false]
             (w_glob aggregate_connected))
          (w_this aggregate_connected).

Definition aggregate_updated : AggregateMouseWorld :=
  after (AggregateMouse_Update first_lost) first_lost.

(** The second member updated on its own, in the same state. *)
Definition second_updated : World (gmap Z LinuxMouse.t) :=
  after (MouseHeap.Update (run_api no_update 8) 2 (members_world first_lost))
        (members_world first_lost).

(** The accumulated position of a member. *)
Definition position_of (id : ID) (h : gmap Z LinuxMouse.t) : option (Z * Z) :=
  (fun m => (MD.x (LinuxMouse.data_ m), MD.y (LinuxMouse.data_ m))) <$> h !! id.


(** ** Observations on a dispatch *)

(** A callback that is still registered. *)
Definition live (g : Glob) (id : ID) : bool :=
  bool_decide (is_Some (glob_callbacks g !! id)).

(** The loop of [ExecuteCallbacks_Impl] over the entries of a range. *)
Definition range_loop (api : ApiCall -> M ApiResult) (key : EventCallbackKey) (device : ID) (data : EventData)
    (ids : list ID) : M unit :=
  for_each ids (fun current =>
    g ← get;
    match glob_callbacks g !! current with
    | Some (_, body) => Invoke api current body device data
    | None => modify (fun g => set_callback_mapping
                                 (mm_erase_one key current (glob_callback_mapping g)) g)
    end).

(** What one range, and several ranges one after the other, leave
    behind: the entries invoked are the live ones of the state at
    entry, in the order of the range; an exception of a callback ends
    the dispatch after some of them. *)
Definition loop_post (key : EventCallbackKey) (device : ID) (data : EventData)
    (ids : list ID) (g : Glob) (o : Outcome Glob unit) : Prop :=
  match o with
  | Ok _ g1 =>
      dispatch_frame g g1
      /\ log g1 = log g ++ map (fun cb => Invoked cb device data) (List.filter (live g) ids)
      /\ (forall key', key' <> key ->
            mm_equal_range key' (glob_callback_mapping g1)
            = mm_equal_range key' (glob_callback_mapping g))
  | Throw _ g1 =>
      exists k, log g1 = log g ++ map (fun cb => Invoked cb device data)
                                      (take k (List.filter (live g) ids))
  | OutOfFuel => False
  end.

Definition keys_post (device : ID) (data : EventData) (keys : list EventCallbackKey)
    (g : Glob) (o : Outcome Glob unit) : Prop :=
  match o with
  | Ok _ g1 =>
      dispatch_frame g g1
      /\ log g1 = log g ++ map (fun cb => Invoked cb device data)
                               (concat (map (fun key => bucket key g) keys))
  | Throw _ g1 =>
      exists k, log g1 = log g ++ map (fun cb => Invoked cb device data)
                                      (take k (concat (map (fun key => bucket key g) keys)))
  | OutOfFuel => False
  end.

(** ** [LinuxKeyboard] ([impl_linux.cpp], lines 823-847 and 1823-1932)

    The object of the class, with the members it inherits from
    [LinuxDevice] and the inherited methods ([impl_linux.cpp], lines
    679-781 and 1354-1572) as they run on a keyboard: [GetType()]
    is KEYBOARD, [PreInputHandling] and [OnConnected] are the empty
    ones of the base class. *)

Definition KEYCODE_MAPPING_LEN : Z := Z.of_nat (length keycode_mapping).

Module LinuxKeyboard.

Record t : Type := mk {
  (* BaseInterface *)
  id_ : ID;
  is_connected_ : bool;
  (* LinuxDevice *)
  hardware_id_ : LinuxHardwareID;
  pending_events_ : list input_event;
  last_update_timestamp_ : timestamp_t;
  file_desc_ : Z;
  forces_ : list LinuxForce;              (* the force objects, by id *)
  force_mapping : list (Z * ID);          (* effect id -> force *)
  supported_forces_ : Z;                  (* bitset, bit i is ForceType i *)
  gain_ : float;
  force_count_noorph_ : Z;
  supports_gain_ : bool;
  supports_autocenter_ : bool;
  (* LinuxKeyboard *)
  key_data_ : list TSTV;                  (* TSTV key_data_[NUM_KEY_CODES] *)
  num_keys_pressed_ : Z                   (* uint32_t *)
}.

(** [LinuxKeyboard(hardware_id)], with the id reserved by [BaseInterface()] *)
Definition new (id : ID) (hardware_id : LinuxHardwareID) : t :=
  mk id false hardware_id [] 0 (-1) [] [] 0 zero 0 false false
     (replicate (Z.to_nat NUM_KEY_CODES) Cell.zeroed) 0.

Definition set_connection (c : bool) (ts : timestamp_t) (pe : list input_event) (fd : Z) (m : t) : t :=
  mk (id_ m) c (hardware_id_ m) pe ts fd (forces_ m) (force_mapping m) (supported_forces_ m)
     (gain_ m) (force_count_noorph_ m) (supports_gain_ m) (supports_autocenter_ m)
     (key_data_ m) (num_keys_pressed_ m).
Definition set_pending_events (pe : list input_event) (m : t) : t :=
  set_connection (is_connected_ m) (last_update_timestamp_ m) pe (file_desc_ m) m.
Definition set_last_update_timestamp (ts : timestamp_t) (m : t) : t :=
  set_connection (is_connected_ m) ts (pending_events_ m) (file_desc_ m) m.
Definition set_file_desc (fd : Z) (m : t) : t :=
  set_connection (is_connected_ m) (last_update_timestamp_ m) (pending_events_ m) fd m.
Definition set_forces (fs : list LinuxForce) (m : t) : t :=
  mk (id_ m) (is_connected_ m) (hardware_id_ m) (pending_events_ m) (last_update_timestamp_ m)
     (file_desc_ m) fs (force_mapping m) (supported_forces_ m)
     (gain_ m) (force_count_noorph_ m) (supports_gain_ m) (supports_autocenter_ m)
     (key_data_ m) (num_keys_pressed_ m).
Definition set_force_caps (sf : Z) (gain : float) (count : Z) (sg sa : bool) (m : t) : t :=
  mk (id_ m) (is_connected_ m) (hardware_id_ m) (pending_events_ m) (last_update_timestamp_ m)
     (file_desc_ m) (forces_ m) (force_mapping m) sf gain count sg sa
     (key_data_ m) (num_keys_pressed_ m).
Definition set_keys (kd : list TSTV) (n : Z) (m : t) : t :=
  mk (id_ m) (is_connected_ m) (hardware_id_ m) (pending_events_ m) (last_update_timestamp_ m)
     (file_desc_ m) (forces_ m) (force_mapping m) (supported_forces_ m)
     (gain_ m) (force_count_noorph_ m) (supports_gain_ m) (supports_autocenter_ m)
     kd n.

(** *** Getters and thresholds *)

Definition GetNumKeysPressed (m : t) : Z :=
  if is_connected_ m then num_keys_pressed_ m else 0.

Definition cell (key : Z) (m : t) : TSTV :=
  default Cell.zeroed (key_data_ m !! Z.to_nat key).

Definition SetKeyThreshold (key : Z) (threshold : float) (m : t) : t :=
  if IsValidKey key
  then set_keys (alter (Cell.SetThreshold (fclamp threshold zero one)) (Z.to_nat key)
                       (key_data_ m))
                (num_keys_pressed_ m) m
  else m.

Definition SetGlobalThreshold (threshold : float) (m : t) : t :=
  set_keys (map (Cell.SetThreshold (fclamp threshold zero one)) (key_data_ m))
           (num_keys_pressed_ m) m.

Definition GetKeyThreshold (key : Z) (m : t) : float :=
  if IsValidKey key then Cell.Threshold (cell key m) else zero.

Definition GetKeyValue (key : Z) (m : t) : float :=
  if is_connected_ m && IsValidKey key then Cell.Value (cell key m) else zero.

Definition GetMotorCount (m : t) : Z :=
  if is_connected_ m && negb (supported_forces_ m =? 0) then 1 else 0.

(** *** Connection *)

Definition OnDisconnected (m : t) : t :=
  (* std::memset(key_data_, 0, sizeof(key_data_)); num_keys_pressed_ = 0; *)
  set_keys (replicate (Z.to_nat NUM_KEY_CODES) Cell.zeroed) 0 m.

(** orphan forces, close the file *)
Definition CloseDevFile (m : t) : t :=
  if file_desc_ m <? 0 then m else
  set_file_desc (-1)
    (set_forces
       (map (fun f => if existsb (fun ef => bool_decide (snd ef = force_id_ f)) (force_mapping m)
                      then mkLinuxForce (force_id_ f) (effect_id_ f) None FS_INACTIVE
                      else f)
            (forces_ m)) m).

Definition HandleFFStatusEvent (ev : input_event) (m : t) : t :=
  match List.find (fun ef => bool_decide (fst ef = ev_code ev)) (force_mapping m) with
  | None => m
  | Some (_, fid) =>
      set_forces
        (map (fun f => if bool_decide (force_id_ f = fid)
                       then mkLinuxForce (force_id_ f) (effect_id_ f) (p_device_ f)
                              (if ev_value ev =? FF_STATUS_STOPPED then FS_INACTIVE
                               else if ev_value ev =? FF_STATUS_PLAYING then FS_ACTIVE
                               else FS_UNKNOWN)
                       else f)
             (forces_ m)) m
  end.

(** [virtual constexpr void PreInputHandling() {}] of [LinuxDevice] *)
Definition PreInputHandling (m : t) : t := m.

Section WithApi.

Variable api : ApiCall -> M ApiResult.

(** [HandlePendingEvents] lets the code [KEYCODE_MAPPING_LEN] pass its
    bound check and reads [keycode_mapping] one entry behind its end;
    [beyond] is the [Key] (a [uint8_t]) found there. *)
Variable beyond : Z.

Definition Disconnect : StM (World t) unit :=
  this ← this_;
  if negb (is_connected_ this) then mret tt else
  modify_this (fun m =>
    OnDisconnected
      (CloseDevFile
         (set_force_caps 0 zero 0 false false
            (set_connection false 0 [] (file_desc_ m) m))));;
  in_glob (DeviceStatusChanged api (id_ this) DISCONNECTED).

Definition analyze_device (fd : DirEntry) (x : Z) : StM (World t) bool :=
  this ← this_;
  (* hardware ID and device type must match *)
  if bool_decide (hardware_id_ this = GetHWID fd x)
     && bool_decide (DeduceInputDeviceType fd = KEYBOARD)
     && clock_settable fd                         (* set timestamp clock ID *)
  then modify_this (set_connection true (last_update_timestamp_ this)
                      (pending_events_ this) x);;
       mret false                                 (* stop searching for devices *)
  else mret true.

Definition TryConnect : StM (World t) bool :=
  this ← this_;
  if is_connected_ this then mret true else
  w ← get;
  ForeachEventXFile open_rdwr_result analyze_device (dev_input (w_glob w)) 0;;
  this ← this_;
  if is_connected_ this then
    w ← get;
    (* query force capabilities; apply default force-feedback parameters *)
    let ff := from_option ff_capabilities 0 (os_node (file_desc_ this) (w_glob w)) in
    modify_this (fun m =>
      set_force_caps (LinuxMouse.query_forces ff (supported_forces_ m)) one
        (force_count_noorph_ m) (Z.testbit ff FF_GAIN) (Z.testbit ff FF_AUTOCENTER) m);;
    (* OnConnected() is empty for a keyboard *)
    in_glob (DeviceStatusChanged api (id_ this) CONNECTED);;
    this ← this_;
    mret (is_connected_ this)
  else mret false.

(** [if (key_data_[key].Modify(value, ts, state, num_keys_pressed_))
    KeyChanged(key, value, state);] *)
Definition modify_key (key : Z) (value : float) (ts : timestamp_t) : StM (World t) unit :=
  this ← this_;
  let '(modified, state, d, counter) :=
    Cell.Modify_kbd value ts (cell key this) (num_keys_pressed_ this) in
  modify_this (fun m => set_keys (<[Z.to_nat key := d]> (key_data_ m)) counter m);;
  if modified then in_glob (KeyChanged api (id_ this) key value state) else mret tt.

(** [keycode_mapping[ev.code]] for a code that passed the bound check *)
Definition keycode_at (code : Z) : Z :=
  default beyond (keycode_mapping !! Z.to_nat code).

(** The loop of [HandlePendingEvents] over the pending events. *)
Fixpoint handle_pending (evs : list input_event) : StM (World t) unit :=
  match evs with
  | [] => mret tt
  | ev :: rest =>
      (if ev_type ev =? EV_KEY then
         if KEYCODE_MAPPING_LEN <? ev_code ev then mret tt else
         let key := keycode_at (ev_code ev) in
         if IsValidKey key
         then modify_key key (LinuxMouse.float_of_bit (negb (ev_value ev =? 0)))
                         (GetEventTimestamp ev)
         else mret tt
       else if ev_type ev =? EV_FF_STATUS then modify_this (HandleFFStatusEvent ev)
       else mret tt);;
      handle_pending rest
  end.

Definition HandlePendingEvents : StM (World t) unit :=
  this ← this_;
  handle_pending (pending_events_ this);;
  modify_this (set_pending_events []).

Definition HandleBufferOverrun (timestamp : timestamp_t) : StM (World t) unit :=
  this ← this_;
  w ← get;
  match os_node (file_desc_ this) (w_glob w) ≫= global_keys with
  | None => Disconnect                 (* cannot query global key states *)
  | Some globks =>
      (* update key states based on global query *)
      for_each (map Z.of_nat (seq 0 (Z.to_nat NUM_KEY_CODES))) (fun k =>
        modify_key k
          (LinuxMouse.float_of_bit
             (Z.testbit globks (default 0 (reverse_keycode_mapping !! Z.to_nat k))))
          timestamp)
  end.

(** The read loop of [Update], as for [LinuxMouse]. *)
Fixpoint read_loop (n : nat) : StM (World t) (option ReadResult) :=
  this ← this_;
  r ← in_glob (os_read (file_desc_ this));
  match r with
  | ReadEvent ev =>
      match n with
      | O => out_of_fuel
      | S n' =>
          if ev_type ev =? EV_SYN then
            if ev_code ev =? SYN_DROPPED then
              (* buffer overrun, drop events *)
              modify_this (set_pending_events []);;
              HandleBufferOverrun (GetEventTimestamp ev);;
              read_loop n'
            else
              (if ev_code ev =? SYN_REPORT then
                 (* process a group of events *)
                 modify_this (fun m => set_last_update_timestamp
                                         (Z.max (last_update_timestamp_ m) (GetEventTimestamp ev)) m);;
                 HandlePendingEvents
               else mret tt);;
              this ← this_;
              if negb (is_connected_ this)
              then mret None          (* error in event handler caused disconnect, abort *)
              else read_loop n'
          else if ev_type ev =? EV_FF_STATUS then
            modify_this (HandleFFStatusEvent ev);;
            read_loop n'
          else
            (* device implementation handles event *)
            modify_this (fun m => set_pending_events (pending_events_ m ++ [ev]) m);;
            read_loop n'
      end
  | _ => mret (Some r)
  end.

Definition Update : StM (World t) unit :=
  this ← this_;
  in_glob (ProtectManagementAPI (Update_details (id_ this)));;
  connected ← (if is_connected_ this then mret true else TryConnect);
  if negb (connected : bool) then mret tt else
  now ← in_glob GetTimestampNow;
  modify_this (set_last_update_timestamp now);;
  modify_this PreInputHandling;;
  this ← this_;
  w ← get;
  r ← read_loop (length (from_option events [] (os_node (file_desc_ this) (w_glob w))));
  match r with
  | Some ReadFailure => Disconnect     (* error during event reading *)
  | _ => mret tt
  end.

End WithApi.

End LinuxKeyboard.

(** *** A heap of [LinuxKeyboard] objects as members *)

Module KeyboardHeap.

Definition object_method {A} (id : ID) (m : LinuxKeyboard.t)
    (method : StM (World LinuxKeyboard.t) A) : StM (World (gmap Z LinuxKeyboard.t)) A :=
  zoom (fun w => mkWorld (w_glob w) m)
       (fun w' w => mkWorld (w_glob w') (<[id := w_this w']> (w_this w))) method.

Definition Update (api : ApiCall -> M ApiResult) (beyond : Z) (id : ID)
  : StM (World (gmap Z LinuxKeyboard.t)) unit :=
  w ← get;
  match w_this w !! id with
  | Some m => object_method id m (LinuxKeyboard.Update api beyond)
  | None => mret tt                      (* no object behind the pointer *)
  end.

Definition on_object {A} (f : LinuxKeyboard.t -> A) (dflt : A) (id : ID)
    (h : gmap Z LinuxKeyboard.t) : A :=
  from_option f dflt (h !! id).

Definition IDevice (api : ApiCall -> M ApiResult) (beyond : Z)
  : Member.IDevice (gmap Z LinuxKeyboard.t) := {|
  Member.Update := Update api beyond;
  Member.IsConnected := on_object LinuxKeyboard.is_connected_ false;
  Member.GetMotorCount := on_object LinuxKeyboard.GetMotorCount 0
|}.

Definition IKeyboard (api : ApiCall -> M ApiResult) (beyond : Z)
  : Member.IKeyboard (gmap Z LinuxKeyboard.t) := {|
  Member.IKeyboard_IDevice := IDevice api beyond;
  Member.GetKeyValue := fun id key => on_object (LinuxKeyboard.GetKeyValue key) zero id
|}.

End KeyboardHeap.

(** ** Further observations *)

(** *** Hardware ids ([impl_linux.cpp], lines 48-63) *)

Definition input_id_equal (left right : input_id) : bool :=
  (bustype left =? bustype right) && (vendor left =? vendor right)
  && (product left =? product right) && (version left =? version right).

Definition input_id_to_uint64 (value : input_id) : Z :=
  Z.lor (Z.lor (Z.lor (Z.shiftl (bustype value) 48) (Z.shiftl (vendor value) 32))
               (Z.shiftl (product value) 16))
        (version value).

(** The fields of [struct input_id] are [__u16]. *)
Definition input_id_ok (v : input_id) : Prop :=
  0 <= bustype v < 2 ^ 16 /\ 0 <= vendor v < 2 ^ 16
  /\ 0 <= product v < 2 ^ 16 /\ 0 <= version v < 2 ^ 16.

(** *** Key cells and the counter of pressed keys *)

(** A cell whose digital state is pressed holds the time of the press. *)
Definition stamped (d : TSTV) : Prop := Cell.State d = true -> Cell.Timestamp d <> 0.

(** The number of cells whose digital state is pressed. *)
Definition pressed_keys (cells : list TSTV) : Z :=
  foldr (fun d n => Z.b2z (Cell.State d) + n) 0 cells.

(** The counter [n] of a keyboard agrees with its key cells. *)
Definition counted (cells : list TSTV) (n : Z) : Prop :=
  length cells = Z.to_nat NUM_KEY_CODES
  /\ Forall stamped cells
  /\ n = pressed_keys cells.

(** An event whose timestamp does not read as "never written". *)
Definition timed (ev : input_event) : Prop := GetEventTimestamp ev mod 2 ^ 63 <> 0.

(** *** The dispatch index *)

(** The four keys one filtered dispatch looks up, in its order. *)
Definition the_keys (t : CallbackType) (D V : Z) : list EventCallbackKey :=
  [ConstructEventCallbackKey_filter t D V; ConstructEventCallbackKey_filter t 0 V;
   ConstructEventCallbackKey t D; ConstructEventCallbackKey t 0].

(** The key under which [InsertCallback] files a callback. *)
Definition registration_key (t : CallbackType) (device_id : ID) (value_filter : option Z)
  : EventCallbackKey :=
  match value_filter with
  | None => ConstructEventCallbackKey t device_id
  | Some f => ConstructEventCallbackKey_filter t device_id f
  end.

(** The value the id counter holds is in use neither as a callback id
    nor in the dispatch index. *)
Definition counter_fresh (g : Glob) : Prop :=
  glob_callbacks g !! glob_id_counter g = None
  /\ glob_id_counter g ∉ map snd (glob_callback_mapping g).

(** Does an event with the discriminator [V] pass the filter of a
    registration? *)
Definition filter_matches (value_filter : option Z) (V : Z) : Prop :=
  match value_filter with
  | None => True
  | Some f => uint64_wrap f = uint64_wrap V
  end.

(** *** The registry of devices *)

(** What the destructors of a device object leave of the process
    state: the attached callbacks erased, the links of an aggregate to
    its members removed. *)
Definition erase_all (cbs : list ID) (m : gmap Z (CallbackType * UserCallback))
  : gmap Z (CallbackType * UserCallback) :=
  fold_left (fun m cb => delete cb m) cbs m.

Definition unlink_all (aggregate : ID) (members : list ID) (links : list (ID * ID))
  : list (ID * ID) :=
  fold_left (fun l m => mm_erase_one m aggregate l) members links.

(** The state after the destructors of [d] have run and its entry is
    erased. *)
Definition destroyed (d : BaseInterface) (g : Glob) : Glob :=
  set_interfaces (delete (id_ d) (glob_interfaces g))
    (set_callbacks (erase_all (attached_callbacks_ d) (glob_callbacks g))
       (match kind_ d with
        | AggregateImpl members =>
            set_dev_to_aggr (unlink_all (id_ d) members (glob_dev_to_aggr g))
                            (add_log (Deleted (id_ d)) g)
        | LinuxDevice hwid =>
            set_nat_device_ids
              (List.filter (fun h => negb (bool_decide (h = hwid))) (nat_device_ids g))
              (add_log (Deleted (id_ d)) g)
        end)).

(** Every entry of the registry is filed under the id of its object. *)
Definition registry_ok (g : Glob) : Prop :=
  forall k d, glob_interfaces g !! k = Some d -> id_ d = k.

(** A node that a discovery pass steps over: not an eventX file, not
    to be opened, of a hardware id already registered, or of no
    recognisable type. *)
Definition settled_node (g : Glob) (e : DirEntry) : Prop :=
  is_directory e = true
  \/ eventX_number (filename e) = None
  \/ exists x, eventX_number (filename e) = Some x
               /\ (open_result e = OpenFailed
                   \/ (open_result e = Opened
                       /\ (GetHWID e x ∈ nat_device_ids g
                           \/ DeduceInputDeviceType e = UNKNOWN))).

(** *** Relative motion of a mouse *)

(** The sum of the values of the events with one code. *)
Definition rel_sum (code : Z) (evs : list input_event) : Z :=
  foldr (fun ev n => (if ev_code ev =? code then ev_value ev else 0) + n) 0 evs.

(** The fields of [MouseData] are [int64_t]. *)
Definition int64_range (a : Z) : Prop := - 2 ^ 63 <= a < 2 ^ 63.

Definition MouseData_ok (d : MD.MouseData) : Prop :=
  int64_range (MD.x d) /\ int64_range (MD.y d) /\ int64_range (MD.dx d)
  /\ int64_range (MD.dy d) /\ int64_range (MD.sx d) /\ int64_range (MD.sy d)
  /\ int64_range (MD.sdx d) /\ int64_range (MD.sdy d).

(** The six sums of one group of events, each wrapped to [int64_t]. *)
Definition group_sums (evs : list input_event) : Z * Z * Z * Z * Z * Z :=
  (int64_wrap (rel_sum REL_X evs), int64_wrap (rel_sum REL_Y evs),
   int64_wrap (rel_sum REL_HWHEEL evs), int64_wrap (rel_sum REL_WHEEL evs),
   int64_wrap (rel_sum REL_HWHEEL_HI_RES evs), int64_wrap (rel_sum REL_WHEEL_HI_RES evs)).

(** The scroll of one group of events, per axis: the high-resolution
    wheel events when either axis has any, else the detents times 120. *)
Definition group_scroll (evs : list input_event) : Z * Z :=
  let hrsdx := int64_wrap (rel_sum REL_HWHEEL_HI_RES evs) in
  let hrsdy := int64_wrap (rel_sum REL_WHEEL_HI_RES evs) in
  let sdx := int64_wrap (rel_sum REL_HWHEEL evs) in
  let sdy := int64_wrap (rel_sum REL_WHEEL evs) in
  if negb (hrsdx =? 0) || negb (hrsdy =? 0) then (hrsdx, hrsdy)
  else if negb (sdx =? 0) || negb (sdy =? 0)
       then (int64_wrap (sdx * 120), int64_wrap (sdy * 120))
       else (0, 0).

(** *** Invariants of [Update] *)

(** A triple for invariants: from a state in [P] the computation
    returns into [Q], or throws into [I], or runs out of fuel. *)
Definition triple {S A} (I P : S -> Prop) (m : StM S A) (Q : A -> S -> Prop) : Prop :=
  forall s, P s ->
    match m s with
    | Ok a s' => Q a s'
    | Throw _ s' => I s'
    | OutOfFuel => True
    end.

(** Every event a node of [/dev/input] still holds carries a time. *)
Definition nodes_timed (g : Glob) : Prop :=
  Forall (fun e => Forall timed (events e)) (dev_input g).

(** What [Update] keeps of a keyboard and the process state around it. *)
Definition kbd_inv (now : timestamp_t) (w : World LinuxKeyboard.t) : Prop :=
  glob_disable_management_api (w_glob w) = false
  /\ nodes_timed (w_glob w)
  /\ counted (LinuxKeyboard.key_data_ (w_this w)) (LinuxKeyboard.num_keys_pressed_ (w_this w))
  /\ Forall timed (LinuxKeyboard.pending_events_ (w_this w))
  /\ clock_now (w_glob w) = now.

(** What the keyboards of a heap keep. *)
Definition kbd_object_ok (m : LinuxKeyboard.t) : Prop :=
  counted (LinuxKeyboard.key_data_ m) (LinuxKeyboard.num_keys_pressed_ m)
  /\ Forall timed (LinuxKeyboard.pending_events_ m).

Definition kbd_heap_inv (now : timestamp_t) (w : World (gmap Z LinuxKeyboard.t)) : Prop :=
  glob_disable_management_api (w_glob w) = false
  /\ nodes_timed (w_glob w)
  /\ map_Forall (fun _ m => kbd_object_ok m) (w_this w)
  /\ clock_now (w_glob w) = now.

(** What [Update] keeps of an aggregate of keyboards, its members and
    the process state around them. *)
Definition agg_kbd_inv (now : timestamp_t)
    (w : World (AggregateImpl.State (gmap Z LinuxKeyboard.t) AggregateKeyboard.t)) : Prop :=
  kbd_heap_inv now (members_world w)
  /\ counted (AggregateKeyboard.key_data_ (AggregateImpl.this (w_this w)))
             (AggregateKeyboard.num_keys_pressed_ (AggregateImpl.this (w_this w))).

(** *** Event nodes and key tables *)

(** The file name of the event node with the number [n]. *)
Definition eventX_name (n : N) : string :=
  ("event" ++ DecimalString.NilZero.string_of_uint (N.to_uint n))%string.

(** The Linux codes that [keycode_mapping] maps to a key to which it
    maps a later code as well: KEY_ENTER and KEY_KPENTER (ENTER is
    also mapped from 117), KEY_KPDOT (mapped from 121 as well) and
    code 101. *)
Definition shadowed_codes : list Z := [28; 83; 96; 101].

Definition key_has_code (key : Z) : bool :=
  match reverse_keycode_mapping !! Z.to_nat key with
  | Some code =>
      (0 <=? code) && (code <=? 255)
      && bool_decide (keycode_mapping !! Z.to_nat code = Some key)
  | None => false
  end.

Definition code_is_reversed (code : Z) : bool :=
  match keycode_mapping !! Z.to_nat code with
  | Some key =>
      negb (IsValidKey key)
      || bool_decide (code ∈ shadowed_codes)
      || bool_decide (reverse_keycode_mapping !! Z.to_nat key = Some code)
  | None => true
  end.

(** A node that [TryConnect] of the mouse [m] steps over: a directory,
    not an eventX file, not to be opened for reading and writing, or
    a node of another device. *)
Definition foreign_node (m : LinuxMouse.t) (e : DirEntry) : Prop :=
  is_directory e = true
  \/ eventX_number (filename e) = None
  \/ exists x, eventX_number (filename e) = Some x
               /\ (open_rdwr_result e = OpenFailed
                   \/ (open_rdwr_result e = Opened
                       /\ (LinuxMouse.hardware_id_ m <> GetHWID e x
                           \/ DeduceInputDeviceType e <> MOUSE
                           \/ clock_settable e = false))).

(** An eventX file that the process may not open. *)
Definition denied_node (e : DirEntry) : Prop :=
  is_directory e = false
  /\ is_Some (eventX_number (filename e))
  /\ open_rdwr_result e = OpenEPERM.

(** *** Scenarios of the further observations *)

(** A USB mouse and a Bluetooth keyboard, as [struct input_id]. *)
Definition usb_mouse_id : input_id := mk_input_id 3 1133 49970 273.
Definition bt_keyboard_id : input_id := mk_input_id 5 1452 597 80.

(** The first device of [two_callbacks], with the callback attached to
    it. *)
Definition first_mouse : BaseInterface :=
  mkBaseInterface 1 MOUSE [2] (LinuxDevice (HWID_c 0)).

(** Three mice (1, 2, 3), the aggregate of the first and the third
    (4) and the aggregate of the second and the third (5). *)
Definition three_mice : Glob :=
  exec DiscoverDevices_
       (Glob_initial [mouse_node "event0" [] false; mouse_node "event1" [] false;
                      mouse_node "event2" [] false]).
Definition two_aggregates : Glob :=
  exec (Aggregate_ [2; 3] UNKNOWN) (exec (Aggregate_ [1; 3] UNKNOWN) three_mice).

Definition first_aggregate : BaseInterface :=
  mkBaseInterface 4 MOUSE [] (AggregateImpl [1; 3]).

(** The aggregate of the two mice of [two_mice]. *)
Definition two_mice_aggregated : Glob := exec (Aggregate_ [1; 2] UNKNOWN) two_mice.

(** A group of events of a mouse waiting to be handled: a motion by
    (5, -3), one detent of the wheel and its high-resolution twin. *)
Definition motion_group : list input_event :=
  [rel_event REL_X 2; rel_event REL_Y (-3); rel_event REL_X 3;
   rel_event REL_WHEEL 1; rel_event REL_WHEEL_HI_RES 120].
Definition mouse_pending : World LinuxMouse.t :=
  mkWorld (w_glob mouse_moved) (LinuxMouse.set_pending_events motion_group (w_this mouse_moved)).
Definition mouse_handled : World LinuxMouse.t :=
  after (LinuxMouse.HandlePendingEvents (run_api no_update 8) mouse_pending) mouse_pending.

(** A keyboard node: EV_SYN and EV_KEY, with the keys Q and W (Linux
    codes 16 and 17).  Q is pressed, W is pressed, Q is released; each
    report closes a group. *)
Definition keyboard_ev_bits : Z := Z.lor (Z.shiftl 1 EV_SYN) (Z.shiftl 1 EV_KEY).
Definition keyboard_key_bits : Z := Z.lor (Z.shiftl 1 16) (Z.shiftl 1 17).
Definition key_at (code value sec : Z) : input_event := mk_input_event EV_KEY code value sec 0.
Definition report_at (sec : Z) : input_event := mk_input_event EV_SYN SYN_REPORT 0 sec 0.
Definition typing_node : DirEntry :=
  mkDirEntry false "event0" Opened None None None keyboard_ev_bits keyboard_key_bits 0
             Opened true (Some 0)
             [key_at 16 1 1; report_at 1; key_at 17 1 2; report_at 2; key_at 16 0 3; report_at 3]
             false.
Definition keyboard_created : World LinuxKeyboard.t :=
  mkWorld (exec DiscoverDevices_ (Glob_initial [typing_node])) (LinuxKeyboard.new 1 (HWID_c 0)).
Definition keyboard_typed : World LinuxKeyboard.t :=
  after (LinuxKeyboard.Update (run_api no_update 8) 0 keyboard_created) keyboard_created.

(** Two keyboards and their aggregate.  On the second keyboard W and E
    (Linux codes 17 and 18) are pressed; the clock shows five seconds. *)
Definition second_node : DirEntry :=
  mkDirEntry false "event1" Opened None None None keyboard_ev_bits
             (Z.lor (Z.shiftl 1 17) (Z.shiftl 1 18)) 0
             Opened true (Some 0)
             [key_at 17 1 1; report_at 1; key_at 18 1 2; report_at 2]
             false.
Definition keyboards_glob : Glob :=
  set_clock_now 5000000
    (exec (Aggregate_ [1; 2] UNKNOWN)
          (exec DiscoverDevices_ (Glob_initial [typing_node; second_node]))).
Definition keyboards_created
  : World (AggregateImpl.State (gmap Z LinuxKeyboard.t) AggregateKeyboard.t) :=
  mkWorld keyboards_glob
          (AggregateImpl.mkState
             (<[1 := LinuxKeyboard.new 1 (HWID_c 0)]>
                (<[2 := LinuxKeyboard.new 2 (HWID_c 1)]> ∅))
             (AggregateKeyboard.new 3 [1; 2])).
Definition keyboards_typed
  : World (AggregateImpl.State (gmap Z LinuxKeyboard.t) AggregateKeyboard.t) :=
  after (@AggregateKeyboard.Update _ (KeyboardHeap.IKeyboard (run_api no_update 8) 0)
           (run_api no_update 8) keyboards_created)
        keyboards_created.

(** A mouse object whose hardware is not among the nodes of
    [one_mouse]. *)
Definition stranger : LinuxMouse.t := LinuxMouse.new 9 (HWID_c 7).

(** A directory listing in which an event node that the process may
    not open stands between a subdirectory and the node of a mouse. *)
Definition locked_node : DirEntry :=
  mkDirEntry false "event3" Opened None None None 0 0 0 OpenEPERM false None [] false.
Definition locked_dir : Glob :=
  Glob_initial [mkDirEntry true "by-id" OpenFailed None None None 0 0 0 OpenFailed false None [] false;
                locked_node; mouse_node "event0" [] false].
(* ===================================================================== *)
(** * Part II: properties                                                *)
(* ===================================================================== *)

(** ** The input-value cell *)

Section CellFacts.

Lemma land_bit (a n : Z) :
  0 <= n -> negb (Z.land a (Z.shiftl 1 n) =? 0) = Z.testbit a n.
Proof.
  intros Hn.
  destruct (Z.testbit a n) eqn:E.
  - apply negb_true_iff, Z.eqb_neq. intros H0.
    assert (Hb : Z.testbit (Z.land a (Z.shiftl 1 n)) n = true).
    { rewrite Z.land_spec, E, Z.shiftl_spec, Z.sub_diag by lia. reflexivity. }
    rewrite H0, Z.bits_0 in Hb. discriminate.
  - apply negb_false_iff, Z.eqb_eq, Z.bits_inj'. intros m Hm.
    rewrite Z.land_spec, Z.bits_0, Z.shiftl_spec by lia.
    destruct (Z.eq_dec m n) as [->|Hne].
    + rewrite E. reflexivity.
    + destruct (Z.lt_ge_cases m n).
      * rewrite (Z.testbit_neg_r 1 (m - n)) by lia. apply andb_false_r.
      * replace (Z.testbit 1 (m - n)) with false; [apply andb_false_r|].
        symmetry. apply (Z.bits_above_log2 1 (m - n)); simpl; lia.
Qed.

Lemma State_testbit (d : TSTV) : Cell.State d = Z.testbit (_a d) 63.
Proof. unfold Cell.State, STATE_BITMASK. apply land_bit. lia. Qed.

(** The state bit written by [SetTimestampState] is read back. *)
Lemma State_SetTimestampState (ts : timestamp_t) (s : bool) (d : TSTV) :
  Cell.State (Cell.SetTimestampState ts s d) = s.
Proof.
  rewrite State_testbit. unfold Cell.SetTimestampState, TIMESTAMP_BITMASK. cbn [_a].
  rewrite Z.lor_spec, Z.shiftl_spec, Z.land_spec by lia.
  rewrite Z.ones_spec_high by lia.
  rewrite andb_false_r, orb_false_r. apply Z.b2z_bit0.
Qed.

Lemma State_SetValue (v : float) (d : TSTV) : Cell.State (Cell.SetValue v d) = Cell.State d.
Proof. reflexivity. Qed.

(** [Modify] leaves the cell in the digital state it reports, which
    is the anti-bounce rule on the previous state; the threshold is
    not touched. *)
Lemma Modify_state (v : float) (ts : timestamp_t) (d : TSTV) :
  let '(_, new_state, d') := Cell.Modify v ts d in
  new_state = AnalogToDigital v (Cell.Threshold d) (Cell.State d)
  /\ Cell.State d' = new_state
  /\ Cell.Threshold d' = Cell.Threshold d.
Proof.
  unfold Cell.Modify.
  set (ns := AnalogToDigital v (Cell.Threshold d) (Cell.State d)).
  split; [reflexivity|].
  destruct (negb (eqb ns (Cell.State d)) || (Cell.Timestamp d =? 0)) eqn:E1;
    destruct (fneq v (Cell.Value d) || (Cell.Timestamp d =? 0)) eqn:E2;
    rewrite ?State_SetValue, ?State_SetTimestampState; split; try reflexivity.
  all: apply orb_false_iff in E1 as [E1 _];
    apply negb_false_iff, eqb_prop in E1; symmetry; exact E1.
Qed.

Lemma run_hysteresis (calls : list (float * timestamp_t)) (d : TSTV) :
  fst (Cell.run calls d)
  = Cell.hysteresis (Cell.Threshold d) (Cell.State d) (map fst calls).
Proof.
  revert d. induction calls as [|[v ts] rest IH]; intros d; [reflexivity|].
  cbn [Cell.run map fst Cell.hysteresis].
  pose proof (Modify_state v ts d) as Hm.
  destruct (Cell.Modify v ts d) as [[modified s] d'].
  destruct Hm as (Hs & Hst & Hth).
  specialize (IH d'). destruct (Cell.run rest d') as [ss dn].
  cbn [fst] in *. rewrite IH, Hst, Hth, Hs. reflexivity.
Qed.

End CellFacts.

(** C4, as stated, fails on the code: a fresh cell with threshold 0.5
    fed 0.48, 0.49, 0.5125, 0.4875, 0.49 reports false five times, not
    false, false, true, true, false: 0.5125 is not greater than
    0.5 + 0.0125. *)
Lemma C4_scenario_counterexample :
  fst (Cell.run (combine scenario_values [1; 2; 3; 4; 5])
                (Cell.SetThreshold half Cell.zeroed))
  <> [false; false; true; true; false].
Proof. vm_compute. discriminate. Qed.

(** C4, amended: for every cell and every sequence of modify(v, ts)
    calls the digital state after each call is the hysteresis rule
    applied to that call's value, the threshold and the previous
    digital state, where the rule is [v > t - m] when pressed and
    [v > t + m] otherwise, with strict comparisons and
    [m = min(t, 1 - t) * 0.025] in binary32; for a cell with threshold
    0.5 the values 0.48, 0.49, 0.5125, 0.4875, 0.49 give false five
    times, and 0.48, 0.49, 0.52, 0.49, 0.48 give false, false, true,
    true, false from a released cell. *)
Theorem C4_hysteresis_rule :
  (forall v t s,
      AnalogToDigital v t s
      = let m := fmul (fmin t (fsub one t)) ANTI_BOUNCE in
        if s then fgt v (fsub t m) else fgt v (fadd t m))
  /\ (forall (d : TSTV) (calls : list (float * timestamp_t)),
         fst (Cell.run calls d)
         = Cell.hysteresis (Cell.Threshold d) (Cell.State d) (map fst calls))
  /\ (forall (d : TSTV) (v : float) (ts : timestamp_t),
         Cell.State (snd (Cell.Modify v ts d))
         = AnalogToDigital v (Cell.Threshold d) (Cell.State d))
  /\ (forall (d : TSTV) (tss : list timestamp_t),
         Cell.Threshold d = half -> length tss = 5%nat ->
         fst (Cell.run (combine scenario_values tss) d)
         = [false; false; false; false; false])
  /\ (forall (d : TSTV) (tss : list timestamp_t),
         Cell.Threshold d = half -> Cell.State d = false -> length tss = 5%nat ->
         fst (Cell.run (combine inside_values tss) d)
         = [false; false; true; true; false]).
Proof.
  split; [|split; [|split; [|split]]].
  - intros v t [|]; reflexivity.
  - intros d calls. apply run_hysteresis.
  - intros d v ts. pose proof (Modify_state v ts d) as Hm.
    destruct (Cell.Modify v ts d) as [[modified s] d']. simpl.
    destruct Hm as (-> & -> & _). reflexivity.
  - intros d tss Ht Hl. rewrite run_hysteresis, Ht.
    do 6 (destruct tss as [|? tss]; try discriminate Hl).
    destruct (Cell.State d); vm_compute; reflexivity.
  - intros d tss Ht Hs Hl. rewrite run_hysteresis, Ht, Hs.
    do 6 (destruct tss as [|? tss]; try discriminate Hl).
    vm_compute; reflexivity.
Qed.

Lemma C4_hysteresis_rule_witness :
  fst (Cell.run (combine scenario_values [10; 20; 30; 40; 50])
                (Cell.SetThreshold half Cell.zeroed))
  = [false; false; false; false; false]
  /\ fst (Cell.run (combine inside_values [10; 20; 30; 40; 50])
                   (Cell.SetThreshold half Cell.zeroed))
     = [false; false; true; true; false].
Proof.
  destruct C4_hysteresis_rule as (_ & _ & _ & H4 & H5).
  split.
  - apply H4; reflexivity.
  - apply H5; reflexivity.
Defined.

(** C5: [Modify] reports "modified" iff the analog value changed, or
    the digital state changed, or this is the first write (stored
    timestamp 0) and the new digital state is true; the keyboard
    variant reports the same and leaves the same cell, increments the
    counter on a transition to pressed, decrements it on a transition
    to released that is not the first write, never decrements it on
    the first write, and leaves it unchanged on a first write whose
    resulting digital state is false.  The overloads that return
    nothing leave the same cell and counter. *)
Theorem C5_modified_and_keys_pressed
    (d : TSTV) (v : float) (ts : timestamp_t) (counter : Z) :
  0 <= counter < 2 ^ 32 ->
  let old_state := Cell.State d in
  let new_state := AnalogToDigital v (Cell.Threshold d) old_state in
  let first_write := Cell.Timestamp d =? 0 in
  let '(modified, s, d1) := Cell.Modify v ts d in
  let '(modified_k, s_k, d_k, counter') := Cell.Modify_kbd v ts d counter in
  (modified = true <->
     fneq v (Cell.Value d) = true \/ new_state <> old_state
     \/ (first_write = true /\ new_state = true))
  /\ modified_k = modified /\ s_k = s /\ s = new_state /\ d_k = d1
  /\ Cell.Modify_void v ts d = d1
  /\ Cell.Modify_kbd_void v ts d counter = (d_k, counter')
  /\ (old_state = false -> new_state = true -> counter' = uint32_wrap (counter + 1))
  /\ (old_state = true -> new_state = false -> first_write = false ->
      counter' = uint32_wrap (counter - 1))
  /\ (first_write = true -> counter' <> uint32_wrap (counter - 1))
  /\ (first_write = true -> new_state = false -> counter' = counter)
  /\ (first_write = false -> new_state = old_state -> counter' = counter).
Proof.
  intros Hc old_state new_state first_write.
  unfold Cell.Modify, Cell.Modify_kbd, Cell.Modify_void, Cell.Modify_kbd_void.
  fold old_state. fold new_state. fold first_write.
  assert (Hw1 : uint32_wrap (counter + 1) <> uint32_wrap (counter - 1)).
  { unfold uint32_wrap. change (2 ^ 32) with 4294967296 in *.
    Z.div_mod_to_equations. lia. }
  assert (Hw2 : counter <> uint32_wrap (counter - 1)).
  { unfold uint32_wrap. change (2 ^ 32) with 4294967296 in *.
    Z.div_mod_to_equations. lia. }
  destruct (fneq v (Cell.Value d)), new_state, old_state, first_write; cbn;
    repeat split; try tauto; try congruence; try (intros; discriminate);
    intuition (try discriminate; try congruence).
Qed.

Lemma C5_modified_and_keys_pressed_witness :
  0 <= 3 < 2 ^ 32
  /\ snd (Cell.Modify_kbd (of_decimal 25 100) 7 (Cell.SetThreshold half Cell.zeroed) 3) = 3.
Proof.
  split; [lia|].
  pose proof (C5_modified_and_keys_pressed (Cell.SetThreshold half Cell.zeroed)
                (of_decimal 25 100) 7 3 ltac:(lia)) as H.
  destruct (Cell.Modify (of_decimal 25 100) 7 (Cell.SetThreshold half Cell.zeroed))
    as [[modified s] d1].
  destruct (Cell.Modify_kbd (of_decimal 25 100) 7 (Cell.SetThreshold half Cell.zeroed) 3)
    as [[[modified_k s_k] d_k] counter'].
  cbn zeta in H. cbn [snd].
  destruct H as (_ & _ & _ & _ & _ & _ & _ & _ & _ & _ & H & _).
  apply H; vm_compute; reflexivity.
Defined.

(** ** The reentrancy guard *)

Section Guard.

Variable update_body : ID -> M unit.
Variable fuel : nat.

Local Abbreviation api := (run_api update_body (S fuel)).

Lemma Protect_blocked {A} (details : string) (k : unit -> M A) (g : Glob) :
  glob_disable_management_api g = true ->
  (ProtectManagementAPI details ≫= k) g
  = Throw (runtime_error (Illegal_access_message details)) g.
Proof.
  intros Hg. unfold mbind, StM_bind, bind, ProtectManagementAPI. rewrite Hg. reflexivity.
Qed.

Lemma Protect_open {A} (details : string) (k : unit -> M A) (g : Glob) :
  glob_disable_management_api g = false ->
  (ProtectManagementAPI details ≫= k) g = k tt g.
Proof.
  intros Hg. unfold mbind, StM_bind, bind, ProtectManagementAPI. rewrite Hg. reflexivity.
Qed.

(** Every management function starts with the guard. *)
Lemma api_blocked (c : ApiCall) (g : Glob) :
  glob_disable_management_api g = true ->
  api c g = Throw (runtime_error (Illegal_access_message (details_of c))) g.
Proof.
  intros Hg. cbn [run_api]. unfold api_step.
  destruct c; cbn [details_of];
    unfold DiscoverDevices, UpdateAllDevices, DestroyAllDevices, DestroyDevice, Update,
      UnregisterCallback, UnregisterAllCallbacks, Aggregate;
    unfold mbind at 1, StM_bind at 1, bind at 1;
    try (rewrite Protect_blocked by exact Hg; reflexivity).
  all: unfold ProtectManagementAPI; rewrite Hg; reflexivity.
Qed.

(** Under the guard a step of user code does not change the state. *)
Lemma run_step_blocked (s : UserStep) (g : Glob) :
  glob_disable_management_api g = true ->
  final_state (run_step api s g) = Some g.
Proof.
  intros Hg. destruct s as [c|c|]; unfold run_step.
  - unfold mbind, StM_bind, bind. rewrite api_blocked by exact Hg. reflexivity.
  - rewrite api_blocked by exact Hg. reflexivity.
  - reflexivity.
Qed.

Lemma callback_blocked (body : UserCallback) (g : Glob) :
  glob_disable_management_api g = true ->
  final_state (for_each body (run_step api) g) = Some g.
Proof.
  intros Hg. induction body as [|s rest IH]; [reflexivity|].
  cbn [for_each]. unfold mbind, StM_bind, bind.
  pose proof (run_step_blocked s g Hg) as Hs.
  destruct (run_step api s g) as [[] g1|e g1|]; cbn in Hs; try discriminate;
    injection Hs as ->; [exact IH | reflexivity].
Qed.

Lemma unblock_block (e : LogEntry) (g : Glob) :
  glob_disable_management_api g = false ->
  set_disable_management_api false (set_disable_management_api true (add_log e g))
  = add_log e g.
Proof. destruct g; cbn; intros ->; reflexivity. Qed.

(** A callback entered outside any callback ends, by return or by
    exception, in the state it was entered in, plus its log entry. *)
Lemma Invoke_guarded (callback : ID) (body : UserCallback) (device : ID) (data : EventData)
    (g : Glob) :
  glob_disable_management_api g = false ->
  final_state (Invoke api callback body device data g)
  = Some (add_log (Invoked callback device data) g).
Proof.
  intros Hg. unfold Invoke.
  pose proof (callback_blocked body
                (set_disable_management_api true (add_log (Invoked callback device data) g))
                eq_refl) as Hb.
  destruct (for_each body _ _) as [[] g2|e g2|]; cbn in Hb |- *; try discriminate;
    injection Hb as ->; rewrite unblock_block by exact Hg; reflexivity.
Qed.

End Guard.

Section GuardObjects.

Lemma in_glob_Protect_blocked {T A} (details : string) (k : unit -> StM (World T) A)
    (w : World T) :
  glob_disable_management_api (w_glob w) = true ->
  (in_glob (ProtectManagementAPI details) ≫= k) w
  = Throw (runtime_error (Illegal_access_message details)) w.
Proof.
  intros Hg. unfold mbind, StM_bind, bind, in_glob, zoom, ProtectManagementAPI.
  rewrite Hg. destruct w; reflexivity.
Qed.

Lemma AggregateImpl_Update_blocked {H A} `{Member.IDevice H} `{AggregateImpl.Derived A}
    (w : World (AggregateImpl.State H A)) :
  glob_disable_management_api (w_glob w) = true ->
  AggregateImpl.Update w
  = Throw (runtime_error
             (Illegal_access_message
                (Update_details
                   (AggregateImpl.id_ (AggregateImpl.base (AggregateImpl.this (w_this w)))))))
          w.
Proof.
  intros Hg. unfold AggregateImpl.Update.
  unfold mbind at 1, StM_bind at 1, bind at 1. unfold AggregateImpl.self at 1.
  apply in_glob_Protect_blocked. exact Hg.
Qed.

Lemma LinuxMouse_Update_blocked (api : ApiCall -> M ApiResult) (w : World LinuxMouse.t) :
  glob_disable_management_api (w_glob w) = true ->
  LinuxMouse.Update api w
  = Throw (runtime_error (Illegal_access_message (Update_details (LinuxMouse.id_ (w_this w)))))
          w.
Proof.
  intros Hg. unfold LinuxMouse.Update.
  unfold mbind at 1, StM_bind at 1, bind at 1. unfold this_ at 1.
  apply in_glob_Protect_blocked. exact Hg.
Qed.

(** The block is lifted on both exits of a callback, whatever the
    user code does. *)
Lemma Invoke_lifts_block (api : ApiCall -> M ApiResult) (callback : ID) (body : UserCallback)
    (device : ID) (data : EventData) (g g' : Glob) :
  final_state (Invoke api callback body device data g) = Some g' ->
  glob_disable_management_api g' = false.
Proof.
  unfold Invoke.
  destruct (for_each body (run_step api) _) as [[] g2|e g2|]; cbn; intros Hf;
    try discriminate; injection Hf as <-; reflexivity.
Qed.

End GuardObjects.

(** C7: a management function called while the guard flag is set
    (which it is for the whole of every callback) throws the runtime
    error whose text ends with the details of that function, and leaves
    the state as it was; this holds for the free functions, for the
    per-device registrations and for [Update()] of a physical mouse and
    of every aggregate.  A callback therefore ends in the state it
    started in, and [Invoke] clears the flag when the callback returns
    and when it throws. *)
Theorem C7_management_guard (update_body : ID -> M unit) (fuel : nat) :
  (forall (c : ApiCall) (g : Glob),
      glob_disable_management_api g = true ->
      run_api update_body (S fuel) c g
      = Throw (runtime_error (Illegal_access_message (details_of c))) g)
  /\ (forall (api : ApiCall -> M ApiResult) (w : World LinuxMouse.t),
         glob_disable_management_api (w_glob w) = true ->
         LinuxMouse.Update api w
         = Throw (runtime_error
                    (Illegal_access_message (Update_details (LinuxMouse.id_ (w_this w))))) w)
  /\ (forall H A (I : Member.IDevice H) (D : AggregateImpl.Derived A)
             (w : World (AggregateImpl.State H A)),
         glob_disable_management_api (w_glob w) = true ->
         AggregateImpl.Update w
         = Throw (runtime_error
                    (Illegal_access_message
                       (Update_details
                          (AggregateImpl.id_
                             (AggregateImpl.base (AggregateImpl.this (w_this w))))))) w)
  /\ (forall (body : UserCallback) (g : Glob),
         glob_disable_management_api g = true ->
         final_state (for_each body (run_step (run_api update_body (S fuel))) g) = Some g)
  /\ (forall (callback : ID) (body : UserCallback) (device : ID) (data : EventData) (g : Glob),
         glob_disable_management_api g = false ->
         final_state (Invoke (run_api update_body (S fuel)) callback body device data g)
         = Some (add_log (Invoked callback device data) g))
  /\ (forall (api : ApiCall -> M ApiResult) (callback : ID) (body : UserCallback)
             (device : ID) (data : EventData) (g g' : Glob),
         final_state (Invoke api callback body device data g) = Some g' ->
         glob_disable_management_api g' = false).
Proof.
  split; [|split; [|split; [|split; [|split]]]].
  - intros c g Hg. apply api_blocked. exact Hg.
  - intros api w Hg. apply LinuxMouse_Update_blocked. exact Hg.
  - intros H A I D w Hg. apply AggregateImpl_Update_blocked. exact Hg.
  - intros body g Hg. apply callback_blocked. exact Hg.
  - intros callback body device data g Hg. apply Invoke_guarded. exact Hg.
  - intros api callback body device data g g'. apply Invoke_lifts_block.
Qed.

Lemma C7_management_guard_witness :
  glob_disable_management_api blocked_initial = true
  /\ run_api no_update 1 DestroyAllDevices_ blocked_initial
     = Throw (runtime_error (Illegal_access_message "crossput::DestroyAllDevices"))
             blocked_initial.
Proof.
  split; [reflexivity|].
  apply (proj1 (C7_management_guard no_update 0) DestroyAllDevices_). reflexivity.
Defined.

(** ** Dispatch *)

Section DispatchFacts.

Variable update_body : ID -> M unit.
Variable fuel : nat.

Local Abbreviation api := (run_api update_body (S fuel)).

Lemma dispatch_frame_refl (g : Glob) : dispatch_frame g g.
Proof. repeat split. Qed.

Lemma dispatch_frame_trans (g1 g2 g3 : Glob) :
  dispatch_frame g1 g2 -> dispatch_frame g2 g3 -> dispatch_frame g1 g3.
Proof.
  unfold dispatch_frame. intros (?&?&?&?&?&?&?&?) (?&?&?&?&?&?&?&?).
  repeat split; congruence.
Qed.

Lemma mm_equal_range_erase_other {K V} `{EqDecision K, EqDecision V}
    (k k' : K) (v : V) (m : list (K * V)) :
  k' <> k -> mm_equal_range k' (mm_erase_one k v m) = mm_equal_range k' m.
Proof.
  intros Hne. unfold mm_equal_range. induction m as [|[k0 v0] rest IH]; [reflexivity|].
  cbn [mm_erase_one]. case_bool_decide as Heq.
  - injection Heq as -> ->. cbn [List.filter fst].
    rewrite bool_decide_eq_false_2 by congruence. reflexivity.
  - cbn [List.filter fst]. case_bool_decide; cbn [map]; rewrite IH; reflexivity.
Qed.

(** A callback entered outside any callback leaves one log entry and
    nothing else, whether it returns or throws. *)
Lemma Invoke_cases (callback : ID) (body : UserCallback) (device : ID) (data : EventData)
    (g : Glob) :
  glob_disable_management_api g = false ->
  Invoke api callback body device data g = Ok tt (add_log (Invoked callback device data) g)
  \/ exists e, Invoke api callback body device data g
               = Throw e (add_log (Invoked callback device data) g).
Proof.
  intros Hg.
  pose proof (Invoke_guarded update_body fuel callback body device data g Hg) as Hf.
  destruct (Invoke api callback body device data g) as [[] g1|e g1|]; cbn in Hf;
    try discriminate; injection Hf as ->; [left|right; exists e]; reflexivity.
Qed.

Lemma range_loop_spec (key : EventCallbackKey) (device : ID) (data : EventData)
    (ids : list ID) (g : Glob) :
  glob_disable_management_api g = false ->
  loop_post key device data ids g (range_loop api key device data ids g).
Proof.
  revert g. induction ids as [|id rest IH]; intros g Hg.
  - cbn. split; [apply dispatch_frame_refl|]. split; [rewrite app_nil_r; reflexivity|].
    intros; reflexivity.
  - unfold range_loop. cbn [for_each]. fold (range_loop api key device data rest).
    unfold mbind at 1, StM_bind at 1, bind at 1.
    unfold mbind at 1, StM_bind at 1, bind at 1. unfold get at 1.
    destruct (glob_callbacks g !! id) as [[t body]|] eqn:Hcb.
    + assert (Hlive : List.filter (live g) (id :: rest) = id :: List.filter (live g) rest).
      { cbn [List.filter]. unfold live at 1. rewrite Hcb.
        rewrite bool_decide_eq_true_2 by eauto. reflexivity. }
      destruct (Invoke_cases id body device data g Hg) as [Hi|[e Hi]]; rewrite Hi.
      * specialize (IH (add_log (Invoked id device data) g) Hg).
        unfold loop_post in IH |- *. rewrite Hlive.
        destruct (range_loop api key device data rest _) as [[] g2|e g2|]; try exact IH.
        -- destruct IH as (Hfr & Hlog & Hkeys). split; [|split].
           ++ eapply dispatch_frame_trans; [|exact Hfr]. repeat split.
           ++ rewrite Hlog. cbn [log add_log map]. rewrite <- app_assoc. reflexivity.
           ++ exact Hkeys.
        -- destruct IH as [k Hlog]. exists (S k). rewrite Hlog.
           cbn [log add_log map take]. rewrite <- app_assoc. reflexivity.
      * unfold loop_post. rewrite Hlive. exists 1%nat. cbn [take map]. rewrite take_0.
        reflexivity.
    + assert (Hlive : List.filter (live g) (id :: rest) = List.filter (live g) rest).
      { cbn [List.filter]. unfold live at 1. rewrite Hcb.
        rewrite bool_decide_eq_false_2 by (intros [? ?]; discriminate). reflexivity. }
      unfold modify at 1.
      specialize (IH (set_callback_mapping
                        (mm_erase_one key id (glob_callback_mapping g)) g) Hg).
      unfold loop_post in IH |- *. rewrite Hlive.
      destruct (range_loop api key device data rest _) as [[] g2|e g2|]; try exact IH.
      destruct IH as (Hfr & Hlog & Hkeys). split; [|split].
      * eapply dispatch_frame_trans; [|exact Hfr]. repeat split.
      * exact Hlog.
      * intros key' Hne. rewrite (Hkeys key' Hne). cbn.
        apply mm_equal_range_erase_other. exact Hne.
Qed.

Lemma ExecuteCallbacks_Impl_spec (key : EventCallbackKey) (device : ID) (data : EventData)
    (g : Glob) :
  glob_disable_management_api g = false ->
  match ExecuteCallbacks_Impl api key device data g with
  | Ok _ g1 =>
      dispatch_frame g g1
      /\ log g1 = log g ++ map (fun cb => Invoked cb device data) (bucket key g)
      /\ (forall key', key' <> key -> bucket key' g1 = bucket key' g)
  | Throw _ g1 =>
      exists k, log g1 = log g ++ map (fun cb => Invoked cb device data)
                                      (take k (bucket key g))
  | OutOfFuel => False
  end.
Proof.
  intros Hg.
  pose proof (range_loop_spec key device data
                (mm_equal_range key (glob_callback_mapping g)) g Hg) as Hl.
  unfold ExecuteCallbacks_Impl. unfold mbind at 1, StM_bind at 1, bind at 1. unfold get at 1.
  fold (range_loop api key device data (mm_equal_range key (glob_callback_mapping g))).
  unfold loop_post in Hl.
  destruct (range_loop api key device data _ g) as [[] g1|e g1|]; try exact Hl.
  destruct Hl as (Hfr & Hlog & Hkeys). split; [exact Hfr|]. split; [exact Hlog|].
  intros key' Hne. unfold bucket. rewrite (Hkeys key' Hne).
  destruct Hfr as (_ & _ & _ & -> & _). reflexivity.
Qed.

Lemma take_prefix_app {A} (l r : list A) (k : nat) :
  exists k', take k l = take k' (l ++ r).
Proof.
  destruct (le_lt_dec k (length l)) as [Hle|Hgt].
  - exists k. rewrite take_app_le by exact Hle. reflexivity.
  - exists (length l). rewrite take_ge by lia. rewrite take_app_length. reflexivity.
Qed.

Lemma keys_spec (device : ID) (data : EventData) (keys : list EventCallbackKey) (g : Glob) :
  NoDup keys ->
  glob_disable_management_api g = false ->
  keys_post device data keys g
    (for_each keys (fun key => ExecuteCallbacks_Impl api key device data) g).
Proof.
  revert g. induction keys as [|key rest IH]; intros g Hnd Hg.
  - cbn. split; [apply dispatch_frame_refl|]. rewrite app_nil_r. reflexivity.
  - apply NoDup_cons in Hnd as [Hnotin Hnd].
    cbn [for_each]. unfold mbind at 1, StM_bind at 1, bind at 1.
    pose proof (ExecuteCallbacks_Impl_spec key device data g Hg) as Hk.
    destruct (ExecuteCallbacks_Impl api key device data g) as [[] g1|e g1|];
      [|destruct Hk as [k Hk]; unfold keys_post; cbn [map concat];
        destruct (take_prefix_app (bucket key g)
                    (concat (map (fun key0 => bucket key0 g) rest)) k) as [k' Hk'];
        exists k'; rewrite <- Hk'; exact Hk
       |contradiction].
    destruct Hk as (Hfr & Hlog & Hkeys).
    assert (Hg1 : glob_disable_management_api g1 = false).
    { destruct Hfr as (_ & _ & -> & _). exact Hg. }
    specialize (IH g1 Hnd Hg1).
    assert (Hb : map (fun key0 => bucket key0 g1) rest = map (fun key0 => bucket key0 g) rest).
    { apply map_ext_in. intros key' Hin. apply Hkeys. intros ->.
      apply Hnotin. apply list_elem_of_In. exact Hin. }
    unfold keys_post in IH |- *. rewrite Hb in IH. cbn [map concat].
    destruct (for_each rest _ g1) as [[] g2|e g2|]; [| |contradiction].
    + destruct IH as (Hfr2 & Hlog2). split.
      * eapply dispatch_frame_trans; eassumption.
      * rewrite Hlog2, Hlog, map_app, <- app_assoc. reflexivity.
    + destruct IH as [k Hlog2]. exists (length (bucket key g) + k)%nat.
      rewrite take_app_add, Hlog2, Hlog, map_app, <- app_assoc. reflexivity.
Qed.

Lemma for_each_four {S} (f : EventCallbackKey -> StM S unit) (k1 k2 k3 k4 : EventCallbackKey)
    (s : S) :
  ((f k1;; f k2);; (f k3;; f k4)) s = for_each [k1; k2; k3; k4] f s.
Proof.
  cbn [for_each]. unfold mbind, StM_bind, bind, ret.
  destruct (f k1 s) as [[] s1|e s1|]; try reflexivity.
  destruct (f k2 s1) as [[] s2|e s2|]; try reflexivity.
  destruct (f k3 s2) as [[] s3|e s3|]; try reflexivity.
  destruct (f k4 s3) as [[] s4|e s4|]; reflexivity.
Qed.

Lemma dispatch_keys_NoDup (t : CallbackType) (device : ID) (value_filter : Z) :
  device <> 0 ->
  NoDup [ConstructEventCallbackKey_filter t device value_filter;
         ConstructEventCallbackKey_filter t 0 value_filter;
         ConstructEventCallbackKey t device;
         ConstructEventCallbackKey t 0].
Proof.
  intros Hd. unfold ConstructEventCallbackKey_filter, ConstructEventCallbackKey.
  repeat (apply NoDup_cons; split);
    [| | | |apply NoDup_nil; exact I];
    rewrite ?elem_of_cons, ?elem_of_nil; intros H;
    repeat (destruct H as [H|H]); try contradiction; try (injection H; congruence);
    try discriminate H.
Qed.

End DispatchFacts.


(** The invocations of one dispatch, in the order of the code. *)
Lemma dispatch_filtered_spec (update_body : ID -> M unit) (fuel : nat)
    (t : CallbackType) (D V : Z) (data : EventData) (g : Glob) :
  glob_disable_management_api g = false ->
  D <> 0 ->
  match dispatch_filtered (run_api update_body (S fuel)) t D V data g with
  | Ok _ g' =>
      log g' = log g ++ Emitted D t data
                     :: map (fun cb => Invoked cb D data) (dispatch_order t D V g)
  | Throw _ g' =>
      exists k, log g' = log g ++ Emitted D t data
                               :: map (fun cb => Invoked cb D data)
                                      (take k (dispatch_order t D V g))
  | OutOfFuel => False
  end.
Proof.
  intros Hg HD. unfold dispatch_filtered.
  unfold mbind at 1, StM_bind at 1, bind at 1. unfold modify at 1.
  unfold ExecuteCallbacksWithFilter, ExecuteCallbacks.
  rewrite (for_each_four
             (fun key => ExecuteCallbacks_Impl (run_api update_body (S fuel)) key D data)).
  pose proof (keys_spec update_body fuel D data _ (add_log (Emitted D t data) g)
                (dispatch_keys_NoDup t D V HD) Hg) as Hk.
  unfold keys_post in Hk.
  destruct (for_each _ _ (add_log (Emitted D t data) g)) as [[] g1|e g1|]; [| |exact Hk].
  - destruct Hk as [_ Hlog]. rewrite Hlog. cbn [log add_log map concat].
    rewrite <- app_assoc, app_nil_r. reflexivity.
  - destruct Hk as [k Hlog]. exists k. rewrite Hlog. cbn [log add_log map concat].
    rewrite <- app_assoc, app_nil_r. reflexivity.
Qed.



(** ** Discovery *)

(** [DiscoverDevices] never counts: whenever it returns, it returns 0. *)
Lemma DiscoverDevices_returns_zero (api : ApiCall -> M ApiResult) (g g' : Glob) (n : Z) :
  DiscoverDevices api g = Ok n g' -> n = 0.
Proof.
  unfold DiscoverDevices, mbind, StM_bind, bind.
  destruct (ProtectManagementAPI _ g) as [[] g1|e g1|]; try discriminate.
  unfold get at 1.
  destruct (ForeachEventXFile _ _ _ _ g1) as [num g2|e g2|]; try discriminate.
  unfold mret, StM_ret, ret. intros H; injection H as <- _. reflexivity.
Qed.

(** C1 at the failing input: with one unregistered three-button mouse
    in /dev/input the call creates one interface (the registry grows
    from 0 to 1 and DISCOVERED is emitted for device 1) and returns 0. *)
Theorem C1_discover_one_mouse_returns_zero :
  DeduceInputDeviceType (mouse_node "event0" [] false) = MOUSE
  /\ size (glob_interfaces (Glob_initial [mouse_node "event0" [] false])) = 0%nat
  /\ size (glob_interfaces one_mouse) = 1%nat
  /\ emitted_status DISCOVERED (log one_mouse) = [1]
  /\ exists g', call DiscoverDevices_ (Glob_initial [mouse_node "event0" [] false])
                = Ok (RSize 0) g'.
Proof.
  split; [vm_compute; reflexivity|].
  split; [vm_compute; reflexivity|].
  split; [vm_compute; reflexivity|].
  split; [vm_compute; reflexivity|].
  eexists. vm_compute. reflexivity.
Qed.

(** ** Cascade destruction *)




(** ** Mouse getters and the disconnect transition *)

(** C10: a disconnected mouse, physical or aggregate, returns from
    [GetPosition], [GetDelta], [GetScroll] and [GetScrollDelta] without
    assigning: the caller's pair of variables is the same after the call
    as before it. *)
Theorem C10_disconnected_getters_keep_outputs (m : LinuxMouse.t) (a : AggregateMouse.t)
    (xy : Z * Z) :
  (LinuxMouse.is_connected_ m = false ->
   LinuxMouse.GetPosition m xy = xy /\ LinuxMouse.GetDelta m xy = xy
   /\ LinuxMouse.GetScroll m xy = xy /\ LinuxMouse.GetScrollDelta m xy = xy)
  /\ (AggregateMouse.is_connected_ a = false ->
      AggregateMouse.GetPosition a xy = xy /\ AggregateMouse.GetDelta a xy = xy
      /\ AggregateMouse.GetScroll a xy = xy /\ AggregateMouse.GetScrollDelta a xy = xy).
Proof.
  split; intros Hc.
  - unfold LinuxMouse.GetPosition, LinuxMouse.GetDelta, LinuxMouse.GetScroll,
      LinuxMouse.GetScrollDelta. rewrite Hc. cbn. repeat split.
  - unfold AggregateMouse.GetPosition, AggregateMouse.GetDelta, AggregateMouse.GetScroll,
      AggregateMouse.GetScrollDelta. rewrite Hc. cbn. repeat split.
Qed.

Lemma C10_disconnected_getters_keep_outputs_witness :
  LinuxMouse.GetPosition (w_this mouse_unplugged) (7, -3) = (7, -3)
  /\ AggregateMouse.GetScroll (AggregateMouse.OnDisconnected (AggregateMouse.new 3 [1; 2])) (7, -3)
     = (7, -3)
  /\ (7, -3) <> (0, 0).
Proof.
  pose proof (C10_disconnected_getters_keep_outputs
                (w_this mouse_unplugged)
                (AggregateMouse.OnDisconnected (AggregateMouse.new 3 [1; 2])) (7, -3))
    as [Hm Ha].
  split; [exact (proj1 (Hm eq_refl))|].
  split; [exact (proj1 (proj2 (proj2 (Ha eq_refl))))|].
  discriminate.
Defined.

Section Disconnect.

Variable api : ApiCall -> M ApiResult.

(** Whatever the callbacks of the status change do, [Disconnect]
    leaves the object it has reset. *)
Lemma Disconnect_object (w w' : World LinuxMouse.t) :
  LinuxMouse.is_connected_ (w_this w) = true ->
  final_state (LinuxMouse.Disconnect api w) = Some w' ->
  w_this w' = disconnected_object (w_this w).
Proof.
  intros Hc. unfold LinuxMouse.Disconnect.
  unfold mbind, StM_bind, bind, this_, modify_this, modify, in_glob, zoom.
  rewrite Hc. cbn.
  destruct (DeviceStatusChanged api _ _ _) as [[] g'|e g'|]; cbn; intros Hf;
    try discriminate; injection Hf as <-; reflexivity.
Qed.

Lemma disconnected_object_cell (m : LinuxMouse.t) (i : Z) :
  LinuxMouse.cell i (disconnected_object m) = Cell.zeroed.
Proof.
  unfold disconnected_object, LinuxMouse.OnDisconnected, LinuxMouse.cell. cbn.
  destruct (replicate _ _ !! _) as [c|] eqn:E; [|reflexivity].
  apply lookup_replicate in E as [-> _]. reflexivity.
Qed.

Lemma disconnected_object_connected (m : LinuxMouse.t) :
  LinuxMouse.is_connected_ (disconnected_object m) = false.
Proof.
  unfold disconnected_object, LinuxMouse.CloseDevFile. cbn.
  destruct (LinuxMouse.file_desc_ m <? 0); reflexivity.
Qed.

End Disconnect.




(** ** Envelope translation *)

Lemma in_whole_seconds (a : Z) : 0 <= a <= 40 -> In a whole_seconds.
Proof.
  intros Ha. unfold whole_seconds. apply in_map_iff. exists (Z.to_nat a).
  split; [lia|]. apply in_seq. lia.
Qed.

(** The check of all 41 * 41 * 41 triples of whole seconds, by
    evaluation. *)
Lemma all_scaled_ok :
  forallb (fun a => forallb (fun s => forallb (scaled_ok a s) whole_seconds) whole_seconds)
          whole_seconds = true.
Proof. vm_compute. reflexivity. Qed.





(** ** Aggregates *)

#[global] Instance AggregateMouse_laws : AggregateImpl.DerivedLaws AggregateMouse.t.
Proof. split; reflexivity. Qed.

#[global] Instance AggregateKeyboard_laws : AggregateImpl.DerivedLaws AggregateKeyboard.t.
Proof. split; reflexivity. Qed.

#[global] Instance AggregateGamepad_laws : AggregateImpl.DerivedLaws AggregateGamepad.t.
Proof. split; reflexivity. Qed.

Section AggregateFacts.

Context {H A : Type} `{Member.IDevice H} `{AggregateImpl.Derived A}.
Context `{!AggregateImpl.DerivedLaws A}.

Lemma for_each_cons {S B} (x : B) (xs : list B) (body : B -> StM S unit) (s : S) :
  for_each (x :: xs) body s
  = match body x s with
    | Ok _ s' => for_each xs body s'
    | Throw e s' => Throw e s'
    | OutOfFuel => OutOfFuel
    end.
Proof. reflexivity. Qed.

Lemma for_each_one {S B} (x : B) (body : B -> StM S unit) (s : S) :
  for_each [x] body s
  = match body x s with
    | Ok _ s' => Ok tt s'
    | Throw e s' => Throw e s'
    | OutOfFuel => OutOfFuel
    end.
Proof. reflexivity. Qed.

Lemma observed_connected_nil (w : World H) : observed_connected [] w.
Proof. intros [|p pre] m post E; discriminate. Qed.

Lemma observed_connected_cons (m : ID) (rest : list ID) (w w1 : World H) :
  Member.Update m w = Ok tt w1 ->
  Member.IsConnected m (w_this w1) = true ->
  observed_connected rest w1 ->
  observed_connected (m :: rest) w.
Proof.
  intros EU EC Ho [|p pre] m' post E; injection E as <- E.
  - exists w1. rewrite app_nil_l, for_each_one, EU. split; [reflexivity | exact EC].
  - destruct (Ho pre m' post E) as (w2 & Hf & Hc).
    exists w2. rewrite <- app_comm_cons, for_each_cons, EU. split; assumption.
Qed.

(** The member loop is the update of the members up to, and with, the
    first one that is not connected after its update. *)
Lemma update_members_spec (members : list ID) (w : World H) :
  match AggregateImpl.update_members members w with
  | Ok connected w' =>
      if connected
      then for_each members Member.Update w = Ok tt w' /\ observed_connected members w
      else exists pre m post,
             members = pre ++ m :: post
             /\ for_each (pre ++ [m]) Member.Update w = Ok tt w'
             /\ observed_connected pre w
             /\ Member.IsConnected m (w_this w') = false
  | Throw e w' =>
      exists pre m post,
        members = pre ++ m :: post
        /\ for_each (pre ++ [m]) Member.Update w = Throw e w'
        /\ observed_connected pre w
  | OutOfFuel =>
      exists pre m post,
        members = pre ++ m :: post
        /\ for_each (pre ++ [m]) Member.Update w = OutOfFuel
        /\ observed_connected pre w
  end.
Proof.
  revert w. induction members as [|m rest IH]; intros w.
  - cbn. split; [reflexivity | apply observed_connected_nil].
  - cbn [AggregateImpl.update_members]. unfold mbind, StM_bind, bind, get.
    destruct (Member.Update m w) as [[] w1|e w1|] eqn:EU.
    + destruct (Member.IsConnected m (w_this w1)) eqn:EC; cbn [negb].
      * specialize (IH w1).
        destruct (AggregateImpl.update_members rest w1) as [[|] w2|e w2|].
        -- destruct IH as [Hf Ho]. split.
           ++ rewrite for_each_cons, EU. exact Hf.
           ++ eapply observed_connected_cons; eassumption.
        -- destruct IH as (pre & m' & post & -> & Hf & Ho & Hc).
           exists (m :: pre), m', post. split; [reflexivity|].
           split; [rewrite <- app_comm_cons, for_each_cons, EU; exact Hf|].
           split; [eapply observed_connected_cons; eassumption | exact Hc].
        -- destruct IH as (pre & m' & post & -> & Hf & Ho).
           exists (m :: pre), m', post. split; [reflexivity|].
           split; [rewrite <- app_comm_cons, for_each_cons, EU; exact Hf|].
           eapply observed_connected_cons; eassumption.
        -- destruct IH as (pre & m' & post & -> & Hf & Ho).
           exists (m :: pre), m', post. split; [reflexivity|].
           split; [rewrite <- app_comm_cons, for_each_cons, EU; exact Hf|].
           eapply observed_connected_cons; eassumption.
      * exists [], m, rest. split; [reflexivity|].
        split; [rewrite app_nil_l, for_each_one, EU; reflexivity|].
        split; [apply observed_connected_nil | exact EC].
    + exists [], m, rest. split; [reflexivity|].
      split; [rewrite app_nil_l, for_each_one, EU; reflexivity | apply observed_connected_nil].
    + exists [], m, rest. split; [reflexivity|].
      split; [rewrite app_nil_l, for_each_one, EU; reflexivity | apply observed_connected_nil].
Qed.

(** [AggregateImpl::Update] after the member loop. *)
Lemma AggregateImpl_Update_spec (w : World (AggregateImpl.State H A)) :
  glob_disable_management_api (w_glob w) = false ->
  match AggregateImpl.update_members
          (AggregateImpl.members_ (AggregateImpl.base (AggregateImpl.this (w_this w))))
          (members_world w) with
  | Ok connected wh' =>
      exists a',
        AggregateImpl.Update w = Ok tt (aggregate_world wh' a')
        /\ AggregateImpl.is_connected_ (AggregateImpl.base a') = connected
        /\ AggregateImpl.id_ (AggregateImpl.base a')
           = AggregateImpl.id_ (AggregateImpl.base (AggregateImpl.this (w_this w)))
        /\ AggregateImpl.members_ (AggregateImpl.base a')
           = AggregateImpl.members_ (AggregateImpl.base (AggregateImpl.this (w_this w)))
        /\ (connected = false ->
            a' = if AggregateImpl.is_connected_
                      (AggregateImpl.base (AggregateImpl.this (w_this w)))
                 then AggregateImpl.OnDisconnected
                        (AggregateImpl.with_base
                           (AggregateImpl.mk
                              (AggregateImpl.id_
                                 (AggregateImpl.base (AggregateImpl.this (w_this w))))
                              false
                              (AggregateImpl.members_
                                 (AggregateImpl.base (AggregateImpl.this (w_this w))))
                              0
                              (AggregateImpl.force_to_member_
                                 (AggregateImpl.base (AggregateImpl.this (w_this w))))
                              [])
                           (AggregateImpl.this (w_this w)))
                 else AggregateImpl.this (w_this w))
        /\ (connected = false ->
            AggregateImpl.is_connected_ (AggregateImpl.base (AggregateImpl.this (w_this w)))
            = true ->
            AggregateImpl.motor_to_member_ (AggregateImpl.base a') = []
            /\ AggregateImpl.last_update_timestamp_ (AggregateImpl.base a') = 0)
        /\ (connected = true ->
            AggregateImpl.motor_to_member_ (AggregateImpl.base a')
            = AggregateImpl.motor_mapping
                (AggregateImpl.members_ (AggregateImpl.base (AggregateImpl.this (w_this w))))
                (w_this wh')
            /\ AggregateImpl.last_update_timestamp_ (AggregateImpl.base a')
               = clock_now (w_glob wh'))
  | Throw e wh' =>
      AggregateImpl.Update w = Throw e (aggregate_world wh' (AggregateImpl.this (w_this w)))
  | OutOfFuel => AggregateImpl.Update w = OutOfFuel
  end.
Proof.
  intros Hg. destruct w as [g [h a]]. cbn [w_glob w_this AggregateImpl.this] in *.
  unfold AggregateImpl.Update, members_world, aggregate_world.
  unfold mbind, StM_bind, bind, AggregateImpl.self, in_glob, AggregateImpl.on_heap, zoom,
    ProtectManagementAPI.
  cbn [w_glob w_this AggregateImpl.this AggregateImpl.heap]. rewrite Hg.
  cbn [w_glob w_this AggregateImpl.this AggregateImpl.heap].
  destruct (AggregateImpl.update_members _ _) as [connected [g' h']|e [g' h']|];
    cbn [w_glob w_this AggregateImpl.this AggregateImpl.heap]; [|reflexivity|reflexivity].
  unfold AggregateImpl.modify_self, modify_this, modify, AggregateImpl.members_heap,
    AggregateImpl.GenericTimestampNow, mret, StM_ret, ret.
  destruct connected, (AggregateImpl.is_connected_ (AggregateImpl.base a)) eqn:Ec;
    cbn [Bool.eqb negb w_glob w_this AggregateImpl.this AggregateImpl.heap];
    eexists; (split; [reflexivity|]);
    rewrite ?AggregateImpl.base_OnDisconnected, ?AggregateImpl.base_with_base;
    cbn [AggregateImpl.is_connected_ AggregateImpl.id_ AggregateImpl.members_
         AggregateImpl.motor_to_member_ AggregateImpl.last_update_timestamp_];
    rewrite ?AggregateImpl.base_with_base;
    cbn [AggregateImpl.is_connected_ AggregateImpl.id_ AggregateImpl.members_
         AggregateImpl.motor_to_member_ AggregateImpl.last_update_timestamp_];
    repeat split; try discriminate; try assumption; try reflexivity.
Qed.

End AggregateFacts.

Section DerivedUpdates.

Lemma StM_bind_eq {S B C} (m : StM S B) (k : B -> StM S C) (s : S) :
  (m ≫= k) s
  = match m s with
    | Ok b s' => k b s'
    | Throw e s' => Throw e s'
    | OutOfFuel => OutOfFuel
    end.
Proof. reflexivity. Qed.

(** The [Update()] of a derived class is over after
    [AggregateImpl::Update] when that one throws or leaves the
    aggregate disconnected. *)
Lemma AggregateMouse_Update_disconnected {H} `{Member.IMouse H}
    (api : ApiCall -> M ApiResult) (indeterminate : Z)
    (w : World (AggregateImpl.State H AggregateMouse.t)) :
  match AggregateImpl.Update w with
  | Ok _ w' =>
      AggregateMouse.is_connected_ (AggregateImpl.this (w_this w')) = false ->
      AggregateMouse.Update api indeterminate w = Ok tt w'
  | Throw e w' => AggregateMouse.Update api indeterminate w = Throw e w'
  | OutOfFuel => AggregateMouse.Update api indeterminate w = OutOfFuel
  end.
Proof.
  unfold AggregateMouse.Update. rewrite StM_bind_eq.
  destruct (AggregateImpl.Update w) as [[] w'|e w'|]; [|reflexivity|reflexivity].
  intros Hc. rewrite StM_bind_eq. unfold AggregateImpl.self at 1. rewrite Hc. reflexivity.
Qed.

Lemma AggregateKeyboard_Update_disconnected {H} `{Member.IKeyboard H}
    (api : ApiCall -> M ApiResult)
    (w : World (AggregateImpl.State H AggregateKeyboard.t)) :
  match AggregateImpl.Update w with
  | Ok _ w' =>
      AggregateKeyboard.is_connected_ (AggregateImpl.this (w_this w')) = false ->
      AggregateKeyboard.Update api w = Ok tt w'
  | Throw e w' => AggregateKeyboard.Update api w = Throw e w'
  | OutOfFuel => AggregateKeyboard.Update api w = OutOfFuel
  end.
Proof.
  unfold AggregateKeyboard.Update. rewrite StM_bind_eq.
  destruct (AggregateImpl.Update w) as [[] w'|e w'|]; [|reflexivity|reflexivity].
  intros Hc. rewrite StM_bind_eq. unfold AggregateImpl.self at 1. rewrite Hc. reflexivity.
Qed.

Lemma AggregateGamepad_Update_disconnected {H} `{Member.IGamepad H}
    (api : ApiCall -> M ApiResult)
    (w : World (AggregateImpl.State H AggregateGamepad.t)) :
  match AggregateImpl.Update w with
  | Ok _ w' =>
      AggregateGamepad.is_connected_ (AggregateImpl.this (w_this w')) = false ->
      AggregateGamepad.Update api w = Ok tt w'
  | Throw e w' => AggregateGamepad.Update api w = Throw e w'
  | OutOfFuel => AggregateGamepad.Update api w = OutOfFuel
  end.
Proof.
  unfold AggregateGamepad.Update. rewrite StM_bind_eq.
  destruct (AggregateImpl.Update w) as [[] w'|e w'|]; [|reflexivity|reflexivity].
  intros Hc. rewrite StM_bind_eq. unfold AggregateImpl.self at 1. rewrite Hc. reflexivity.
Qed.

Lemma replicate_lookup_default {B} (n k : nat) (x : B) :
  default x (replicate n x !! k) = x.
Proof.
  destruct (replicate n x !! k) as [c|] eqn:E; [|reflexivity].
  apply lookup_replicate in E as [-> _]. reflexivity.
Qed.

End DerivedUpdates.



(** ** The packed word of a cell *)



Lemma land_ones_mod (a : Z) : Z.land a (Z.ones 63) = a mod 2 ^ 63.
Proof. apply Z.land_ones. lia. Qed.

Lemma pack_disjoint (s : bool) (t : Z) :
  Z.land (Z.shiftl (Z.b2z s) 63) (Z.land t TIMESTAMP_BITMASK) = 0.
Proof.
  unfold TIMESTAMP_BITMASK. apply Z.bits_inj'. intros n Hn.
  rewrite !Z.land_spec, Z.bits_0.
  destruct (Z.lt_ge_cases n 63).
  - rewrite Z.shiftl_spec_low by lia. reflexivity.
  - rewrite Z.ones_spec_high by lia. rewrite !andb_false_r. reflexivity.
Qed.

Lemma pack_sum (ts : Z) (s : bool) (d : TSTV) :
  _a (Cell.SetTimestampState ts s d)
  = Z.b2z s * 2 ^ 63 + Z.land ts TIMESTAMP_BITMASK.
Proof.
  unfold Cell.SetTimestampState. cbn [_a].
  pose proof (Z.add_lor_land (Z.shiftl (Z.b2z s) 63) (Z.land ts TIMESTAMP_BITMASK)) as H.
  rewrite pack_disjoint, Z.add_0_r in H. rewrite H.
  rewrite Z.shiftl_mul_pow2 by lia. reflexivity.
Qed.

Lemma Timestamp_pack (s : bool) (t : Z) :
  Z.land (Z.lor (Z.shiftl (Z.b2z s) 63) (Z.land t TIMESTAMP_BITMASK)) TIMESTAMP_BITMASK
  = t mod 2 ^ 63.
Proof.
  unfold TIMESTAMP_BITMASK. rewrite Z.land_lor_distr_l.
  rewrite <- Z.land_assoc, Z.land_diag.
  assert (H0 : Z.land (Z.shiftl (Z.b2z s) 63) (Z.ones 63) = 0).
  { apply Z.bits_inj'. intros n Hn. rewrite Z.land_spec, Z.bits_0.
    destruct (Z.lt_ge_cases n 63).
    - rewrite Z.shiftl_spec_low by lia. reflexivity.
    - rewrite Z.ones_spec_high by lia. apply andb_false_r. }
  rewrite H0, Z.lor_0_l. apply land_ones_mod.
Qed.

Lemma State_pack (s : bool) (t : Z) :
  Z.testbit (Z.lor (Z.shiftl (Z.b2z s) 63) (Z.land t TIMESTAMP_BITMASK)) 63 = s.
Proof.
  unfold TIMESTAMP_BITMASK.
  rewrite Z.lor_spec, Z.shiftl_spec, Z.land_spec by lia.
  rewrite Z.ones_spec_high by lia.
  rewrite andb_false_r, orb_false_r. apply Z.b2z_bit0.
Qed.

Lemma land_state_bit (a : Z) :
  Z.land a STATE_BITMASK = Z.shiftl (Z.b2z (Z.testbit a 63)) 63.
Proof.
  unfold STATE_BITMASK. apply Z.bits_inj'. intros n Hn.
  rewrite Z.land_spec. remember (Z.testbit a 63) as b eqn:Eb.
  destruct (Z.eq_dec n 63) as [->|Hne].
  - rewrite !Z.shiftl_spec by lia. rewrite Z.sub_diag, Z.b2z_bit0, <- Eb.
    change (Z.testbit 1 0) with true. apply andb_true_r.
  - rewrite !Z.shiftl_spec by lia.
    destruct (Z.lt_ge_cases n 63).
    + rewrite (Z.testbit_neg_r 1 (n - 63)) by lia. rewrite andb_false_r.
      symmetry. apply Z.testbit_neg_r. lia.
    + assert (H1 : forall c, Z.testbit (Z.b2z c) (n - 63) = false).
      { intros c. destruct c; [|apply Z.bits_0].
        apply (Z.bits_above_log2 1 (n - 63)); [lia|]. change (Z.log2 1) with 0. lia. }
      change 1 with (Z.b2z true) at 1. rewrite (H1 true), H1. apply andb_false_r.
Qed.


(** X1 ([TSTV], [common.hpp] lines 82-95).  The word [_a] packs the
    digital state into bit 63 and the timestamp into the bits below:
    [Timestamp()] reads back what was written, modulo [2^63], and
    [State()] the state; [SetTimestamp] keeps the state and [SetState]
    the timestamp; setting both, in either order, is
    [SetTimestampState]; the packed word fits the 64 bits. *)
Theorem TSTV_packing (ts : timestamp_t) (s : bool) (d : TSTV) :
  Cell.Timestamp (Cell.SetTimestampState ts s d) = ts mod 2 ^ 63
  /\ Cell.State (Cell.SetTimestampState ts s d) = s
  /\ Cell.Timestamp (Cell.SetTimestamp ts d) = ts mod 2 ^ 63
  /\ Cell.State (Cell.SetTimestamp ts d) = Cell.State d
  /\ Cell.Timestamp (Cell.SetState s d) = Cell.Timestamp d
  /\ Cell.State (Cell.SetState s d) = s
  /\ Cell.SetState s (Cell.SetTimestamp ts d) = Cell.SetTimestampState ts s d
  /\ Cell.SetTimestamp ts (Cell.SetState s d) = Cell.SetTimestampState ts s d
  /\ 0 <= _a (Cell.SetTimestampState ts s d) < 2 ^ 64.
Proof.
  assert (Hland : forall t, 0 <= Z.land t TIMESTAMP_BITMASK < 2 ^ 63).
  { intros t. unfold TIMESTAMP_BITMASK. rewrite land_ones_mod. apply Z.mod_pos_bound. lia. }
  assert (Hmm : forall t, (t mod 2 ^ 63) mod 2 ^ 63 = t mod 2 ^ 63).
  { intros t. apply Z.mod_mod. lia. }
  repeat split.
  - apply Timestamp_pack.
  - rewrite State_testbit. apply State_pack.
  - unfold Cell.Timestamp, Cell.SetTimestamp. cbn [_a]. rewrite land_state_bit. apply Timestamp_pack.
  - rewrite !State_testbit. unfold Cell.SetTimestamp. cbn [_a]. rewrite land_state_bit. apply State_pack.
  - unfold Cell.Timestamp, Cell.SetState. cbn [_a]. rewrite Timestamp_pack.
    unfold TIMESTAMP_BITMASK. rewrite land_ones_mod. reflexivity.
  - rewrite State_testbit. apply State_pack.
  - unfold Cell.SetState, Cell.SetTimestamp, Cell.SetTimestampState. cbn [_a _b _c]. f_equal.
    f_equal. rewrite land_state_bit. rewrite Timestamp_pack.
    unfold TIMESTAMP_BITMASK. rewrite land_ones_mod. reflexivity.
  - unfold Cell.SetState, Cell.SetTimestamp, Cell.SetTimestampState. cbn [_a _b _c]. f_equal.
    f_equal. rewrite land_state_bit, State_pack. reflexivity.
  - rewrite pack_sum. specialize (Hland ts). destruct s; cbn [Z.b2z]; lia.
  - rewrite pack_sum. specialize (Hland ts). destruct s; cbn [Z.b2z]; lia.
Qed.

(** ** Hardware ids *)

Lemma lor_shiftl_low (x y n : Z) :
  0 <= n -> 0 <= y < 2 ^ n -> Z.lor (Z.shiftl x n) y = x * 2 ^ n + y.
Proof.
  intros Hn Hy.
  pose proof (Z.add_lor_land (Z.shiftl x n) y) as H.
  assert (H0 : Z.land (Z.shiftl x n) y = 0).
  { apply Z.bits_inj'. intros k Hk. rewrite Z.land_spec, Z.bits_0.
    destruct (Z.lt_ge_cases k n).
    - rewrite Z.shiftl_spec_low by lia. reflexivity.
    - destruct (Z.eq_dec y 0) as [->|Hy0]; [rewrite Z.bits_0; apply andb_false_r|].
      rewrite (Z.bits_above_log2 y k); [apply andb_false_r|lia|].
      apply Z.lt_le_trans with n; [|lia]. apply Z.log2_lt_pow2; lia. }
  rewrite H0, Z.add_0_r in H. rewrite H, Z.shiftl_mul_pow2 by lia. reflexivity.
Qed.

Lemma input_id_to_uint64_sum (v : input_id) :
  input_id_ok v ->
  input_id_to_uint64 v
  = bustype v * 2 ^ 48 + vendor v * 2 ^ 32 + product v * 2 ^ 16 + version v.
Proof.
  intros (Hb & Hv & Hp & Hr). unfold input_id_to_uint64.
  rewrite (lor_shiftl_low (bustype v) (Z.shiftl (vendor v) 32) 48);
    [|lia|rewrite Z.shiftl_mul_pow2 by lia; lia].
  rewrite (Z.shiftl_mul_pow2 (vendor v)) by lia.
  replace (bustype v * 2 ^ 48 + vendor v * 2 ^ 32)
    with ((bustype v * 2 ^ 16 + vendor v) * 2 ^ 32) by lia.
  rewrite <- (Z.shiftl_mul_pow2 _ 32) by lia.
  rewrite (lor_shiftl_low _ (Z.shiftl (product v) 16) 32);
    [|lia|rewrite Z.shiftl_mul_pow2 by lia; lia].
  rewrite (Z.shiftl_mul_pow2 (product v)) by lia.
  replace ((bustype v * 2 ^ 16 + vendor v) * 2 ^ 32 + product v * 2 ^ 16)
    with (((bustype v * 2 ^ 16 + vendor v) * 2 ^ 16 + product v) * 2 ^ 16) by lia.
  rewrite <- (Z.shiftl_mul_pow2 _ 16) by lia.
  rewrite lor_shiftl_low; [|lia|exact Hr]. rewrite !Z.shiftl_mul_pow2 by lia. lia.
Qed.

(** X3 ([input_id_to_uint64], [input_id_equal], [impl_linux.cpp] lines
    48-63).  For 16-bit fields the 64-bit word holds the four fields
    side by side, so they can be read back from it; two ids give the
    same word exactly when [input_id_equal] holds, which is exactly
    when they are the same id. *)
Theorem input_id_to_uint64_injective (a b : input_id) :
  input_id_ok a -> input_id_ok b ->
  0 <= input_id_to_uint64 a < 2 ^ 64
  /\ Z.shiftr (input_id_to_uint64 a) 48 = bustype a
  /\ Z.land (Z.shiftr (input_id_to_uint64 a) 32) (Z.ones 16) = vendor a
  /\ Z.land (Z.shiftr (input_id_to_uint64 a) 16) (Z.ones 16) = product a
  /\ Z.land (input_id_to_uint64 a) (Z.ones 16) = version a
  /\ (input_id_to_uint64 a = input_id_to_uint64 b <-> input_id_equal a b = true)
  /\ (input_id_equal a b = true <-> a = b).
Proof.
  intros Ha Hb.
  rewrite (input_id_to_uint64_sum a Ha), (input_id_to_uint64_sum b Hb).
  destruct a as [a1 a2 a3 a4], b as [b1 b2 b3 b4].
  unfold input_id_ok, input_id_equal in *. cbn [bustype vendor product version] in *.
  rewrite !Z.shiftr_div_pow2, !Z.land_ones by lia.
  assert (E : (a1 =? b1) && (a2 =? b2) && (a3 =? b3) && (a4 =? b4) = true
              <-> a1 = b1 /\ a2 = b2 /\ a3 = b3 /\ a4 = b4).
  { rewrite !andb_true_iff, !Z.eqb_eq. tauto. }
  destruct Ha as (Ha1 & Ha2 & Ha3 & Ha4), Hb as (Hb1 & Hb2 & Hb3 & Hb4).
  assert (D48 : (a1 * 2 ^ 48 + a2 * 2 ^ 32 + a3 * 2 ^ 16 + a4) / 2 ^ 48 = a1).
  { symmetry. apply Z.div_unique with (a2 * 2 ^ 32 + a3 * 2 ^ 16 + a4); lia. }
  assert (D32 : (a1 * 2 ^ 48 + a2 * 2 ^ 32 + a3 * 2 ^ 16 + a4) / 2 ^ 32 = a1 * 2 ^ 16 + a2).
  { symmetry. apply Z.div_unique with (a3 * 2 ^ 16 + a4); lia. }
  assert (D16 : (a1 * 2 ^ 48 + a2 * 2 ^ 32 + a3 * 2 ^ 16 + a4) / 2 ^ 16
                = (a1 * 2 ^ 16 + a2) * 2 ^ 16 + a3).
  { symmetry. apply Z.div_unique with a4; lia. }
  rewrite D48, D32, D16.
  repeat split.
  - lia.
  - lia.
  - symmetry. apply Z.mod_unique with a1; lia.
  - symmetry. apply Z.mod_unique with (a1 * 2 ^ 16 + a2); lia.
  - symmetry. apply Z.mod_unique with ((a1 * 2 ^ 16 + a2) * 2 ^ 16 + a3); lia.
  - intros H. apply E. lia.
  - intros H. apply E in H. destruct H as (-> & -> & -> & ->). reflexivity.
  - intros H. apply E in H. destruct H as (-> & -> & -> & ->). reflexivity.
  - intros H. apply E. injection H as -> -> -> ->. tauto.
Qed.

Lemma input_id_to_uint64_injective_witness :
  Z.shiftr (input_id_to_uint64 usb_mouse_id) 48 = bustype usb_mouse_id
  /\ (input_id_to_uint64 usb_mouse_id = input_id_to_uint64 bt_keyboard_id
      <-> input_id_equal usb_mouse_id bt_keyboard_id = true).
Proof.
  assert (Ha : input_id_ok usb_mouse_id) by (unfold input_id_ok; cbn; lia).
  assert (Hb : input_id_ok bt_keyboard_id) by (unfold input_id_ok; cbn; lia).
  destruct (input_id_to_uint64_injective usb_mouse_id bt_keyboard_id Ha Hb)
    as (_ & H1 & _ & _ & _ & H2 & _).
  split; [exact H1 | exact H2].
Defined.

(** ** The counter of pressed keys *)

Lemma Timestamp_SetTimestampState (ts : Z) (s : bool) (d : TSTV) :
  Cell.Timestamp (Cell.SetTimestampState ts s d) = ts mod 2 ^ 63.
Proof. apply Timestamp_pack. Qed.

Lemma Modify_kbd_counts (v : float) (ts : timestamp_t) (d : TSTV) (others : Z) :
  stamped d -> ts mod 2 ^ 63 <> 0 -> 0 <= others < 2 ^ 32 - 1 ->
  stamped (snd (fst (Cell.Modify_kbd v ts d (others + Z.b2z (Cell.State d)))))
  /\ snd (Cell.Modify_kbd v ts d (others + Z.b2z (Cell.State d)))
     = others + Z.b2z (Cell.State (snd (fst (Cell.Modify_kbd v ts d
                                                (others + Z.b2z (Cell.State d)))))).
Proof.
  intros Hst Hts Ho. unfold Cell.Modify_kbd.
  assert (Hnew : forall s, stamped (Cell.SetTimestampState ts s d)).
  { intros s _. rewrite Timestamp_SetTimestampState. exact Hts. }
  assert (HnewV : forall s, stamped (Cell.SetValue v (Cell.SetTimestampState ts s d))).
  { intros s. exact (Hnew s). }
  assert (HSt : forall s, Cell.State (Cell.SetValue v (Cell.SetTimestampState ts s d)) = s).
  { intros s. apply (State_SetTimestampState ts s d). }
  pose proof (State_SetTimestampState ts) as HS.
  unfold stamped in Hst.
  destruct (Cell.State d) eqn:Es;
    destruct (AnalogToDigital v (Cell.Threshold d) _) eqn:Ea;
    destruct (Cell.Timestamp d =? 0) eqn:Et;
    destruct (fneq v (Cell.Value d)) eqn:Ev;
    cbn [Bool.eqb negb orb andb fst snd Z.b2z];
    try (apply Z.eqb_eq in Et; exfalso; apply Hst; [reflexivity|exact Et]);
    rewrite ?HSt, ?HS, ?State_SetValue, ?Es; cbn [Z.b2z];
    unfold uint32_wrap;
    (split; [first [apply HnewV | apply Hnew | exact Hst
                   | intros Hs; change (Cell.State (Cell.SetValue v d)) with (Cell.State d) in Hs;
                     rewrite Es in Hs; discriminate
                   | intros _; change (Cell.Timestamp (Cell.SetValue v d)) with (Cell.Timestamp d);
                     apply Hst; reflexivity ]
            | rewrite ?Z.add_0_r; try rewrite Z.mod_small by lia; lia ]).
Qed.

(** X2 ([TSTV::Modify], keyboard version, [common.hpp] lines 113-135).
    The counter keeps counting the pressed keys: if a pressed cell
    holds a timestamp other than 0, the new timestamp is not 0 modulo
    [2^63], and the counter counts this cell and [others] further
    pressed ones, then after [Modify] the counter is again this cell
    plus the [others], and a pressed cell again holds a timestamp
    other than 0. *)
Theorem Modify_kbd_counter (v : float) (ts : timestamp_t) (d : TSTV) (others : Z) :
  stamped d -> ts mod 2 ^ 63 <> 0 -> 0 <= others < 2 ^ 32 - 1 ->
  stamped (snd (fst (Cell.Modify_kbd v ts d (others + Z.b2z (Cell.State d)))))
  /\ snd (Cell.Modify_kbd v ts d (others + Z.b2z (Cell.State d)))
     = others + Z.b2z (Cell.State (snd (fst (Cell.Modify_kbd v ts d
                                                (others + Z.b2z (Cell.State d)))))).
Proof. apply Modify_kbd_counts. Qed.

Lemma Modify_kbd_counter_witness :
  snd (Cell.Modify_kbd one 7 (Cell.SetThreshold half Cell.zeroed) 3) = 4.
Proof.
  assert (Hs : stamped (Cell.SetThreshold half Cell.zeroed))
    by (intros H; vm_compute in H; discriminate H).
  assert (Ht : 7 mod 2 ^ 63 <> 0) by (vm_compute; discriminate).
  destruct (Modify_kbd_counter one 7 (Cell.SetThreshold half Cell.zeroed) 3 Hs Ht ltac:(lia))
    as [_ H].
  vm_compute in H |- *. exact H.
Defined.

(** ** What a dispatch changes *)

Section DispatchEffect.

Variable update_body : ID -> M unit.
Variable fuel : nat.

Local Abbreviation api := (run_api update_body (S fuel)).

Lemma filter_live_erase (g : Glob) (key : EventCallbackKey) (v : ID)
    (m : list (EventCallbackKey * ID)) :
  live g v = false ->
  List.filter (live g) (mm_equal_range key (mm_erase_one key v m))
  = List.filter (live g) (mm_equal_range key m).
Proof.
  intros Hv. unfold mm_equal_range.
  induction m as [|[k x] m IH]; [reflexivity|].
  cbn [mm_erase_one]. destruct (bool_decide ((k, x) = (key, v))) eqn:E.
  - apply bool_decide_eq_true_1 in E. injection E as -> ->.
    cbn [List.filter fst]. rewrite bool_decide_eq_true_2 by reflexivity.
    cbn [map snd List.filter]. rewrite Hv. reflexivity.
  - cbn [List.filter fst]. destruct (bool_decide (k = key)); cbn [map snd List.filter].
    + rewrite IH. reflexivity.
    + exact IH.
Qed.

Lemma erase_range {K V} `{EqDecision K, EqDecision V} (key : K) (v : V)
    (m : list (K * V)) (pre rest : list V) :
  mm_equal_range key m = pre ++ v :: rest -> v ∉ pre ->
  mm_equal_range key (mm_erase_one key v m) = pre ++ rest.
Proof.
  unfold mm_equal_range. revert pre.
  induction m as [|[k x] m IH]; intros pre Hm Hv.
  - destruct pre; discriminate.
  - cbn [mm_erase_one]. cbn [List.filter fst] in Hm.
    destruct (bool_decide ((k, x) = (key, v))) eqn:E.
    + apply bool_decide_eq_true_1 in E. injection E as -> ->.
      rewrite bool_decide_eq_true_2 in Hm by reflexivity. cbn [map snd] in Hm.
      destruct pre as [|p pre].
      * injection Hm as Hm. exact Hm.
      * injection Hm as -> Hm. exfalso. apply Hv. left.
    + apply bool_decide_eq_false_1 in E.
      cbn [List.filter fst]. destruct (bool_decide (k = key)) eqn:Ek.
      * apply bool_decide_eq_true_1 in Ek. subst k. cbn [map snd] in Hm |- *.
        destruct pre as [|p pre].
        -- injection Hm as -> _. contradiction E. reflexivity.
        -- injection Hm as -> Hm. cbn. f_equal. apply IH; [exact Hm|].
           intros Hin. apply Hv. right. exact Hin.
      * apply IH; assumption.
Qed.

(** Whatever the callbacks do, a range loop changes the dispatch
    index and the log only, and the live entries of no key. *)
Lemma range_loop_effect (key : EventCallbackKey) (device : ID) (data : EventData)
    (ids : list ID) (g g1 : Glob) :
  glob_disable_management_api g = false ->
  final_state (range_loop api key device data ids g) = Some g1 ->
  dispatch_frame g g1 /\ forall key', bucket key' g1 = bucket key' g.
Proof.
  revert g. induction ids as [|id rest IH]; intros g Hg Hf.
  - cbn in Hf. injection Hf as <-. split; [apply dispatch_frame_refl|reflexivity].
  - unfold range_loop in Hf. cbn [for_each] in Hf.
    fold (range_loop api key device data rest) in Hf.
    unfold mbind at 1, StM_bind at 1, bind at 1 in Hf.
    unfold mbind at 1, StM_bind at 1, bind at 1 in Hf. unfold get at 1 in Hf.
    destruct (glob_callbacks g !! id) as [[t body]|] eqn:Hcb.
    + destruct (Invoke_cases update_body fuel id body device data g Hg) as [Hi|[e Hi]];
        rewrite Hi in Hf.
      * destruct (IH (add_log (Invoked id device data) g) Hg Hf) as [Hfr Hb].
        split; [eapply dispatch_frame_trans; [|exact Hfr]; repeat split|].
        intros key'. rewrite Hb. reflexivity.
      * cbn in Hf. injection Hf as <-. split; [repeat split|reflexivity].
    + unfold modify at 1 in Hf.
      destruct (IH (set_callback_mapping (mm_erase_one key id (glob_callback_mapping g)) g)
                  Hg Hf) as [Hfr Hb].
      split; [eapply dispatch_frame_trans; [|exact Hfr]; repeat split|].
      intros key'. rewrite Hb. unfold bucket. cbn [glob_callbacks glob_callback_mapping
        set_callback_mapping].
      destruct (decide (key' = key)) as [->|Hne].
      * apply (filter_live_erase g). unfold live. rewrite Hcb.
        apply bool_decide_eq_false_2. intros [? ?]; discriminate.
      * rewrite mm_equal_range_erase_other by exact Hne. reflexivity.
Qed.

(** A loop that returns leaves, under its key, the entries that were
    live. *)
Lemma range_loop_cleanup (key : EventCallbackKey) (device : ID) (data : EventData)
    (ids pre : list ID) (g g1 : Glob) :
  glob_disable_management_api g = false ->
  mm_equal_range key (glob_callback_mapping g) = pre ++ ids ->
  Forall (fun v => live g v = true) pre ->
  range_loop api key device data ids g = Ok tt g1 ->
  mm_equal_range key (glob_callback_mapping g1) = pre ++ List.filter (live g) ids.
Proof.
  revert g pre. induction ids as [|id rest IH]; intros g pre Hg Hm Hpre Hf.
  - cbn in Hf. injection Hf as <-. exact Hm.
  - unfold range_loop in Hf. cbn [for_each] in Hf.
    fold (range_loop api key device data rest) in Hf.
    unfold mbind at 1, StM_bind at 1, bind at 1 in Hf.
    unfold mbind at 1, StM_bind at 1, bind at 1 in Hf. unfold get at 1 in Hf.
    cbn [List.filter]. unfold live at 1.
    destruct (glob_callbacks g !! id) as [[t body]|] eqn:Hcb.
    + rewrite bool_decide_eq_true_2 by eauto.
      destruct (Invoke_cases update_body fuel id body device data g Hg) as [Hi|[e Hi]];
        rewrite Hi in Hf; [|discriminate].
      change (pre ++ id :: List.filter (live g) rest)
        with (pre ++ [id] ++ List.filter (live g) rest).
      rewrite app_assoc.
      apply (IH (add_log (Invoked id device data) g) (pre ++ [id])); [exact Hg| | |exact Hf].
      * cbn [glob_callback_mapping add_log]. rewrite Hm, <- app_assoc. reflexivity.
      * apply Forall_app. split; [exact Hpre|]. constructor; [|constructor].
        unfold live. cbn. rewrite Hcb. apply bool_decide_eq_true_2. eauto.
    + rewrite bool_decide_eq_false_2 by (intros [? ?]; discriminate).
      unfold modify at 1 in Hf.
      apply (IH (set_callback_mapping (mm_erase_one key id (glob_callback_mapping g)) g) pre);
        [exact Hg| |exact Hpre|exact Hf].
      cbn [glob_callback_mapping set_callback_mapping]. apply erase_range; [exact Hm|].
      intros Hin. rewrite Forall_forall in Hpre. specialize (Hpre id Hin).
      unfold live in Hpre. rewrite Hcb in Hpre.
      apply bool_decide_eq_true_1 in Hpre. destruct Hpre; discriminate.
Qed.

Lemma ExecuteCallbacks_Impl_effect (key : EventCallbackKey) (device : ID) (data : EventData)
    (g g1 : Glob) :
  glob_disable_management_api g = false ->
  final_state (ExecuteCallbacks_Impl api key device data g) = Some g1 ->
  dispatch_frame g g1
  /\ (forall key', bucket key' g1 = bucket key' g)
  /\ (returns (ExecuteCallbacks_Impl api key device data g) = true ->
      mm_equal_range key (glob_callback_mapping g1) = bucket key g
      /\ forall key', key' <> key ->
           mm_equal_range key' (glob_callback_mapping g1)
           = mm_equal_range key' (glob_callback_mapping g)).
Proof.
  intros Hg.
  change (ExecuteCallbacks_Impl api key device data g)
    with (range_loop api key device data (mm_equal_range key (glob_callback_mapping g)) g).
  intros Hf. destruct (range_loop_effect _ _ _ _ _ _ Hg Hf) as [Hfr Hb].
  split; [exact Hfr|]. split; [exact Hb|].
  intros Hr.
  pose proof (range_loop_spec update_body fuel key device data
                (mm_equal_range key (glob_callback_mapping g)) g Hg) as Hs.
  destruct (range_loop api key device data _ g) as [[] g2|e g2|] eqn:El; try discriminate.
  cbn in Hf. injection Hf as ->. split.
  - apply (range_loop_cleanup key device data _ [] g g1 Hg eq_refl); [constructor|exact El].
  - unfold loop_post in Hs. destruct Hs as (_ & _ & Hk). exact Hk.
Qed.

Lemma keys_effect (device : ID) (data : EventData) (keys : list EventCallbackKey)
    (g g1 : Glob) :
  glob_disable_management_api g = false ->
  final_state (for_each keys (fun key => ExecuteCallbacks_Impl api key device data) g)
  = Some g1 ->
  dispatch_frame g g1 /\ forall key', bucket key' g1 = bucket key' g.
Proof.
  revert g. induction keys as [|key rest IH]; intros g Hg Hf.
  - cbn in Hf. injection Hf as <-. split; [apply dispatch_frame_refl|reflexivity].
  - rewrite for_each_cons in Hf.
    pose proof (ExecuteCallbacks_Impl_effect key device data g) as He.
    destruct (ExecuteCallbacks_Impl api key device data g) as [[] g2|e g2|]; cbn in Hf.
    + destruct (He g2 Hg eq_refl) as (Hfr & Hb & _).
      assert (Hg2 : glob_disable_management_api g2 = false).
      { destruct Hfr as (_ & _ & -> & _). exact Hg. }
      destruct (IH g2 Hg2 Hf) as [Hfr2 Hb2].
      split; [eapply dispatch_frame_trans; eassumption|].
      intros key'. rewrite Hb2. apply Hb.
    + injection Hf as <-. destruct (He g2 Hg eq_refl) as (Hfr & Hb & _). split; assumption.
    + discriminate.
Qed.

Lemma keys_cleanup (device : ID) (data : EventData) (keys : list EventCallbackKey)
    (g g1 : Glob) :
  glob_disable_management_api g = false ->
  for_each keys (fun key => ExecuteCallbacks_Impl api key device data) g = Ok tt g1 ->
  (forall key, key ∈ keys -> mm_equal_range key (glob_callback_mapping g1) = bucket key g)
  /\ (forall key, key ∉ keys ->
        mm_equal_range key (glob_callback_mapping g1)
        = mm_equal_range key (glob_callback_mapping g)).
Proof.
  revert g. induction keys as [|k rest IH]; intros g Hg Hf.
  - cbn in Hf. injection Hf as <-. split; [intros key Hin; inversion Hin|reflexivity].
  - rewrite for_each_cons in Hf.
    pose proof (ExecuteCallbacks_Impl_effect k device data g) as He.
    destruct (ExecuteCallbacks_Impl api k device data g) as [[] g2|e g2|]; try discriminate.
    destruct (He g2 Hg eq_refl) as (Hfr & Hb & Hc).
    destruct (Hc eq_refl) as [Hk Hother].
    assert (Hg2 : glob_disable_management_api g2 = false).
    { destruct Hfr as (_ & _ & -> & _). exact Hg. }
    destruct (IH g2 Hg2 Hf) as [Hin Hout].
    split.
    + intros key Hkey. destruct (decide (key ∈ rest)) as [Hr|Hr].
      * rewrite (Hin key Hr). apply Hb.
      * rewrite (Hout key Hr). apply elem_of_cons in Hkey as [->|?]; [exact Hk|contradiction].
    + intros key Hkey. apply not_elem_of_cons in Hkey as [Hne Hr].
      rewrite (Hout key Hr). apply Hother. exact Hne.
Qed.

(** With no callback registered a dispatch over some keys returns. *)
Lemma range_loop_dead (key : EventCallbackKey) (device : ID) (data : EventData)
    (ids : list ID) (g : Glob) :
  glob_callbacks g = ∅ ->
  exists g1, range_loop api key device data ids g = Ok tt g1 /\ glob_callbacks g1 = ∅
             /\ log g1 = log g /\ glob_disable_management_api g1 = glob_disable_management_api g.
Proof.
  revert g. induction ids as [|id rest IH]; intros g Hcb.
  - exists g. repeat split. exact Hcb.
  - unfold range_loop. cbn [for_each]. fold (range_loop api key device data rest).
    unfold mbind at 1, StM_bind at 1, bind at 1.
    unfold mbind at 1, StM_bind at 1, bind at 1. unfold get at 1.
    rewrite Hcb, lookup_empty. unfold modify at 1.
    destruct (IH (set_callback_mapping (mm_erase_one key id (glob_callback_mapping g)) g) Hcb)
      as (g1 & -> & H1 & H2 & H3).
    exists g1. repeat split; assumption.
Qed.

Lemma keys_dead (device : ID) (data : EventData) (keys : list EventCallbackKey) (g : Glob) :
  glob_callbacks g = ∅ ->
  exists g1, for_each keys (fun key => ExecuteCallbacks_Impl api key device data) g = Ok tt g1
             /\ glob_callbacks g1 = ∅ /\ log g1 = log g
             /\ glob_disable_management_api g1 = glob_disable_management_api g.
Proof.
  revert g. induction keys as [|k rest IH]; intros g Hcb.
  - exists g. repeat split. exact Hcb.
  - rewrite for_each_cons.
    change (ExecuteCallbacks_Impl api k device data g)
      with (range_loop api k device data (mm_equal_range k (glob_callback_mapping g)) g).
    destruct (range_loop_dead k device data
                (mm_equal_range k (glob_callback_mapping g)) g Hcb) as (g1 & -> & H1 & H2 & H3).
    destruct (IH g1 H1) as (g2 & -> & H4 & H5 & H6).
    exists g2. repeat split; congruence.
Qed.

End DispatchEffect.


Lemma dispatch_filtered_keys (api : ApiCall -> M ApiResult) (t : CallbackType) (D V : Z)
    (data : EventData) (g : Glob) :
  dispatch_filtered api t D V data g
  = for_each (the_keys t D V) (fun key => ExecuteCallbacks_Impl api key D data)
             (add_log (Emitted D t data) g).
Proof.
  unfold dispatch_filtered.
  unfold mbind at 1, StM_bind at 1, bind at 1. unfold modify at 1.
  unfold ExecuteCallbacksWithFilter, ExecuteCallbacks.
  apply (for_each_four (fun key => ExecuteCallbacks_Impl api key D data)).
Qed.

Lemma dispatch_filtered_effect (update_body : ID -> M unit) (fuel : nat)
    (t : CallbackType) (D V : Z) (data : EventData) (g g' : Glob) :
  glob_disable_management_api g = false ->
  final_state (dispatch_filtered (run_api update_body (S fuel)) t D V data g) = Some g' ->
  glob_id_counter g' = glob_id_counter g
  /\ glob_interfaces g' = glob_interfaces g
  /\ glob_disable_management_api g' = false
  /\ glob_callbacks g' = glob_callbacks g
  /\ glob_dev_to_aggr g' = glob_dev_to_aggr g
  /\ nat_device_ids g' = nat_device_ids g
  /\ (forall key, bucket key g' = bucket key g)
  /\ (returns (dispatch_filtered (run_api update_body (S fuel)) t D V data g) = true ->
      (forall key, key ∈ the_keys t D V ->
         mm_equal_range key (glob_callback_mapping g') = bucket key g)
      /\ (forall key, key ∉ the_keys t D V ->
            mm_equal_range key (glob_callback_mapping g')
            = mm_equal_range key (glob_callback_mapping g))).
Proof.
  intros Hg. rewrite !dispatch_filtered_keys. intros Hf.
  destruct (keys_effect update_body fuel D data _ (add_log (Emitted D t data) g) g' Hg Hf)
    as [(H1 & H2 & H3 & H4 & H5 & H6 & _) Hb].
  cbn in H1, H2, H3, H4, H5, H6.
  repeat split; try congruence.
  - intros key. rewrite Hb. reflexivity.
  - intros key Hin.
    destruct (for_each _ _ _) as [[] g1|e g1|] eqn:E; try discriminate.
    cbn in Hf. injection Hf as ->.
    destruct (keys_cleanup update_body fuel D data _ (add_log (Emitted D t data) g) _ Hg E)
      as [Hc _].
    rewrite (Hc key Hin). reflexivity.
  - intros key Hin.
    destruct (for_each _ _ _) as [[] g1|e g1|] eqn:E; try discriminate.
    cbn in Hf. injection Hf as ->.
    destruct (keys_cleanup update_body fuel D data _ (add_log (Emitted D t data) g) _ Hg E)
      as [_ Hc].
    rewrite (Hc key Hin). reflexivity.
Qed.




Lemma dispatch_filtered_environment (update_body : ID -> M unit) (fuel : nat)
    (t : CallbackType) (D V : Z) (data : EventData) (g g' : Glob) :
  glob_disable_management_api g = false ->
  final_state (dispatch_filtered (run_api update_body (S fuel)) t D V data g) = Some g' ->
  dev_input g' = dev_input g /\ clock_now g' = clock_now g.
Proof.
  intros Hg. rewrite dispatch_filtered_keys. intros Hf.
  destruct (keys_effect update_body fuel D data _ (add_log (Emitted D t data) g) g' Hg Hf)
    as [(_ & _ & _ & _ & _ & _ & H7 & H8) _].
  split; assumption.
Qed.

(** ** Registering and unregistering callbacks *)

Lemma CTYPEID_inj (t t' : CallbackType) : CTYPEID t = CTYPEID t' -> t = t'.
Proof. destruct t, t'; cbn; intros H; first [reflexivity | discriminate]. Qed.

Lemma bucket_subset (key : EventCallbackKey) (g : Glob) (id : ID) :
  id ∈ bucket key g -> id ∈ map snd (glob_callback_mapping g).
Proof.
  unfold bucket, mm_equal_range. intros Hin.
  apply list_elem_of_In, filter_In in Hin as [Hin _].
  apply list_elem_of_In. apply in_map_iff in Hin as ((k & v) & <- & Hin).
  apply filter_In in Hin as [Hin _]. apply in_map_iff. exists (k, v). split; [reflexivity|exact Hin].
Qed.

Lemma mm_equal_range_insert {K V} `{EqDecision K, EqDecision V} (key k : K) (v : V)
    (m : list (K * V)) :
  mm_equal_range key (mm_insert k v m)
  = mm_equal_range key m ++ (if bool_decide (key = k) then [v] else []).
Proof.
  unfold mm_equal_range, mm_insert. rewrite List.filter_app, map_app. f_equal.
  cbn [List.filter fst]. destruct (decide (key = k)) as [->|Hne].
  - rewrite !bool_decide_eq_true_2 by reflexivity. reflexivity.
  - rewrite (bool_decide_eq_false_2 (k = key)) by congruence.
    rewrite bool_decide_eq_false_2 by exact Hne. reflexivity.
Qed.

Section Registry.
Variable update_body : ID -> M unit.
Variable fuel : nat.
Local Abbreviation api := (run_api update_body (S fuel)).

Lemma InsertCallback_bucket (t : CallbackType) (cb : UserCallback) (device : ID)
    (value_filter : option Z) (g : Glob) :
  counter_fresh g ->
  exists g',
    InsertCallback t cb device value_filter g = Ok (glob_id_counter g) g'
    /\ glob_callbacks g' = <[glob_id_counter g := (t, cb)]> (glob_callbacks g)
    /\ glob_interfaces g' = glob_interfaces g
    /\ glob_dev_to_aggr g' = glob_dev_to_aggr g
    /\ glob_disable_management_api g' = glob_disable_management_api g
    /\ glob_id_counter g' = uint64_wrap (glob_id_counter g + 1)
    /\ log g' = log g
    /\ forall key,
         bucket key g'
         = bucket key g ++ (if bool_decide (key = registration_key t device value_filter)
                            then [glob_id_counter g] else []).
Proof.
  intros [Hcb Hmap].
  cbv [InsertCallback ReserveID mbind StM_bind bind modify mret StM_ret ret].
  cbn [glob_callbacks set_id_counter glob_callback_mapping]. unfold ID in *.
  eexists. split; [rewrite Hcb; reflexivity|].
  cbn [glob_callbacks glob_interfaces glob_dev_to_aggr glob_disable_management_api
       glob_id_counter log glob_callback_mapping set_callback_mapping set_callbacks
       set_id_counter].
  repeat split.
  intros key. unfold bucket.
  cbn [glob_callbacks glob_callback_mapping set_callback_mapping set_callbacks set_id_counter].
  fold (registration_key t device value_filter).
  rewrite mm_equal_range_insert, List.filter_app. f_equal.
  - apply List.filter_ext_in. intros x Hx.
    assert (Hne : x <> glob_id_counter g).
    { intros ->. apply Hmap. apply list_elem_of_In.
      unfold mm_equal_range in Hx. apply in_map_iff in Hx as ((k & v) & <- & Hx).
      apply filter_In in Hx as [Hx _]. apply in_map_iff. exists (k, v). split; [reflexivity|exact Hx]. }
    rewrite lookup_insert_ne by congruence. reflexivity.
  - destruct (bool_decide (key = _)); [|reflexivity].
    cbn [List.filter]. rewrite lookup_insert_eq.
    rewrite bool_decide_eq_true_2 by eauto. reflexivity.
Qed.

Lemma registration_key_global (t t' : CallbackType) (value_filter : option Z) (D V : Z) :
  D <> 0 ->
  (registration_key t 0 value_filter ∈ the_keys t' D V)
  <-> t' = t /\ filter_matches value_filter V.
Proof.
  intros HD. unfold the_keys, registration_key, filter_matches.
  rewrite !elem_of_cons, elem_of_nil.
  unfold ConstructEventCallbackKey, ConstructEventCallbackKey_filter.
  destruct value_filter as [f|]; split.
  - intros [H|[H|[H|[H|[]]]]]; injection H; intros; try discriminate; try congruence.
    match goal with E : CTYPEID _ = CTYPEID _ |- _ => apply CTYPEID_inj in E; subst end.
    split; [reflexivity|assumption].
  - intros [-> Hf]. right. left. rewrite Hf. reflexivity.
  - intros [H|[H|[H|[H|[]]]]]; injection H; intros; try discriminate; try congruence.
    match goal with E : CTYPEID _ = CTYPEID _ |- _ => apply CTYPEID_inj in E; subst end.
    split; [reflexivity|exact I].
  - intros [-> _]. right. right. right. left. reflexivity.
Qed.

Lemma dispatch_order_elem (t : CallbackType) (D V : Z) (g : Glob) (id : ID) :
  id ∈ dispatch_order t D V g <-> exists key, key ∈ the_keys t D V /\ id ∈ bucket key g.
Proof.
  unfold dispatch_order, the_keys. rewrite !elem_of_app. split.
  - intros [H|[H|[H|H]]]; eexists; (split; [|exact H]); rewrite !elem_of_cons; auto.
  - intros (key & Hk & Hin). rewrite !elem_of_cons, elem_of_nil in Hk.
    destruct Hk as [->|[->|[->|[->|[]]]]]; auto.
Qed.

End Registry.

(** X5 ([RegisterGlobalCallback], [InsertCallback], [common.hpp] lines
    390-400, [impl.cpp]).  Registering a global callback outside a
    callback, with an id counter that is not in use, returns the value
    of the counter as the id of the callback, stores the callback
    under it, changes no other callback and no device, and adds the id
    to one key of the dispatch index only.  From then on the events of
    a device that enter the new callback are exactly those of the
    registered kind whose discriminator passes the filter. *)
Theorem RegisterGlobalCallback_dispatched (update_body : ID -> M unit) (fuel : nat)
    (t : CallbackType) (value_filter : option Z) (cb : UserCallback) (g : Glob) :
  glob_disable_management_api g = false ->
  counter_fresh g ->
  exists g',
    run_api update_body (S fuel) (RegisterGlobalCallback_ t value_filter cb) g
    = Ok (RID (glob_id_counter g)) g'
    /\ glob_callbacks g' !! glob_id_counter g = Some (t, cb)
    /\ glob_interfaces g' = glob_interfaces g
    /\ (forall id, id <> glob_id_counter g -> glob_callbacks g' !! id = glob_callbacks g !! id)
    /\ (forall key,
          bucket key g'
          = bucket key g ++ (if bool_decide (key = registration_key t 0 value_filter)
                             then [glob_id_counter g] else []))
    /\ (forall t' D V,
          D <> 0 ->
          glob_id_counter g ∈ dispatch_order t' D V g'
          <-> t' = t /\ filter_matches value_filter V).
Proof.
  intros Hg Hfresh.
  destruct (InsertCallback_bucket t cb 0 value_filter g Hfresh)
    as (g' & HI & Hcb & Hif & _ & _ & _ & _ & Hb).
  exists g'. split.
  { cbn [run_api api_step]. unfold mbind, StM_bind, bind, ProtectManagementAPI.
    rewrite Hg, HI. reflexivity. }
  split; [rewrite Hcb; apply lookup_insert_eq|].
  split; [exact Hif|].
  split; [intros id Hne; rewrite Hcb; apply lookup_insert_ne; congruence|].
  split; [exact Hb|].
  intros t' D V HD. rewrite dispatch_order_elem.
  rewrite <- (registration_key_global t t' value_filter D V HD).
  split.
  - intros (key & Hk & Hin). rewrite Hb in Hin. apply elem_of_app in Hin as [Hin|Hin].
    + exfalso. destruct Hfresh as [_ Hm]. apply Hm. eapply bucket_subset. exact Hin.
    + destruct (bool_decide (key = _)) eqn:E; [|inversion Hin].
      apply bool_decide_eq_true_1 in E. subst key. exact Hk.
  - intros Hk. exists (registration_key t 0 value_filter). split; [exact Hk|].
    rewrite Hb, bool_decide_eq_true_2 by reflexivity.
    apply elem_of_app. right. apply list_elem_of_singleton. reflexivity.
Qed.

Lemma RegisterGlobalCallback_dispatched_witness :
  exists g',
    run_api no_update 8 (RegisterGlobalCallback_ _MouseButtonCallback (Some 0) []) one_mouse
    = Ok (RID (glob_id_counter one_mouse)) g'
    /\ glob_id_counter one_mouse ∈ dispatch_order _MouseButtonCallback 1 0 g'.
Proof.
  destruct (RegisterGlobalCallback_dispatched no_update 7 _MouseButtonCallback (Some 0) []
              one_mouse) as (g' & Hrun & _ & _ & _ & _ & Hd).
  - vm_compute. reflexivity.
  - split; [vm_compute; reflexivity|]. vm_compute. intros H. inversion H.
  - exists g'. split; [exact Hrun|]. apply Hd; [discriminate|]. split; reflexivity.
Defined.

(** X6 ([UnregisterCallback], [EraseCallback], [impl.cpp] lines
    290-294, [common.hpp] lines 402-403).  Unregistering a callback
    outside a callback returns, removes the callback from the
    registered ones and leaves the dispatch index as it is; for an id
    that is not registered nothing changes.  Every key then leads to
    the callbacks it led to, without the unregistered one, and no
    later event of a device enters it. *)
Theorem UnregisterCallback_never_invoked (update_body : ID -> M unit) (fuel : nat)
    (id : ID) (g : Glob) :
  glob_disable_management_api g = false ->
  exists g',
    run_api update_body (S fuel) (UnregisterCallback_ id) g = Ok RVoid g'
    /\ glob_callbacks g' = delete id (glob_callbacks g)
    /\ glob_callback_mapping g' = glob_callback_mapping g
    /\ (glob_callbacks g !! id = None -> g' = g)
    /\ (forall key,
          bucket key g' = List.filter (fun x => negb (bool_decide (x = id))) (bucket key g))
    /\ (forall t D V data g'',
          D <> 0 ->
          final_state (dispatch_filtered (run_api update_body (S fuel)) t D V data g')
          = Some g'' ->
          exists entered,
            log g'' = log g' ++ Emitted D t data :: map (fun cb => Invoked cb D data) entered
            /\ id ∉ entered).
Proof.
  intros Hg.
  exists (set_callbacks (delete id (glob_callbacks g)) g).
  assert (Hb : forall key,
             bucket key (set_callbacks (delete id (glob_callbacks g)) g)
             = List.filter (fun x => negb (bool_decide (x = id))) (bucket key g)).
  { intros key. unfold bucket. cbn [glob_callbacks glob_callback_mapping set_callbacks].
    induction (mm_equal_range key (glob_callback_mapping g)) as [|x l IH]; [reflexivity|].
    cbn [List.filter]. destruct (decide (x = id)) as [->|Hne].
    - rewrite lookup_delete_eq.
      rewrite (bool_decide_eq_false_2 (is_Some None)) by (intros [? ?]; discriminate).
      rewrite IH. destruct (bool_decide (is_Some (glob_callbacks g !! id)));
        cbn [List.filter]; rewrite ?bool_decide_eq_true_2 by reflexivity; reflexivity.
    - rewrite lookup_delete_ne by congruence.
      destruct (bool_decide (is_Some (glob_callbacks g !! x))); [|exact IH].
      cbn [List.filter]. rewrite (bool_decide_eq_false_2 (x = id)) by exact Hne.
      cbn [negb]. rewrite IH. reflexivity. }
  split.
  { cbn [run_api api_step]. unfold UnregisterCallback, EraseCallback.
    unfold mbind, StM_bind, bind, ProtectManagementAPI, modify, mret, StM_ret, ret.
    rewrite Hg. reflexivity. }
  split; [reflexivity|]. split; [reflexivity|].
  split.
  { intros Hn. rewrite delete_id by exact Hn. destruct g; reflexivity. }
  split; [exact Hb|].
  intros t D V data g'' HD Hf.
  pose proof (dispatch_filtered_spec update_body fuel t D V data
                (set_callbacks (delete id (glob_callbacks g)) g) Hg HD) as Hs.
  assert (Hnot : id ∉ dispatch_order t D V (set_callbacks (delete id (glob_callbacks g)) g)).
  { rewrite dispatch_order_elem. intros (key & _ & Hin). rewrite Hb in Hin.
    apply list_elem_of_In, filter_In in Hin as [_ Hin].
    rewrite bool_decide_eq_true_2 in Hin by reflexivity. discriminate. }
  destruct (dispatch_filtered _ _ _ _ _ _) as [[] g1|e g1|]; cbn in Hf;
    [injection Hf as <-|injection Hf as <-|discriminate].
  - eexists. split; [exact Hs|exact Hnot].
  - destruct Hs as [k Hs]. eexists. split; [exact Hs|].
    intros Hin. apply Hnot. apply elem_of_take in Hin as (i & Hi & _).
    eapply list_elem_of_lookup_2. exact Hi.
Qed.

Lemma UnregisterCallback_never_invoked_witness :
  exists g',
    run_api no_update 8 (UnregisterCallback_ 3) two_callbacks = Ok RVoid g'
    /\ glob_callbacks g' = delete 3 (glob_callbacks two_callbacks)
    /\ glob_callback_mapping g' = glob_callback_mapping two_callbacks.
Proof.
  destruct (UnregisterCallback_never_invoked no_update 7 3 two_callbacks)
    as (g' & Hrun & Hc & Hm & _).
  - vm_compute. reflexivity.
  - exists g'. split; [exact Hrun|]. split; [exact Hc|exact Hm].
Defined.

(** X7 ([UnregisterAllCallbacks], [impl.cpp] lines 296-300).
    Unregistering all callbacks outside a callback returns and empties
    the registered callbacks; the dispatch index and the devices stay
    as they are.  Every event dispatched next returns without entering
    a callback, and empties the four keys it looks up. *)
Theorem UnregisterAllCallbacks_silences (update_body : ID -> M unit) (fuel : nat) (g : Glob) :
  glob_disable_management_api g = false ->
  exists g',
    run_api update_body (S fuel) UnregisterAllCallbacks_ g = Ok RVoid g'
    /\ glob_callbacks g' = ∅
    /\ glob_callback_mapping g' = glob_callback_mapping g
    /\ glob_interfaces g' = glob_interfaces g
    /\ forall t D V data,
         exists g'',
           dispatch_filtered (run_api update_body (S fuel)) t D V data g' = Ok tt g''
           /\ log g'' = log g' ++ [Emitted D t data]
           /\ (forall key, key ∈ the_keys t D V ->
                 mm_equal_range key (glob_callback_mapping g'') = [])
           /\ (forall key, key ∉ the_keys t D V ->
                 mm_equal_range key (glob_callback_mapping g'')
                 = mm_equal_range key (glob_callback_mapping g)).
Proof.
  intros Hg. exists (set_callbacks ∅ g). split.
  { cbn [run_api api_step]. unfold UnregisterAllCallbacks.
    unfold mbind, StM_bind, bind, ProtectManagementAPI, modify, mret, StM_ret, ret.
    rewrite Hg. reflexivity. }
  split; [reflexivity|]. split; [reflexivity|]. split; [reflexivity|].
  intros t D V data.
  destruct (keys_dead update_body fuel D data (the_keys t D V)
              (add_log (Emitted D t data) (set_callbacks ∅ g)) eq_refl)
    as (g'' & Hrun & _ & Hlog & _).
  exists g''.
  assert (Hd : dispatch_filtered (run_api update_body (S fuel)) t D V data (set_callbacks ∅ g)
               = Ok tt g'').
  { rewrite dispatch_filtered_keys. exact Hrun. }
  split; [exact Hd|]. split; [rewrite Hlog; reflexivity|].
  pose proof (dispatch_filtered_effect update_body fuel t D V data
                (set_callbacks ∅ g) g'' Hg) as He.
  rewrite Hd in He. destruct (He eq_refl) as (_ & _ & _ & _ & _ & _ & _ & Hc).
  destruct (Hc eq_refl) as [Hin Hout]. split.
  - intros key Hk. rewrite (Hin key Hk). unfold bucket.
    cbn [glob_callbacks set_callbacks].
    induction (mm_equal_range key _) as [|x l IH]; [reflexivity|].
    cbn [List.filter]. rewrite lookup_empty.
    rewrite bool_decide_eq_false_2 by (intros [? ?]; discriminate). exact IH.
  - intros key Hk. rewrite (Hout key Hk). reflexivity.
Qed.

Lemma UnregisterAllCallbacks_silences_witness :
  exists g',
    run_api no_update 8 UnregisterAllCallbacks_ two_callbacks = Ok RVoid g'
    /\ glob_callbacks g' = ∅
    /\ glob_callback_mapping g' = glob_callback_mapping two_callbacks.
Proof.
  destruct (UnregisterAllCallbacks_silences no_update 7 two_callbacks)
    as (g' & Hrun & Hc & Hm & _).
  - vm_compute. reflexivity.
  - exists g'. split; [exact Hrun|]. split; [exact Hc|exact Hm].
Defined.


(** ** Destroying a device *)

Lemma for_each_EraseCallback (cbs : list ID) (g : Glob) :
  for_each cbs EraseCallback g = Ok tt (set_callbacks (erase_all cbs (glob_callbacks g)) g).
Proof.
  revert g. induction cbs as [|cb cbs IH]; intros g.
  - cbn. destruct g; reflexivity.
  - rewrite for_each_cons. unfold EraseCallback at 1, modify at 1. rewrite IH.
    destruct g; reflexivity.
Qed.

Lemma for_each_UnlinkAggregate (a : ID) (members : list ID) (g : Glob) :
  for_each members (fun m => UnlinkAggregate a m) g
  = Ok tt (set_dev_to_aggr (unlink_all a members (glob_dev_to_aggr g)) g).
Proof.
  revert g. induction members as [|m ms IH]; intros g.
  - cbn. destruct g; reflexivity.
  - rewrite for_each_cons. unfold UnlinkAggregate at 1, modify at 1. rewrite IH.
    destruct g; reflexivity.
Qed.

Lemma erase_all_lookup (cbs : list ID) (m : gmap Z (CallbackType * UserCallback)) (cb : ID) :
  erase_all cbs m !! cb = if bool_decide (cb ∈ cbs) then None else m !! cb.
Proof.
  revert m. induction cbs as [|c cbs IH]; intros m.
  - reflexivity.
  - cbn [erase_all fold_left]. fold (erase_all cbs (delete c m)). rewrite IH.
    destruct (decide (cb = c)) as [->|Hne].
    + rewrite (bool_decide_eq_true_2 (c ∈ c :: cbs)) by left.
      rewrite lookup_delete_eq. destruct (bool_decide _); reflexivity.
    + rewrite lookup_delete_ne by congruence.
      destruct (decide (cb ∈ cbs)) as [Hin|Hnin].
      * rewrite !bool_decide_eq_true_2; [reflexivity|right; exact Hin|exact Hin].
      * rewrite !bool_decide_eq_false_2; [reflexivity| |exact Hnin].
        intros Hc. apply elem_of_cons in Hc as [?|?]; contradiction.
Qed.

Lemma delete_then_erase (d : BaseInterface) (g : Glob) :
  (delete_interface d;; erase_interface (id_ d)) g = Ok tt (destroyed d g).
Proof.
  unfold delete_interface, erase_interface, destroyed.
  rewrite StM_bind_eq. rewrite StM_bind_eq. unfold modify at 1. cbv beta iota.
  rewrite StM_bind_eq.
  destruct (kind_ d) as [hwid|members].
  - unfold modify at 1. cbv beta iota. rewrite for_each_EraseCallback. unfold modify.
    destruct g; reflexivity.
  - rewrite for_each_UnlinkAggregate. cbv beta iota. rewrite for_each_EraseCallback.
    unfold modify. destruct g; reflexivity.
Qed.

Lemma omap_Invoked_nil (D : ID) (data : EventData) :
  (forall l, deleted (map (fun cb => Invoked cb D data) l) = [])
  /\ (forall l, omap (fun e => match e with Deleted x => Some x | _ => None end)
                     (map (fun cb => Invoked cb D data) l) = []).
Proof. split; intros l; induction l as [|x l IH]; [reflexivity|exact IH|reflexivity|exact IH]. Qed.



(** ** Aggregating devices *)

Lemma for_each_LinkAggregate (a : ID) (members : list ID) (g : Glob) :
  for_each members (fun m => LinkAggregate a m) g
  = Ok tt (set_dev_to_aggr (glob_dev_to_aggr g ++ map (fun m => (m, a)) members) g).
Proof.
  revert g. induction members as [|m ms IH]; intros g.
  - cbn. rewrite app_nil_r. destruct g; reflexivity.
  - rewrite for_each_cons. unfold LinkAggregate at 1, modify at 1. rewrite IH.
    cbn [glob_dev_to_aggr set_dev_to_aggr]. unfold mm_insert.
    rewrite <- app_assoc. destruct g; reflexivity.
Qed.

Lemma mapM_GetDevice_ids (g : Glob) (ids : list ID) (members : list BaseInterface) :
  registry_ok g ->
  mapM (fun id => GetDevice id g) ids = Some members ->
  map id_ members = ids.
Proof.
  intros Hok. revert members. induction ids as [|i ids IH]; intros members Hm.
  - cbn in Hm. injection Hm as <-. reflexivity.
  - cbn in Hm. destruct (GetDevice i g) as [p|] eqn:Ep; [|discriminate].
    cbn in Hm. destruct (mapM _ ids) as [ps|] eqn:Eps; [|discriminate].
    cbn in Hm. injection Hm as <-. cbn. f_equal; [|apply IH; reflexivity].
    unfold GetDevice in Ep. destruct (i =? 0); [discriminate|]. apply Hok. exact Ep.
Qed.

Lemma Aggregate_cases (update_body : ID -> M unit) (fuel : nat)
    (ids : list ID) (hint_type : DeviceType) (g : Glob) :
  glob_disable_management_api g = false ->
  registry_ok g ->
  glob_interfaces g !! glob_id_counter g = None ->
  match run_api update_body (S fuel) (Aggregate_ ids hint_type) g with
  | Ok r g' =>
      exists p, r = RDevice p /\
        match p with
        | None => g' = g
        | Some a =>
            (g' = g /\ is_Some (glob_interfaces g !! a))
            \/ (a = glob_id_counter g
                /\ (2 <= length ids)%nat
                /\ exists members t,
                     mapM (fun id => GetDevice id g) ids = Some members
                     /\ t <> UNKNOWN
                     /\ Forall (fun p => type_ p = t) members
                     /\ (hint_type = UNKNOWN \/ hint_type = t)
                     /\ glob_interfaces g'
                        = <[a := mkBaseInterface a t [] (AggregateImpl ids)]>
                            (glob_interfaces g)
                     /\ glob_dev_to_aggr g'
                        = glob_dev_to_aggr g ++ map (fun m => (m, a)) ids
                     /\ glob_id_counter g' = uint64_wrap (a + 1)
                     /\ glob_callbacks g' = glob_callbacks g
                     /\ glob_callback_mapping g' = glob_callback_mapping g
                     /\ nat_device_ids g' = nat_device_ids g
                     /\ glob_disable_management_api g' = false
                     /\ log g' = log g)
        end
  | Throw e g' => g' = g
  | OutOfFuel => False
  end.
Proof.
  intros Hg Hok Hfresh.
  cbn [run_api api_step]. unfold Aggregate.
  rewrite StM_bind_eq. rewrite StM_bind_eq. unfold ProtectManagementAPI at 1. rewrite Hg.
  cbv beta iota. rewrite StM_bind_eq. unfold get at 1. cbv beta iota.
  destruct ids as [|i1 [|i2 rest]].
  - cbn. exists None. split; reflexivity.
  - destruct (GetDevice i1 g) as [p|] eqn:Ep; [|cbn; exists None; split; reflexivity].
    assert (Hp : glob_interfaces g !! id_ p = Some p).
    { unfold GetDevice in Ep. destruct (i1 =? 0); [discriminate|].
      rewrite (Hok _ _ Ep). exact Ep. }
    destruct (bool_decide (hint_type = UNKNOWN) || bool_decide (type_ p = hint_type));
      cbn; [|exists None; split; reflexivity].
    exists (Some (id_ p)). split; [reflexivity|]. left. split; [reflexivity|]. eauto.
  - set (ids := i1 :: i2 :: rest) in *.
    set (cand := aggr_candidates_loop (glob_dev_to_aggr g) true ids []).
    destruct (match cand with [a] => GetDevice a g | _ => None end) as [p|] eqn:Ec.
    { cbn. exists (Some (id_ p)). split; [reflexivity|]. left. split; [reflexivity|].
      destruct cand as [|a [|? ?]]; try discriminate.
      unfold GetDevice in Ec. destruct (a =? 0); [discriminate|].
      rewrite (Hok _ _ Ec). eauto. }
    destruct (mapM (fun id => GetDevice id g) ids) as [members|] eqn:Em;
      [|cbn; exists None; split; reflexivity].
    pose proof (mapM_GetDevice_ids g ids members Hok Em) as Hids.
    set (t := if bool_decide (hint_type = UNKNOWN)
              then from_option type_ UNKNOWN (head members) else hint_type).
    destruct (forallb (fun p => bool_decide (type_ p = t)) members) eqn:Ef;
      [|cbn; exists None; split; reflexivity].
    assert (Hall : Forall (fun p => type_ p = t) members).
    { apply Forall_forall. intros p Hin. rewrite forallb_forall in Ef.
      apply list_elem_of_In in Hin. specialize (Ef p Hin).
      apply bool_decide_eq_true_1 in Ef. exact Ef. }
    assert (Hhint : hint_type = UNKNOWN \/ hint_type = t).
    { subst t. destruct (bool_decide (hint_type = UNKNOWN)) eqn:Eh;
        [left; apply bool_decide_eq_true_1 in Eh; exact Eh|right; reflexivity]. }
    assert (Hcreate : forall t', t' = t -> t' <> UNKNOWN ->
              match
                (p_aggregate ← new_Aggregate t' (map id_ members);
                 insert_interface p_aggregate;; mret (Some (id_ p_aggregate))) g
              with
              | Ok p g' =>
                  p = Some (glob_id_counter g)
                  /\ glob_interfaces g'
                     = <[glob_id_counter g
                         := mkBaseInterface (glob_id_counter g) t [] (AggregateImpl ids)]>
                         (glob_interfaces g)
                  /\ glob_dev_to_aggr g'
                     = glob_dev_to_aggr g ++ map (fun m => (m, glob_id_counter g)) ids
                  /\ glob_id_counter g' = uint64_wrap (glob_id_counter g + 1)
                  /\ glob_callbacks g' = glob_callbacks g
                  /\ glob_callback_mapping g' = glob_callback_mapping g
                  /\ nat_device_ids g' = nat_device_ids g
                  /\ glob_disable_management_api g' = false
                  /\ log g' = log g
              | _ => False
              end).
    { intros t' -> Hne. unfold new_Aggregate, ReserveID.
      rewrite StM_bind_eq. rewrite StM_bind_eq. cbv beta iota.
      rewrite StM_bind_eq. rewrite for_each_LinkAggregate. cbv beta iota.
      unfold mret at 1, StM_ret at 1, ret at 1. cbv beta iota.
      unfold insert_interface. rewrite StM_bind_eq. unfold modify at 1.
      cbn [glob_interfaces set_dev_to_aggr set_id_counter id_]. unfold ID in *.
      rewrite Hfresh. cbv beta iota. unfold mret, StM_ret, ret. rewrite Hids.
      cbn. repeat split. exact Hg. }
    destruct t eqn:Et.
    + cbn. reflexivity.
    + specialize (Hcreate MOUSE eq_refl ltac:(discriminate)). cbv beta iota.
      destruct ((p_aggregate ← new_Aggregate MOUSE (map id_ members); _) g)
        as [p g'|e g'|]; try contradiction.
      destruct Hcreate as (-> & H1 & H2 & H3 & H4 & H5 & H6 & H7 & H8).
      cbn. exists (Some (glob_id_counter g)). split; [reflexivity|]. right.
      split; [reflexivity|]. split; [cbn; lia|].
      exists members, MOUSE. repeat split; try assumption; discriminate.
    + specialize (Hcreate KEYBOARD eq_refl ltac:(discriminate)). cbv beta iota.
      destruct ((p_aggregate ← new_Aggregate KEYBOARD (map id_ members); _) g)
        as [p g'|e g'|]; try contradiction.
      destruct Hcreate as (-> & H1 & H2 & H3 & H4 & H5 & H6 & H7 & H8).
      cbn. exists (Some (glob_id_counter g)). split; [reflexivity|]. right.
      split; [reflexivity|]. split; [cbn; lia|].
      exists members, KEYBOARD. repeat split; try assumption; discriminate.
    + specialize (Hcreate GAMEPAD eq_refl ltac:(discriminate)). cbv beta iota.
      destruct ((p_aggregate ← new_Aggregate GAMEPAD (map id_ members); _) g)
        as [p g'|e g'|]; try contradiction.
      destruct Hcreate as (-> & H1 & H2 & H3 & H4 & H5 & H6 & H7 & H8).
      cbn. exists (Some (glob_id_counter g)). split; [reflexivity|]. right.
      split; [reflexivity|]. split; [cbn; lia|].
      exists members, GAMEPAD. repeat split; try assumption; discriminate.
Qed.




Lemma fold_set_insert_replicate (a : ID) (n : nat) :
  fold_left (fun s x => set_insert x s) (replicate (S n) a) [] = [a].
Proof.
  cbn [replicate fold_left]. unfold set_insert at 2.
  rewrite bool_decide_eq_false_2 by (intros H; inversion H). cbn [app].
  induction n as [|n IH]; [reflexivity|].
  cbn [replicate fold_left]. unfold set_insert at 2.
  rewrite bool_decide_eq_true_2 by left. exact IH.
Qed.

Lemma fold_cache_replicate (a : ID) (n : nat) :
  fold_left (fun s x => if bool_decide (x ∈ [a]) then set_insert x s else s)
            (replicate (S n) a) [] = [a].
Proof.
  cbn [replicate fold_left]. rewrite bool_decide_eq_true_2 by left.
  unfold set_insert at 2.
  rewrite bool_decide_eq_false_2 by (intros H; inversion H). cbn [app].
  induction n as [|n IH]; [reflexivity|].
  cbn [replicate fold_left]. rewrite bool_decide_eq_true_2 by left.
  unfold set_insert at 2. rewrite bool_decide_eq_true_2 by left. exact IH.
Qed.

Lemma candidates_rest (links : list (ID * ID)) (a : ID) (ids : list ID) :
  (forall id, id ∈ ids -> exists n, mm_equal_range id links = replicate (S n) a) ->
  aggr_candidates_loop links false ids [a] = [a].
Proof.
  induction ids as [|i ids IH]; intros Hall; [reflexivity|].
  cbn [aggr_candidates_loop].
  destruct (Hall i) as [n Hn]; [left|]. rewrite Hn.
  cbn [replicate]. cbv beta iota zeta.
  change (a :: replicate n a) with (replicate (S n) a).
  rewrite fold_cache_replicate. apply IH. intros id Hin. apply Hall. right. exact Hin.
Qed.

Lemma candidates_single (links : list (ID * ID)) (a : ID) (i : ID) (ids : list ID) :
  (forall id, id ∈ i :: ids -> exists n, mm_equal_range id links = replicate (S n) a) ->
  aggr_candidates_loop links true (i :: ids) [] = [a].
Proof.
  intros Hall. cbn [aggr_candidates_loop].
  destruct (Hall i) as [n Hn]; [left|]. rewrite Hn.
  cbn [replicate]. cbv beta iota zeta.
  change (a :: replicate n a) with (replicate (S n) a).
  rewrite fold_set_insert_replicate. apply candidates_rest.
  intros id Hin. apply Hall. right. exact Hin.
Qed.

Lemma mm_equal_range_app {K V} `{EqDecision K, EqDecision V} (k : K) (m1 m2 : list (K * V)) :
  mm_equal_range k (m1 ++ m2) = mm_equal_range k m1 ++ mm_equal_range k m2.
Proof. unfold mm_equal_range. rewrite List.filter_app, map_app. reflexivity. Qed.

Lemma mm_equal_range_linked (a id : ID) (ids : list ID) :
  id ∈ ids ->
  exists n, mm_equal_range id (map (fun m => (m, a)) ids) = replicate (S n) a.
Proof.
  induction ids as [|i ids IH]; intros Hin; [inversion Hin|].
  unfold mm_equal_range in *. cbn [map List.filter fst].
  destruct (decide (i = id)) as [->|Hne].
  - rewrite bool_decide_eq_true_2 by reflexivity. cbn [map snd].
    destruct (decide (id ∈ ids)) as [Hin'|Hnin].
    + destruct (IH Hin') as [n ->]. exists (S n). reflexivity.
    + exists 0%nat. cbn [replicate]. f_equal.
      clear IH Hin. induction ids as [|j ids IH]; [reflexivity|].
      cbn [map List.filter fst]. apply not_elem_of_cons in Hnin as [Hj Hnin].
      rewrite bool_decide_eq_false_2 by congruence. apply IH. exact Hnin.
  - rewrite bool_decide_eq_false_2 by exact Hne.
    apply elem_of_cons in Hin as [->|Hin]; [contradiction|]. apply IH. exact Hin.
Qed.



(** X11 ([Aggregate], [impl.cpp] lines 394-427).  The search for an
    existing aggregate stops at the first member none of whose
    aggregates is a candidate, and keeps the candidates it has: when
    all links of the first id lead to one registered aggregate [A] and
    the second id is linked to aggregates, but not to [A], the call
    returns [A] and changes nothing, although [A] does not have the
    second id as a member. *)
Theorem Aggregate_returns_candidate_of_first (update_body : ID -> M unit) (fuel : nat)
    (i1 i2 : ID) (rest : list ID) (hint_type : DeviceType) (g : Glob) (A : ID)
    (p : BaseInterface) (n : nat) :
  glob_disable_management_api g = false ->
  mm_equal_range i1 (glob_dev_to_aggr g) = replicate (S n) A ->
  mm_equal_range i2 (glob_dev_to_aggr g) <> [] ->
  A ∉ mm_equal_range i2 (glob_dev_to_aggr g) ->
  GetDevice A g = Some p ->
  run_api update_body (S fuel) (Aggregate_ (i1 :: i2 :: rest) hint_type) g
  = Ok (RDevice (Some (id_ p))) g.
Proof.
  intros Hg H1 H2 HA Hp.
  cbn [run_api api_step]. unfold Aggregate.
  rewrite StM_bind_eq. rewrite StM_bind_eq. unfold ProtectManagementAPI at 1. rewrite Hg.
  cbv beta iota. rewrite StM_bind_eq. unfold get at 1. cbv beta iota.
  assert (Hc : aggr_candidates_loop (glob_dev_to_aggr g) true (i1 :: i2 :: rest) [] = [A]).
  { cbn [aggr_candidates_loop]. rewrite H1.
    cbn [replicate]. cbv beta iota zeta.
    change (A :: replicate n A) with (replicate (S n) A).
    rewrite fold_set_insert_replicate.
    destruct (mm_equal_range i2 (glob_dev_to_aggr g)) as [|x l] eqn:E; [contradiction|].
    cbv beta iota zeta.
    assert (Hcache : forall l' s, A ∉ l' ->
              fold_left (fun s a => if bool_decide (a ∈ [A]) then set_insert a s else s) l' s
              = s).
    { induction l' as [|y l' IH]; intros s Hn; [reflexivity|].
      cbn [fold_left]. apply not_elem_of_cons in Hn as [Hy Hn].
      rewrite bool_decide_eq_false_2; [apply IH; exact Hn|].
      intros Hin. apply list_elem_of_singleton in Hin. congruence. }
    rewrite (Hcache (x :: l) [] HA). reflexivity. }
  rewrite Hc, Hp. reflexivity.
Qed.

Lemma Aggregate_returns_candidate_of_first_witness :
  run_api no_update 8 (Aggregate_ [1; 2] UNKNOWN) two_aggregates
  = Ok (RDevice (Some 4)) two_aggregates
  /\ glob_interfaces two_aggregates !! 4 = Some first_aggregate.
Proof.
  assert (Hp : GetDevice 4 two_aggregates = Some first_aggregate) by (vm_compute; reflexivity).
  split; [|exact Hp].
  apply (Aggregate_returns_candidate_of_first no_update 7 1 2 [] UNKNOWN two_aggregates 4
           first_aggregate 0).
  - vm_compute. reflexivity.
  - vm_compute. reflexivity.
  - vm_compute. discriminate.
  - vm_compute. intros H. inversion H as [|? ? ? H']. inversion H'.
  - exact Hp.
Defined.

(** ** Discovery *)

Section DiscoverTwice.
Variable update_body : ID -> M unit.
Variable fuel : nat.
Local Abbreviation api := (run_api update_body (S fuel)).

Lemma insert_interface_props (d : BaseInterface) (s : Glob) :
  exists s', insert_interface d s = Ok tt s'
             /\ glob_disable_management_api s' = glob_disable_management_api s
             /\ nat_device_ids s' = nat_device_ids s
             /\ dev_input s' = dev_input s.
Proof.
  unfold insert_interface, modify. eexists. split; [reflexivity|].
  destruct (glob_interfaces s !! id_ d); repeat split; reflexivity.
Qed.

Lemma dev_analyzer_Ok (e : DirEntry) (x : Z) (g g1 : Glob) (status : bool) :
  glob_disable_management_api g = false ->
  dev_analyzer api e x g = Ok status g1 ->
  status = true
  /\ glob_disable_management_api g1 = false
  /\ (forall h, h ∈ nat_device_ids g -> h ∈ nat_device_ids g1)
  /\ (GetHWID e x ∈ nat_device_ids g1 \/ DeduceInputDeviceType e = UNKNOWN)
  /\ dev_input g1 = dev_input g.
Proof.
  intros Hg. unfold dev_analyzer. rewrite StM_bind_eq. unfold get at 1. cbv beta iota.
  destruct (bool_decide (GetHWID e x ∈ nat_device_ids g)) eqn:Eh.
  - intros H. injection H as <- <-. apply bool_decide_eq_true_1 in Eh. repeat split; auto.
  - assert (Hnew : forall t,
      (p_vdev ← new_LinuxDevice t (GetHWID e x);
       modify (fun g => set_nat_device_ids (nat_device_ids g ++ [GetHWID e x]) g);;
       insert_interface p_vdev;;
       DeviceStatusChanged api (id_ p_vdev) DISCOVERED;; mret true) g = Ok status g1 ->
      status = true /\ glob_disable_management_api g1 = false
      /\ (forall h, h ∈ nat_device_ids g -> h ∈ nat_device_ids g1)
      /\ GetHWID e x ∈ nat_device_ids g1
      /\ dev_input g1 = dev_input g).
    { intros t. unfold new_LinuxDevice, ReserveID.
      rewrite StM_bind_eq. rewrite StM_bind_eq. cbv beta iota.
      unfold mret at 1, StM_ret at 1, ret at 1. cbv beta iota.
      rewrite StM_bind_eq. unfold modify at 1. cbv beta iota.
      rewrite StM_bind_eq.
      match goal with |- context [insert_interface ?d ?s] =>
        destruct (insert_interface_props d s) as (s' & -> & Hs1 & Hs2 & Hs3)
      end.
      cbv beta iota. rewrite StM_bind_eq. unfold DeviceStatusChanged.
      cbn [glob_disable_management_api nat_device_ids set_nat_device_ids set_id_counter
           dev_input] in Hs1, Hs2, Hs3.
      match goal with |- context [dispatch_filtered _ _ ?D ?V ?dat s'] =>
        pose proof (dispatch_filtered_effect update_body fuel _StatusCallback
                      D V dat s') as He;
        pose proof (dispatch_filtered_environment update_body fuel _StatusCallback
                      D V dat s') as Hv
      end.
      rewrite Hg in Hs1.
      destruct (dispatch_filtered _ _ _ _ _ _) as [[] g2|? g2|]; try discriminate.
      intros H. injection H as <- <-.
      destruct (He g2 Hs1 eq_refl) as (_ & _ & H3 & _ & _ & H6 & _).
      destruct (Hv g2 Hs1 eq_refl) as [H7 _].
      split; [reflexivity|]. split; [exact H3|]. rewrite H6, Hs2.
      split; [intros h Hh; apply elem_of_app; left; exact Hh|].
      split; [apply elem_of_app; right; left|]. congruence. }
    destruct (DeduceInputDeviceType e) eqn:Et.
    + intros H. injection H as <- <-. repeat split; auto.
    + intros H. destruct (Hnew MOUSE H) as (? & ? & ? & ? & ?). repeat split; auto.
    + intros H. destruct (Hnew KEYBOARD H) as (? & ? & ? & ? & ?). repeat split; auto.
    + intros H. destruct (Hnew GAMEPAD H) as (? & ? & ? & ? & ?). repeat split; auto.
Qed.

Lemma settled_node_mono (g g1 : Glob) (e : DirEntry) :
  (forall h, h ∈ nat_device_ids g -> h ∈ nat_device_ids g1) ->
  settled_node g e -> settled_node g1 e.
Proof.
  intros Hm [H|[H|(x & Hx & [H|(Ho & [H|H])])]]; unfold settled_node; eauto 10.
Qed.

Lemma first_pass (entries : list DirEntry) (num n : Z) (g g1 : Glob) :
  glob_disable_management_api g = false ->
  ForeachEventXFile open_result (dev_analyzer api) entries num g = Ok n g1 ->
  glob_disable_management_api g1 = false
  /\ (forall h, h ∈ nat_device_ids g -> h ∈ nat_device_ids g1)
  /\ Forall (settled_node g1) entries
  /\ dev_input g1 = dev_input g.
Proof.
  revert num g. induction entries as [|e rest IH]; intros num g Hg Hf.
  - cbn in Hf. injection Hf as <- <-. split; [exact Hg|]. split; [auto|].
    split; [constructor|reflexivity].
  - cbn [ForeachEventXFile] in Hf.
    destruct (is_directory e) eqn:Ed.
    { destruct (IH num g Hg Hf) as (H1 & H2 & H3 & H4). split; [exact H1|].
      split; [exact H2|]. split; [|exact H4].
      constructor; [left; exact Ed|exact H3]. }
    destruct (eventX_number (filename e)) as [x|] eqn:Ex.
    2:{ destruct (IH num g Hg Hf) as (H1 & H2 & H3 & H4). split; [exact H1|].
        split; [exact H2|]. split; [|exact H4].
        constructor; [right; left; exact Ex|exact H3]. }
    destruct (open_result e) eqn:Eo.
    + rewrite StM_bind_eq in Hf.
      destruct (dev_analyzer api e x g) as [status g2|? g2|] eqn:Ea; try discriminate.
      destruct (dev_analyzer_Ok e x g g2 status Hg Ea) as (-> & Hg2 & Hm & Hk & Hdi).
      destruct (IH (num + 1) g2 Hg2 Hf) as (H1 & H2 & H3 & H4).
      split; [exact H1|]. split; [intros h Hh; apply H2, Hm, Hh|].
      split; [|congruence].
      constructor; [|exact H3].
      right. right. exists x. split; [exact Ex|]. right. split; [exact Eo|].
      destruct Hk as [Hk|Hk]; [left; apply H2; exact Hk|right; exact Hk].
    + discriminate.
    + destruct (IH num g Hg Hf) as (H1 & H2 & H3 & H4). split; [exact H1|].
      split; [exact H2|]. split; [|exact H4].
      constructor; [|exact H3]. right. right. exists x. split; [exact Ex|]. left. exact Eo.
Qed.

Lemma second_pass (entries : list DirEntry) (num : Z) (g : Glob) :
  Forall (settled_node g) entries ->
  exists n, ForeachEventXFile open_result (dev_analyzer api) entries num g = Ok n g.
Proof.
  revert num. induction entries as [|e rest IH]; intros num Hs.
  - exists num. reflexivity.
  - apply Forall_cons in Hs as [He Hs]. cbn [ForeachEventXFile].
    destruct He as [H|[H|(x & Hx & [H|(Ho & H)])]].
    + rewrite H. apply IH. exact Hs.
    + destruct (is_directory e); [apply IH; exact Hs|]. rewrite H. apply IH. exact Hs.
    + destruct (is_directory e); [apply IH; exact Hs|]. rewrite Hx, H. apply IH. exact Hs.
    + destruct (is_directory e); [apply IH; exact Hs|]. rewrite Hx, Ho.
      rewrite StM_bind_eq.
      assert (Ha : dev_analyzer api e x g = Ok true g).
      { unfold dev_analyzer. rewrite StM_bind_eq. unfold get at 1. cbv beta iota.
        destruct H as [H|H].
        - rewrite bool_decide_eq_true_2 by exact H. reflexivity.
        - destruct (bool_decide _); [reflexivity|]. rewrite H. reflexivity. }
      rewrite Ha. apply IH. exact Hs.
Qed.

End DiscoverTwice.

Lemma DiscoverDevices_run (update_body : ID -> M unit) (fuel : nat) (g : Glob) :
  run_api update_body (S (S fuel)) DiscoverDevices_ g
  = if glob_disable_management_api g
    then Throw (runtime_error (Illegal_access_message "crossput::DiscoverDevices")) g
    else match ForeachEventXFile open_result (dev_analyzer (run_api update_body (S fuel)))
                 (dev_input g) 0 g with
         | Ok _ s => Ok (RSize 0) s
         | Throw e s => Throw e s
         | OutOfFuel => OutOfFuel
         end.
Proof.
  cbn [run_api api_step]. unfold DiscoverDevices.
  rewrite !StM_bind_eq. unfold ProtectManagementAPI.
  destruct (glob_disable_management_api g); [reflexivity|].
  rewrite !StM_bind_eq. unfold get. cbv beta iota. rewrite !StM_bind_eq.
  destruct (ForeachEventXFile _ _ _ _ _); reflexivity.
Qed.

(** X12 ([DiscoverDevices], [impl_linux.cpp] lines 1304-1340).  A
    discovery that returned leaves the nodes of [/dev/input] as they
    were and forgets no hardware id; a second discovery over the same
    nodes returns and changes nothing: it registers no device and
    dispatches no event. *)
Theorem DiscoverDevices_twice (update_body : ID -> M unit) (fuel : nat) (g g1 : Glob)
    (r : ApiResult) :
  run_api update_body (S (S fuel)) DiscoverDevices_ g = Ok r g1 ->
  dev_input g1 = dev_input g
  /\ (forall h, h ∈ nat_device_ids g -> h ∈ nat_device_ids g1)
  /\ run_api update_body (S (S fuel)) DiscoverDevices_ g1 = Ok (RSize 0) g1.
Proof.
  rewrite !DiscoverDevices_run.
  destruct (glob_disable_management_api g) eqn:Hg; [discriminate|].
  destruct (ForeachEventXFile _ _ (dev_input g) 0 g) as [n g2|? ?|] eqn:Ef; try discriminate.
  intros H. injection H as <- <-.
  destruct (first_pass update_body fuel _ _ _ _ _ Hg Ef) as (Hg2 & Hm & Hs & Hdi).
  split; [exact Hdi|]. split; [exact Hm|].
  rewrite Hg2, Hdi.
  destruct (second_pass update_body fuel (dev_input g) 0 g2 Hs) as [n2 ->].
  reflexivity.
Qed.

Lemma DiscoverDevices_twice_witness :
  run_api no_update 8 DiscoverDevices_ one_mouse = Ok (RSize 0) one_mouse.
Proof.
  assert (Hrun : run_api no_update 8 DiscoverDevices_
                   (Glob_initial [mouse_node "event0" [] false])
                 = Ok (RSize 0) one_mouse) by (vm_compute; reflexivity).
  exact (proj2 (proj2 (DiscoverDevices_twice no_update 6 _ one_mouse (RSize 0) Hrun))).
Defined.

(** ** A mouse *)

(** X13 ([LinuxMouse::SetButtonThreshold], [SetGlobalThreshold],
    [GetButtonThreshold], [impl_linux.cpp] lines 1778-1804).  The threshold of a
    button reads back as it was set, clamped to [0, 1]; setting it
    changes the threshold of no other button, no value, no digital
    state and not the connection; an index of 8 or more is ignored by
    the setter and reads as 0; the global setter sets every button. *)
Theorem LinuxMouse_threshold_roundtrip (m : LinuxMouse.t) (index j : Z) (threshold : float) :
  length (LinuxMouse.button_data_ m) = Z.to_nat LinuxMouse.NUM_BUTTONS ->
  0 <= index -> 0 <= j ->
  LinuxMouse.GetButtonThreshold index (LinuxMouse.SetButtonThreshold index threshold m)
  = (if index <? LinuxMouse.NUM_BUTTONS then fclamp threshold zero one else zero)
  /\ (j <> index ->
      LinuxMouse.GetButtonThreshold j (LinuxMouse.SetButtonThreshold index threshold m)
      = LinuxMouse.GetButtonThreshold j m)
  /\ (LinuxMouse.NUM_BUTTONS <= index -> LinuxMouse.SetButtonThreshold index threshold m = m)
  /\ LinuxMouse.GetButtonValue j (LinuxMouse.SetButtonThreshold index threshold m)
     = LinuxMouse.GetButtonValue j m
  /\ Cell.State (LinuxMouse.cell j (LinuxMouse.SetButtonThreshold index threshold m))
     = Cell.State (LinuxMouse.cell j m)
  /\ LinuxMouse.GetButtonThreshold j (LinuxMouse.SetGlobalThreshold threshold m)
     = (if j <? LinuxMouse.NUM_BUTTONS then fclamp threshold zero one else zero)
  /\ LinuxMouse.is_connected_ (LinuxMouse.SetButtonThreshold index threshold m)
     = LinuxMouse.is_connected_ m.
Proof.
  intros Hlen Hi Hj.
  unfold LinuxMouse.GetButtonThreshold, LinuxMouse.SetButtonThreshold,
    LinuxMouse.GetButtonValue, LinuxMouse.SetGlobalThreshold, LinuxMouse.cell.
  unfold LinuxMouse.NUM_BUTTONS in *.
  assert (Hcell : forall k, (Z.to_nat k < 8)%nat ->
            exists c, LinuxMouse.button_data_ m !! Z.to_nat k = Some c).
  { intros k Hk. apply lookup_lt_is_Some_2. rewrite Hlen. exact Hk. }
  destruct (index <? 8) eqn:Ei.
  - apply Z.ltb_lt in Ei. cbn [LinuxMouse.button_data_ LinuxMouse.set_button_data
      LinuxMouse.is_connected_].
    destruct (Hcell index ltac:(lia)) as [c Hc].
    repeat split.
    + rewrite list_lookup_alter, Hc. rewrite decide_True by reflexivity. reflexivity.
    + intros Hne. destruct (j <? 8); [|reflexivity].
      rewrite list_lookup_alter_ne by lia. reflexivity.
    + intros. lia.
    + destruct (LinuxMouse.is_connected_ m && (j <? 8)); [|reflexivity].
      destruct (decide (j = index)) as [->|Hne].
      * rewrite list_lookup_alter, Hc. rewrite decide_True by reflexivity. reflexivity.
      * rewrite list_lookup_alter_ne by lia. reflexivity.
    + destruct (decide (j = index)) as [->|Hne].
      * rewrite list_lookup_alter, Hc. rewrite decide_True by reflexivity. reflexivity.
      * rewrite list_lookup_alter_ne by lia. reflexivity.
    + destruct (j <? 8) eqn:Ej; [|reflexivity]. apply Z.ltb_lt in Ej.
      destruct (Hcell j ltac:(lia)) as [d Hd].
      rewrite list_lookup_fmap, Hd. reflexivity.
  - apply Z.ltb_ge in Ei. repeat split.
    destruct (j <? 8) eqn:Ej; [|reflexivity]. apply Z.ltb_lt in Ej.
    destruct (Hcell j ltac:(lia)) as [d Hd].
    cbn [LinuxMouse.button_data_ LinuxMouse.set_button_data].
    rewrite list_lookup_fmap, Hd. reflexivity.
Qed.

Lemma LinuxMouse_threshold_roundtrip_witness :
  LinuxMouse.GetButtonThreshold 0 (LinuxMouse.SetButtonThreshold 0 half (w_this mouse_moved))
  = half
  /\ LinuxMouse.GetButtonValue 0 (LinuxMouse.SetButtonThreshold 0 half (w_this mouse_moved))
     = one.
Proof.
  destruct (LinuxMouse_threshold_roundtrip (w_this mouse_moved) 0 0 half)
    as (H1 & _ & _ & H4 & _).
  - vm_compute. reflexivity.
  - lia.
  - lia.
  - split.
    + rewrite H1. vm_compute. reflexivity.
    + rewrite H4. vm_compute. reflexivity.
Defined.

Lemma int64_wrap_add_l (a b : Z) : int64_wrap (int64_wrap a + b) = int64_wrap (a + b).
Proof.
  unfold int64_wrap.
  replace ((a + 2 ^ 63) mod 2 ^ 64 - 2 ^ 63 + b + 2 ^ 63) with ((a + 2 ^ 63) mod 2 ^ 64 + b)
    by lia.
  rewrite Z.add_mod_idemp_l by lia. f_equal. f_equal. lia.
Qed.

Lemma int64_wrap_add_r (a b : Z) : int64_wrap (a + int64_wrap b) = int64_wrap (a + b).
Proof. rewrite Z.add_comm, int64_wrap_add_l, Z.add_comm. reflexivity. Qed.

Lemma int64_wrap_idem (a : Z) : int64_wrap (int64_wrap a) = int64_wrap a.
Proof.
  pose proof (int64_wrap_add_l a 0) as H. rewrite !Z.add_0_r in H. exact H.
Qed.

Lemma int64_wrap_small (a : Z) : - 2 ^ 63 <= a < 2 ^ 63 -> int64_wrap a = a.
Proof. intros H. unfold int64_wrap. rewrite Z.mod_small by lia. lia. Qed.

Lemma int64_wrap_mul_120 (a : Z) : int64_wrap (int64_wrap a * 120) = int64_wrap (a * 120).
Proof.
  unfold int64_wrap.
  replace (((a + 2 ^ 63) mod 2 ^ 64 - 2 ^ 63) * 120 + 2 ^ 63)
    with ((a + 2 ^ 63) mod 2 ^ 64 * 120 + (2 ^ 63 - 2 ^ 63 * 120)) by lia.
  replace (a * 120 + 2 ^ 63) with ((a + 2 ^ 63) * 120 + (2 ^ 63 - 2 ^ 63 * 120)) by lia.
  f_equal.
  rewrite (Z.add_mod ((a + 2 ^ 63) mod 2 ^ 64 * 120)) by lia.
  rewrite (Z.add_mod ((a + 2 ^ 63) * 120)) by lia.
  rewrite Z.mul_mod_idemp_l by lia. reflexivity.
Qed.

Lemma int64_wrap_range (a : Z) : - 2 ^ 63 <= int64_wrap a < 2 ^ 63.
Proof. unfold int64_wrap. pose proof (Z.mod_pos_bound (a + 2 ^ 63) (2 ^ 64)). lia. Qed.

Section Motion.
Variable api : ApiCall -> M ApiResult.

(** On events of type EV_REL alone the loop of [HandlePendingEvents]
    calls nothing and sums by code. *)
Lemma fold_pending_rel (evs : list input_event) (dx dy sdx sdy hrsdx hrsdy : Z)
    (w : World LinuxMouse.t) :
  Forall (fun ev => ev_type ev = EV_REL) evs ->
  - 2 ^ 63 <= dx < 2 ^ 63 -> - 2 ^ 63 <= dy < 2 ^ 63 ->
  - 2 ^ 63 <= sdx < 2 ^ 63 -> - 2 ^ 63 <= sdy < 2 ^ 63 ->
  - 2 ^ 63 <= hrsdx < 2 ^ 63 -> - 2 ^ 63 <= hrsdy < 2 ^ 63 ->
  LinuxMouse.fold_pending api evs (dx, dy, sdx, sdy, hrsdx, hrsdy) w
  = Ok (int64_wrap (dx + rel_sum REL_X evs),
        int64_wrap (dy + rel_sum REL_Y evs),
        int64_wrap (sdx + rel_sum REL_HWHEEL evs),
        int64_wrap (sdy + rel_sum REL_WHEEL evs),
        int64_wrap (hrsdx + rel_sum REL_HWHEEL_HI_RES evs),
        int64_wrap (hrsdy + rel_sum REL_WHEEL_HI_RES evs)) w.
Proof.
  intros Hall. revert dx dy sdx sdy hrsdx hrsdy.
  induction Hall as [|ev evs Hev Hall IH]; intros dx dy sdx sdy hrsdx hrsdy H1 H2 H3 H4 H5 H6.
  - cbn. rewrite !Z.add_0_r, !int64_wrap_small by assumption. reflexivity.
  - destruct ev as [ty code val sec usec]. cbn [ev_type] in Hev. subst ty.
    cbn [LinuxMouse.fold_pending ev_type ev_code ev_value]. change (EV_REL =? EV_REL) with true.
    cbv beta iota.
    unfold rel_sum; cbn [foldr ev_code ev_value]; fold (rel_sum REL_X evs) (rel_sum REL_Y evs)
      (rel_sum REL_HWHEEL evs) (rel_sum REL_WHEEL evs) (rel_sum REL_HWHEEL_HI_RES evs)
      (rel_sum REL_WHEEL_HI_RES evs).
    unfold REL_X, REL_Y, REL_HWHEEL, REL_WHEEL, REL_HWHEEL_HI_RES, REL_WHEEL_HI_RES in *.
    destruct (code =? 0) eqn:E0.
    { apply Z.eqb_eq in E0. subst code. cbn [Z.eqb Pos.eqb]. cbv beta iota.
      rewrite IH by (try apply int64_wrap_range; assumption).
      rewrite int64_wrap_add_l, !Z.add_0_l, Z.add_assoc. reflexivity. }
    destruct (code =? 1) eqn:E1.
    { apply Z.eqb_eq in E1. subst code. cbn [Z.eqb Pos.eqb]. cbv beta iota.
      rewrite IH by (try apply int64_wrap_range; assumption).
      rewrite int64_wrap_add_l, !Z.add_0_l, Z.add_assoc. reflexivity. }
    destruct (code =? 6) eqn:E6.
    { apply Z.eqb_eq in E6. subst code. cbn [Z.eqb Pos.eqb]. cbv beta iota.
      rewrite IH by (try apply int64_wrap_range; assumption).
      rewrite int64_wrap_add_l, !Z.add_0_l, Z.add_assoc. reflexivity. }
    destruct (code =? 8) eqn:E8.
    { apply Z.eqb_eq in E8. subst code. cbn [Z.eqb Pos.eqb]. cbv beta iota.
      rewrite IH by (try apply int64_wrap_range; assumption).
      rewrite int64_wrap_add_l, !Z.add_0_l, Z.add_assoc. reflexivity. }
    destruct (code =? 12) eqn:E12.
    { apply Z.eqb_eq in E12. subst code. cbn [Z.eqb Pos.eqb]. cbv beta iota.
      rewrite IH by (try apply int64_wrap_range; assumption).
      rewrite int64_wrap_add_l, !Z.add_0_l, Z.add_assoc. reflexivity. }
    destruct (code =? 11) eqn:E11.
    { apply Z.eqb_eq in E11. subst code. cbn [Z.eqb Pos.eqb]. cbv beta iota.
      rewrite IH by (try apply int64_wrap_range; assumption).
      rewrite int64_wrap_add_l, !Z.add_0_l, Z.add_assoc. reflexivity. }
    rewrite IH by assumption. rewrite !Z.add_0_l. reflexivity.
Qed.

End Motion.

Lemma in_glob_final {T B} (m : M B) (w w' : World T) :
  final_state (in_glob m w) = Some w' -> w_this w' = w_this w.
Proof.
  unfold in_glob, zoom. destruct (m (w_glob w)) as [b g|e g|]; cbn; intros Hf;
    try discriminate; injection Hf as <-; reflexivity.
Qed.

Lemma in_glob_Ok {T B} (m : M B) (w w' : World T) (b : B) :
  in_glob m w = Ok b w' -> w_this w' = w_this w.
Proof. intros H. apply (in_glob_final m w w'). rewrite H. reflexivity. Qed.

Lemma wrap_zero_add (a s : Z) : int64_range a -> int64_wrap s = 0 -> int64_wrap (a + s) = a.
Proof.
  intros Ha Hs. rewrite <- int64_wrap_add_r, Hs, Z.add_0_r. apply int64_wrap_small. exact Ha.
Qed.

Section MotionGroup.
Variable api : ApiCall -> M ApiResult.

(** X14 ([LinuxMouse::HandlePendingEvents], [impl_linux.cpp] lines
    1627-1711).  A
    group of relative events moves the mouse by the sums of its
    events.  However the function ends, the pending events are
    cleared, the buttons and the connection are untouched, and the
    position and the delta have advanced by the sums of the REL_X and
    REL_Y events, wrapped to 64 bits.  When it returns, the scroll
    and its delta have advanced by the sums of the high-resolution
    wheel events if either axis has any, else by 120 times the sums
    of the detents.  A group whose six sums are zero changes nothing
    else and dispatches no event. *)
Theorem HandlePendingEvents_relative (w w' : World LinuxMouse.t) :
  Forall (fun ev => ev_type ev = EV_REL) (LinuxMouse.pending_events_ (w_this w)) ->
  MouseData_ok (LinuxMouse.data_ (w_this w)) ->
  final_state (LinuxMouse.HandlePendingEvents api w) = Some w' ->
  LinuxMouse.pending_events_ (w_this w') = []
  /\ LinuxMouse.button_data_ (w_this w') = LinuxMouse.button_data_ (w_this w)
  /\ LinuxMouse.is_connected_ (w_this w') = LinuxMouse.is_connected_ (w_this w)
  /\ MD.x (LinuxMouse.data_ (w_this w'))
     = int64_wrap (MD.x (LinuxMouse.data_ (w_this w))
                   + rel_sum REL_X (LinuxMouse.pending_events_ (w_this w)))
  /\ MD.y (LinuxMouse.data_ (w_this w'))
     = int64_wrap (MD.y (LinuxMouse.data_ (w_this w))
                   + rel_sum REL_Y (LinuxMouse.pending_events_ (w_this w)))
  /\ MD.dx (LinuxMouse.data_ (w_this w'))
     = int64_wrap (MD.dx (LinuxMouse.data_ (w_this w))
                   + rel_sum REL_X (LinuxMouse.pending_events_ (w_this w)))
  /\ MD.dy (LinuxMouse.data_ (w_this w'))
     = int64_wrap (MD.dy (LinuxMouse.data_ (w_this w))
                   + rel_sum REL_Y (LinuxMouse.pending_events_ (w_this w)))
  /\ (returns (LinuxMouse.HandlePendingEvents api w) = true ->
      MD.sx (LinuxMouse.data_ (w_this w'))
      = int64_wrap (MD.sx (LinuxMouse.data_ (w_this w))
                    + fst (group_scroll (LinuxMouse.pending_events_ (w_this w))))
      /\ MD.sy (LinuxMouse.data_ (w_this w'))
         = int64_wrap (MD.sy (LinuxMouse.data_ (w_this w))
                       + snd (group_scroll (LinuxMouse.pending_events_ (w_this w))))
      /\ MD.sdx (LinuxMouse.data_ (w_this w'))
         = int64_wrap (MD.sdx (LinuxMouse.data_ (w_this w))
                       + fst (group_scroll (LinuxMouse.pending_events_ (w_this w))))
      /\ MD.sdy (LinuxMouse.data_ (w_this w'))
         = int64_wrap (MD.sdy (LinuxMouse.data_ (w_this w))
                       + snd (group_scroll (LinuxMouse.pending_events_ (w_this w)))))
  /\ (group_sums (LinuxMouse.pending_events_ (w_this w)) = (0, 0, 0, 0, 0, 0) ->
      w' = {| w_glob := w_glob w;
              w_this := LinuxMouse.set_pending_events [] (w_this w) |}).
Proof.
  intros Hall Hok.
  destruct w as [g m]. cbn [w_this w_glob] in *.
  set (evs := LinuxMouse.pending_events_ m) in *.
  remember (LinuxMouse.HandlePendingEvents api {| w_glob := g; w_this := m |}) as out eqn:Hout.
  unfold LinuxMouse.HandlePendingEvents in Hout.
  rewrite StM_bind_eq in Hout. unfold this_ at 1 in Hout. cbv beta iota in Hout.
  cbn [w_this] in Hout. fold evs in Hout. rewrite StM_bind_eq in Hout.
  rewrite (fold_pending_rel api evs 0 0 0 0 0 0 _ Hall) in Hout by (cbn; lia).
  cbv beta iota in Hout. rewrite !Z.add_0_l in Hout.
  unfold group_scroll, group_sums.
  set (dx := int64_wrap (rel_sum REL_X evs)) in *.
  set (dy := int64_wrap (rel_sum REL_Y evs)) in *.
  set (sdx := int64_wrap (rel_sum REL_HWHEEL evs)) in *.
  set (sdy := int64_wrap (rel_sum REL_WHEEL evs)) in *.
  set (hx := int64_wrap (rel_sum REL_HWHEEL_HI_RES evs)) in *.
  set (hy := int64_wrap (rel_sum REL_WHEEL_HI_RES evs)) in *.
  unfold modify_this, modify, this_ in Hout.
  repeat (rewrite StM_bind_eq in Hout; cbv beta iota in Hout).
  cbn [w_this w_glob] in Hout.
  assert (Hdx : dx = int64_wrap (rel_sum REL_X evs)) by reflexivity.
  assert (Hdy : dy = int64_wrap (rel_sum REL_Y evs)) by reflexivity.
  clearbody dx dy sdx sdy hx hy evs.
  destruct Hok as (Kx & Ky & Kdx & Kdy & Ksx & Ksy & Ksdx & Ksdy).
  assert (Z1 : negb (dx =? 0) || negb (dy =? 0) = false -> dx = 0 /\ dy = 0).
  { intros H. apply orb_false_elim in H as [Ha Hb].
    apply negb_false_iff in Ha, Hb. apply Z.eqb_eq in Ha, Hb. auto. }
  destruct (negb (dx =? 0) || negb (dy =? 0)) eqn:B1;
    destruct (negb (hx =? 0) || negb (hy =? 0)) eqn:B2;
    destruct (negb (sdx =? 0) || negb (sdy =? 0)) eqn:B3;
    repeat (rewrite StM_bind_eq in Hout; cbv beta iota in Hout);
    cbn [w_this w_glob] in Hout;
    repeat match type of Hout with
    | context [match in_glob ?c ?w with _ => _ end] =>
        let E := fresh "E" in
        destruct (in_glob c w) as [[] ?s|? ?s|] eqn:E;
        [ pose proof (in_glob_Ok _ _ _ _ E)
        | pose proof (in_glob_final c w _ ltac:(rewrite E; reflexivity))
        | ];
        clear E;
        repeat (rewrite StM_bind_eq in Hout; cbv beta iota in Hout);
        cbn [w_this w_glob] in Hout
    end.
  all: subst out; cbn [final_state returns]; intros Hf; try discriminate Hf.
  all: try (apply in_glob_final in Hf); try (injection Hf as <-).
  all: cbn [w_this w_glob] in *.
  all: repeat match goal with
       | H : w_this ?s = _ |- context [w_this ?s] => rewrite H
       end.
  all: cbn -[int64_wrap Z.add Z.mul].
  all: try (specialize (Z1 eq_refl) as [-> ->]).
  all: repeat match goal with
       | |- _ /\ _ => split
       | |- _ -> _ => intro
       end.
  all: try reflexivity; try discriminate.
  all: try match goal with
       | H : (_, _, _, _, _, _) = (0, 0, 0, 0, 0, 0) |- _ =>
           injection H; intros; clear Hdx Hdy; subst; try discriminate; try reflexivity
       end.
  all: try (rewrite Hdx, int64_wrap_add_r; reflexivity).
  all: try (rewrite Hdy, int64_wrap_add_r; reflexivity).
  all: try (symmetry; apply wrap_zero_add; [assumption | symmetry; assumption]).
  all: try (rewrite Z.add_0_r; symmetry; apply int64_wrap_small; assumption).
Qed.
End MotionGroup.

Lemma HandlePendingEvents_relative_witness :
  LinuxMouse.pending_events_ (w_this mouse_handled) = []
  /\ MD.x (LinuxMouse.data_ (w_this mouse_handled))
     = int64_wrap (MD.x (LinuxMouse.data_ (w_this mouse_pending)) + rel_sum REL_X motion_group)
  /\ MD.sy (LinuxMouse.data_ (w_this mouse_handled)) = 120.
Proof.
  assert (Hall : Forall (fun ev => ev_type ev = EV_REL)
                        (LinuxMouse.pending_events_ (w_this mouse_pending)))
    by (repeat constructor).
  assert (Hok : MouseData_ok (LinuxMouse.data_ (w_this mouse_pending)))
    by (vm_compute; repeat split; first [discriminate | reflexivity]).
  assert (Hf : final_state (LinuxMouse.HandlePendingEvents (run_api no_update 8) mouse_pending)
               = Some mouse_handled) by (vm_compute; reflexivity).
  destruct (HandlePendingEvents_relative (run_api no_update 8) mouse_pending mouse_handled
              Hall Hok Hf) as (H1 & _ & _ & H4 & _ & _ & _ & H8 & _).
  split; [exact H1|]. split; [exact H4|].
  destruct (H8 ltac:(vm_compute; reflexivity)) as (_ & Hsy & _).
  rewrite Hsy. vm_compute. reflexivity.
Defined.

(** ** Keyboards *)

Lemma pressed_keys_bounds (l : list TSTV) : 0 <= pressed_keys l <= Z.of_nat (length l).
Proof.
  induction l as [|d l IH]; cbn [pressed_keys foldr length]; [lia|].
  fold (pressed_keys l). destruct (Cell.State d); cbn [Z.b2z]; lia.
Qed.

Lemma pressed_keys_insert (l : list TSTV) (k : nat) (d d' : TSTV) :
  l !! k = Some d ->
  pressed_keys (<[k := d']> l)
  = pressed_keys l - Z.b2z (Cell.State d) + Z.b2z (Cell.State d').
Proof.
  revert k. unfold pressed_keys.
  induction l as [|x l IH]; intros [|k] Hk; simplify_eq/=; [lia|].
  rewrite (IH k Hk). lia.
Qed.

Lemma pressed_keys_zeroed (n : nat) : pressed_keys (replicate n Cell.zeroed) = 0.
Proof. induction n as [|n IH]; [reflexivity|]. cbn [replicate pressed_keys foldr]. exact IH. Qed.

Lemma counted_zeroed : counted (replicate (Z.to_nat NUM_KEY_CODES) Cell.zeroed) 0.
Proof.
  split; [apply length_replicate|]. split.
  - apply Forall_replicate. intros H. discriminate H.
  - symmetry. apply pressed_keys_zeroed.
Qed.

(** One [Modify] of a key cell, with the counter, keeps the counter
    in step with the cells. *)
Lemma counted_Modify_kbd (cells : list TSTV) (n : Z) (k : nat) (v : float) (ts : timestamp_t) :
  counted cells n -> (k < Z.to_nat NUM_KEY_CODES)%nat -> ts mod 2 ^ 63 <> 0 ->
  counted (<[k := snd (fst (Cell.Modify_kbd v ts (default Cell.zeroed (cells !! k)) n))]> cells)
          (snd (Cell.Modify_kbd v ts (default Cell.zeroed (cells !! k)) n)).
Proof.
  intros (Hlen & Hall & Hcnt) Hk Hts.
  assert (Hlt : (k < length cells)%nat) by (rewrite Hlen; exact Hk).
  destruct (lookup_lt_is_Some_2 _ _ Hlt) as [c Ek].
  rewrite Ek. cbn [default from_option]. unfold id.
  assert (Hc : stamped c) by (eapply Forall_lookup_1; eassumption).
  pose proof (pressed_keys_bounds cells) as Hb.
  pose proof (pressed_keys_insert _ k c (Cell.zeroed) Ek) as Hz.
  pose proof (pressed_keys_bounds (<[k := Cell.zeroed]> cells)) as Hb0.
  rewrite length_insert, Hlen in Hb0. change (Cell.State Cell.zeroed) with false in Hz.
  cbn [Z.b2z] in Hz. unfold NUM_KEY_CODES in Hb0.
  set (others := pressed_keys cells - Z.b2z (Cell.State c)) in *.
  assert (Ho : 0 <= others < 2 ^ 32 - 1) by lia.
  assert (Hnum : n = others + Z.b2z (Cell.State c)) by (subst others; lia).
  rewrite Hnum.
  destruct (Modify_kbd_counts v ts c others Hc Hts Ho) as [Hs Hn].
  repeat split.
  - rewrite length_insert. exact Hlen.
  - apply Forall_insert; assumption.
  - rewrite Hn, (pressed_keys_insert _ k c _ Ek). subst others. lia.
Qed.

Lemma keycode_mapping_nonneg : forallb (fun k => 0 <=? k) keycode_mapping = true.
Proof. vm_compute. reflexivity. Qed.

Lemma keycode_at_nonneg (beyond code : Z) : 0 <= beyond -> 0 <= LinuxKeyboard.keycode_at beyond code.
Proof.
  intros Hb. unfold LinuxKeyboard.keycode_at.
  destruct (keycode_mapping !! Z.to_nat code) as [k|] eqn:E; [|exact Hb].
  cbn [default from_option]. unfold id.
  pose proof keycode_mapping_nonneg as H. rewrite forallb_forall in H.
  apply Z.leb_le. apply H. apply list_elem_of_In. eapply list_elem_of_lookup_2. exact E.
Qed.

Section Triples.
Context {S : Type} (I : S -> Prop).

Lemma triple_bind {A B} (P : S -> Prop) (m : StM S A) (Q : A -> S -> Prop)
    (k : A -> StM S B) (Q' : B -> S -> Prop) :
  triple I P m Q -> (forall a, triple I (Q a) (k a) Q') -> triple I P (m ≫= k) Q'.
Proof.
  intros Hm Hk s Hs. rewrite StM_bind_eq. specialize (Hm s Hs).
  destruct (m s) as [a s1|e s1|]; [|exact Hm|exact Hm].
  apply (Hk a s1 Hm).
Qed.

Lemma triple_ret {A} (P : S -> Prop) (a : A) (Q : A -> S -> Prop) :
  (forall s, P s -> Q a s) -> triple I P (mret a) Q.
Proof. intros H s Hs. apply H. exact Hs. Qed.

Lemma triple_weaken {A} (P P' : S -> Prop) (m : StM S A) (Q Q' : A -> S -> Prop) :
  triple I P' m Q' -> (forall s, P s -> P' s) -> (forall a s, Q' a s -> Q a s) ->
  triple I P m Q.
Proof.
  intros Hm HP HQ s Hs. specialize (Hm s (HP s Hs)).
  destruct (m s); [apply HQ; exact Hm|exact Hm|exact Hm].
Qed.

Lemma triple_get (P : S -> Prop) : triple I P get (fun a s => P s /\ a = s).
Proof. intros s Hs. split; [exact Hs|reflexivity]. Qed.

Lemma triple_modify (f : S -> S) (Q : unit -> S -> Prop) :
  triple I (fun s => Q tt (f s)) (modify f) Q.
Proof. intros s Hs. exact Hs. Qed.

Lemma triple_final {A} (P : S -> Prop) (m : StM S A) (Q : A -> S -> Prop) (s s' : S) :
  triple I P m Q -> P s -> (forall a s1, Q a s1 -> I s1) ->
  final_state (m s) = Some s' -> I s'.
Proof.
  intros Hm Hs HQ Hf. specialize (Hm s Hs).
  destruct (m s) as [a s1|e s1|]; cbn in Hf; try discriminate; injection Hf as <-.
  - eapply HQ. exact Hm.
  - exact Hm.
Qed.

End Triples.

Lemma triple_this {T} (I P : World T -> Prop) :
  triple I P this_ (fun a w => P w /\ a = w_this w).
Proof. intros s Hs. split; [exact Hs|reflexivity]. Qed.

Lemma triple_modify_this {T} (I : World T -> Prop) (f : T -> T) (Q : unit -> World T -> Prop) :
  triple I (fun w => Q tt (mkWorld (w_glob w) (f (w_this w)))) (modify_this f) Q.
Proof. intros s Hs. exact Hs. Qed.

(** A computation on the process state, run from an object: the
    object is the same after it. *)
Lemma triple_in_glob {T A} (I : World T -> Prop) (m : M A) (P : World T -> Prop)
    (Q : A -> World T -> Prop) :
  (forall w, P w ->
     match m (w_glob w) with
     | Ok a g' => Q a (mkWorld g' (w_this w))
     | Throw _ g' => I (mkWorld g' (w_this w))
     | OutOfFuel => True
     end) ->
  triple I P (in_glob m) Q.
Proof.
  intros H w Hw. specialize (H w Hw). unfold in_glob, zoom.
  destruct (m (w_glob w)); exact H.
Qed.

Lemma triple_seq {S A B} (I : S -> Prop) (m : StM S A) (k : A -> StM S B) :
  triple I I m (fun _ => I) -> (forall a, triple I I (k a) (fun _ => I)) ->
  triple I I (m ≫= k) (fun _ => I).
Proof. intros Hm Hk. eapply triple_bind; [exact Hm|exact Hk]. Qed.

Lemma triple_skip {S} (I : S -> Prop) : triple I I (mret tt) (fun _ => I).
Proof. intros s Hs. exact Hs. Qed.

Lemma triple_assume {S A} (I P : S -> Prop) (phi : Prop) (m : StM S A) (Q : A -> S -> Prop) :
  (forall s, P s -> phi) -> (phi -> triple I P m Q) -> triple I P m Q.
Proof. intros Hphi Hm s Hs. exact (Hm (Hphi s Hs) s Hs). Qed.

Lemma triple_for_each {S B} (I : S -> Prop) (l : list B) (body : B -> StM S unit) :
  (forall x, x ∈ l -> triple I I (body x) (fun _ => I)) ->
  triple I I (for_each l body) (fun _ => I).
Proof.
  induction l as [|x l IH]; intros H.
  - intros s Hs. exact Hs.
  - intros s Hs. rewrite for_each_cons.
    pose proof (H x ltac:(left) s Hs) as Hx.
    destruct (body x s) as [[] s1|e s1|]; [|exact Hx|exact Hx].
    apply IH; [|exact Hx]. intros y Hy. apply H. right. exact Hy.
Qed.

Section KeyboardInvariant.
Variable update_body : ID -> M unit.
Variable fuel : nat.
Variable beyond : Z.
Variable now : timestamp_t.
Hypothesis beyond_nonneg : 0 <= beyond.

Local Abbreviation api := (run_api update_body (S fuel)).
Local Abbreviation keeps m := (triple (kbd_inv now) (kbd_inv now) m (fun _ => kbd_inv now)).

Lemma kbd_dispatch (t : CallbackType) (D V : Z) (data : EventData) :
  keeps (in_glob (dispatch_filtered api t D V data)).
Proof.
  apply triple_in_glob. intros [g m] (Hg & Hn & Hc & Hp & Hk). cbn [w_glob w_this] in *.
  pose proof (dispatch_filtered_effect update_body fuel t D V data g) as He.
  pose proof (dispatch_filtered_environment update_body fuel t D V data g) as Hv.
  destruct (dispatch_filtered api t D V data g) as [[] g'|e g'|]; [| |exact I].
  - destruct (He g' Hg eq_refl) as (_ & _ & Hg' & _).
    destruct (Hv g' Hg eq_refl) as (Hd & Hck).
    split; [exact Hg'|]. split; [unfold nodes_timed; cbn; rewrite Hd; exact Hn|].
    split; [exact Hc|]. split; [exact Hp|]. cbn. rewrite Hck. exact Hk.
  - destruct (He g' Hg eq_refl) as (_ & _ & Hg' & _).
    destruct (Hv g' Hg eq_refl) as (Hd & Hck).
    split; [exact Hg'|]. split; [unfold nodes_timed; cbn; rewrite Hd; exact Hn|].
    split; [exact Hc|]. split; [exact Hp|]. cbn. rewrite Hck. exact Hk.
Qed.

Lemma kbd_modify_key (key : Z) (v : float) (ts : timestamp_t) :
  0 <= key < NUM_KEY_CODES -> ts mod 2 ^ 63 <> 0 ->
  keeps (LinuxKeyboard.modify_key api key v ts).
Proof.
  intros Hkey Hts [g m] (Hg & Hn & Hc & Hp & Hk). cbn [w_glob w_this] in *.
  unfold LinuxKeyboard.modify_key.
  rewrite StM_bind_eq. unfold this_ at 1. cbv beta iota. cbn [w_this].
  pose proof (counted_Modify_kbd _ _ (Z.to_nat key) v ts Hc
                ltac:(unfold NUM_KEY_CODES in *; lia) Hts) as Hn'.
  unfold LinuxKeyboard.cell.
  destruct (Cell.Modify_kbd v ts _ _) as [[[modified state] d] counter].
  cbn [fst snd] in Hn'.
  rewrite StM_bind_eq. unfold modify_this at 1, modify at 1. cbv beta iota.
  cbn [w_this w_glob].
  set (w1 := mkWorld g _).
  assert (H1 : kbd_inv now w1) by (split; [exact Hg|split; [exact Hn|split; [exact Hn'|split; [exact Hp|exact Hk]]]]).
  destruct modified; [|exact H1].
  apply (kbd_dispatch _ _ _ _ w1 H1).
Qed.

Lemma kbd_handle_pending (evs : list input_event) :
  Forall timed evs -> keeps (LinuxKeyboard.handle_pending api beyond evs).
Proof.
  induction evs as [|ev evs IH]; intros Hevs.
  - intros s Hs. exact Hs.
  - apply Forall_cons in Hevs as [Hev Hevs].
    cbn [LinuxKeyboard.handle_pending].
    apply triple_seq; [|intros []; apply IH; exact Hevs].
    destruct (ev_type ev =? EV_KEY).
    + destruct (KEYCODE_MAPPING_LEN <? ev_code ev); [apply triple_skip|].
      destruct (IsValidKey (LinuxKeyboard.keycode_at beyond (ev_code ev))) eqn:Ev;
        [|apply triple_skip].
      apply kbd_modify_key; [|exact Hev].
      split; [apply keycode_at_nonneg; exact beyond_nonneg|]. apply Z.ltb_lt. exact Ev.
    + destruct (ev_type ev =? EV_FF_STATUS); [|apply triple_skip].
      intros [g m] (Hg & Hn & Hc & Hp & Hk). cbn.
      unfold LinuxKeyboard.HandleFFStatusEvent.
      destruct (List.find _ _) as [[? fid]|];
        (split; [exact Hg|split; [exact Hn|split; [exact Hc|split; [exact Hp|exact Hk]]]]).
Qed.

Lemma kbd_HandlePendingEvents : keeps (LinuxKeyboard.HandlePendingEvents api beyond).
Proof.
  unfold LinuxKeyboard.HandlePendingEvents.
  eapply triple_bind; [apply triple_this|]. intros this. cbv beta.
  apply (triple_assume _ _ (Forall timed (LinuxKeyboard.pending_events_ this))).
  { intros s [(_ & _ & _ & Hp & _) ->]. exact Hp. }
  intros Hp.
  apply (triple_bind _ _ _ (fun _ => kbd_inv now)).
  - eapply triple_weaken; [apply (kbd_handle_pending _ Hp)| |intros a s H; exact H].
    intros s [Hs _]. exact Hs.
  - intros []. intros [g m] (Hg & Hn & Hc & _ & Hk).
    split; [exact Hg|split; [exact Hn|split; [exact Hc|split; [constructor|exact Hk]]]].
Qed.

Lemma kbd_Disconnect : keeps (LinuxKeyboard.Disconnect api).
Proof.
  unfold LinuxKeyboard.Disconnect.
  eapply triple_bind; [apply triple_this|]. intros this. cbv beta.
  destruct (negb (LinuxKeyboard.is_connected_ this)).
  { intros s [Hs _]. exact Hs. }
  apply (triple_bind _ _ _ (fun _ => kbd_inv now)); [|intros []; apply kbd_dispatch].
  intros [g m] [(Hg & Hn & Hc & Hp & Hk) _]. cbn [w_glob w_this] in *.
  unfold modify_this, modify. cbv beta iota. cbn [w_glob w_this].
  split; [exact Hg|]. split; [exact Hn|]. split.
  - unfold LinuxKeyboard.OnDisconnected.
    cbn [LinuxKeyboard.key_data_ LinuxKeyboard.num_keys_pressed_ LinuxKeyboard.set_keys].
    apply counted_zeroed.
  - unfold LinuxKeyboard.OnDisconnected, LinuxKeyboard.CloseDevFile.
    split; [|exact Hk].
    destruct (LinuxKeyboard.file_desc_ _ <? 0); cbn; constructor.
Qed.

Lemma kbd_HandleBufferOverrun (ts : timestamp_t) :
  ts mod 2 ^ 63 <> 0 -> keeps (LinuxKeyboard.HandleBufferOverrun api ts).
Proof.
  intros Hts. unfold LinuxKeyboard.HandleBufferOverrun.
  eapply triple_bind; [apply triple_this|]. intros this. cbv beta.
  eapply triple_bind; [apply triple_get|]. intros w. cbv beta.
  destruct (os_node _ _ ≫= global_keys) as [globks|].
  - eapply triple_weaken; [apply triple_for_each| |intros a s H; exact H].
    + intros k Hk. apply kbd_modify_key; [|exact Hts].
      apply list_elem_of_In, in_map_iff in Hk as (n & <- & Hn).
      apply in_seq in Hn. unfold NUM_KEY_CODES in *. lia.
    + intros s [[Hs _] _]. exact Hs.
  - eapply triple_weaken; [apply kbd_Disconnect| |intros a s H; exact H].
    intros s [[Hs _] _]. exact Hs.
Qed.

End KeyboardInvariant.

Lemma triple_reads {S A} (I P : S -> Prop) (m : StM S A) :
  (forall s, exists a, m s = Ok a s) -> triple I P m (fun _ => P).
Proof. intros H s Hs. destruct (H s) as [a ->]. exact Hs. Qed.

Lemma triple_ForeachEventXFile {S} (I : S -> Prop) (open_with : DirEntry -> OpenResult)
    (handler : DirEntry -> Z -> StM S bool) (entries : list DirEntry) (num : Z) :
  (forall e x, triple I I (handler e x) (fun _ => I)) ->
  triple I I (ForeachEventXFile open_with handler entries num) (fun _ => I).
Proof.
  intros Hh. revert num. induction entries as [|e rest IH]; intros num.
  - intros s Hs. exact Hs.
  - cbn [ForeachEventXFile].
    destruct (is_directory e); [apply IH|].
    destruct (eventX_number (filename e)) as [x|]; [|apply IH].
    destruct (open_with e); [|intros s Hs; exact Hs|apply IH].
    apply triple_seq; [apply Hh|]. intros [|]; [apply IH|].
    intros s Hs. exact Hs.
Qed.

Lemma pop_event_timed (fd : Z) (entries : list DirEntry) :
  Forall (fun e => Forall timed (events e)) entries ->
  Forall (fun e => Forall timed (events e)) (pop_event fd entries).
Proof.
  induction 1 as [|e rest He Hrest IH]; [constructor|].
  cbn [pop_event]. destruct (is_node fd e); constructor; try assumption.
  cbn [events]. destruct (events e) as [|ev evs]; [constructor|].
  apply Forall_cons in He as [_ He]. exact He.
Qed.

Lemma os_node_timed (fd : Z) (g : Glob) (e : DirEntry) :
  nodes_timed g -> os_node fd g = Some e -> Forall timed (events e).
Proof.
  unfold nodes_timed, os_node. intros Hn Hf.
  destruct (fd <? 0); [discriminate|].
  apply find_some in Hf as [Hin _].
  rewrite Forall_forall in Hn. apply Hn. apply list_elem_of_In. exact Hin.
Qed.

Section KeyboardUpdate.
Variable update_body : ID -> M unit.
Variable fuel : nat.
Variable beyond : Z.
Variable now : timestamp_t.
Hypothesis beyond_nonneg : 0 <= beyond.

Local Abbreviation api := (run_api update_body (S fuel)).
Local Abbreviation keeps m := (triple (kbd_inv now) (kbd_inv now) m (fun _ => kbd_inv now)).

Lemma kbd_os_read (fd : Z) :
  triple (kbd_inv now) (kbd_inv now) (in_glob (os_read fd))
         (fun r w => kbd_inv now w /\ forall ev, r = ReadEvent ev -> timed ev).
Proof.
  apply triple_in_glob. intros [g m] (Hg & Hn & Hc & Hp & Hk). cbn [w_glob w_this] in *.
  unfold os_read. destruct (os_node fd g) as [e|] eqn:E.
  - pose proof (os_node_timed fd g e Hn E) as He.
    destruct (events e) as [|ev evs].
    + split; [exact (conj Hg (conj Hn (conj Hc (conj Hp Hk))))|]. intros ev H. destruct (read_error e); discriminate.
    + apply Forall_cons in He as [Hev _].
      split.
      * split; [exact Hg|]. split; [apply pop_event_timed; exact Hn|].
        split; [exact Hc|]. split; [exact Hp|exact Hk].
      * intros ev' H. injection H as <-. exact Hev.
  - split; [exact (conj Hg (conj Hn (conj Hc (conj Hp Hk))))|]. intros ev H. discriminate.
Qed.

Lemma kbd_modify_frame (f : LinuxKeyboard.t -> LinuxKeyboard.t) :
  (forall m, LinuxKeyboard.key_data_ (f m) = LinuxKeyboard.key_data_ m
             /\ LinuxKeyboard.num_keys_pressed_ (f m) = LinuxKeyboard.num_keys_pressed_ m
             /\ (Forall timed (LinuxKeyboard.pending_events_ m) ->
                 Forall timed (LinuxKeyboard.pending_events_ (f m)))) ->
  keeps (modify_this f).
Proof.
  intros Hf [g m] (Hg & Hn & Hc & Hp & Hk). cbn [w_glob w_this] in *.
  destruct (Hf m) as (H1 & H2 & H3).
  split; [exact Hg|]. split; [exact Hn|]. cbn [w_this]. rewrite H1, H2.
  split; [exact Hc|]. split; [apply H3; exact Hp|exact Hk].
Qed.

Lemma kbd_read_loop (n : nat) : keeps (LinuxKeyboard.read_loop api beyond n).
Proof.
  induction n as [|n IH].
  - cbn [LinuxKeyboard.read_loop].
    apply triple_seq; [apply triple_reads; intros s; eexists; reflexivity|]. intros this.
    eapply triple_bind; [apply kbd_os_read|]. intros [ev| |]; cbv beta iota.
    + intros s _. exact Logic.I.
    + intros s [Hs _]. exact Hs.
    + intros s [Hs _]. exact Hs.
  - cbn [LinuxKeyboard.read_loop].
    apply triple_seq; [apply triple_reads; intros s; eexists; reflexivity|]. intros this.
    eapply triple_bind; [apply kbd_os_read|]. intros [ev| |]; cbv beta iota.
    2, 3: intros s [Hs _]; exact Hs.
    apply (triple_assume _ _ (timed ev)); [intros s [_ H]; apply H; reflexivity|].
    intros Hev.
    eapply triple_weaken with (P' := kbd_inv now) (Q' := fun _ => kbd_inv now);
      [|intros s [Hs _]; exact Hs|intros a s H; exact H].
    destruct (ev_type ev =? EV_SYN).
    + destruct (ev_code ev =? SYN_DROPPED).
      * apply triple_seq.
        { apply kbd_modify_frame. intros m. repeat split. intros _. constructor. }
        intros []. apply triple_seq; [apply kbd_HandleBufferOverrun; assumption|].
        intros []. exact IH.
      * apply triple_seq.
        { destruct (ev_code ev =? SYN_REPORT); [|apply triple_skip].
          apply triple_seq; [|intros []; apply kbd_HandlePendingEvents; assumption].
          apply kbd_modify_frame. intros m. repeat split. intros H. exact H. }
        intros []. apply triple_seq; [apply triple_reads; intros s; eexists; reflexivity|].
        intros this'. destruct (negb _); [|exact IH].
        intros s Hs. exact Hs.
    + destruct (ev_type ev =? EV_FF_STATUS).
      * apply triple_seq; [|intros []; exact IH].
        apply kbd_modify_frame. intros m. unfold LinuxKeyboard.HandleFFStatusEvent.
        destruct (List.find _ _) as [[? fid]|]; repeat split; intros H; exact H.
      * apply triple_seq; [|intros []; exact IH].
        apply kbd_modify_frame. intros m. repeat split. intros H.
        cbn. apply Forall_app. split; [exact H|]. constructor; [exact Hev|constructor].
Qed.

Lemma kbd_analyze_device (fd : DirEntry) (x : Z) :
  keeps (LinuxKeyboard.analyze_device fd x).
Proof.
  unfold LinuxKeyboard.analyze_device.
  eapply triple_bind; [apply triple_this|]. intros this. cbv beta.
  apply (triple_assume _ _ (Forall timed (LinuxKeyboard.pending_events_ this))).
  { intros s [(_ & _ & _ & Hp & _) ->]. exact Hp. }
  intros Hp.
  eapply triple_weaken with (P' := kbd_inv now) (Q' := fun _ => kbd_inv now);
    [|intros s [Hs _]; exact Hs|intros a s H; exact H].
  destruct (_ && _ && _).
  - apply triple_seq; [|intros []; intros s Hs; exact Hs].
    apply kbd_modify_frame. intros m. repeat split. intros _. exact Hp.
  - intros s Hs. exact Hs.
Qed.

Lemma kbd_TryConnect : keeps (LinuxKeyboard.TryConnect api).
Proof.
  unfold LinuxKeyboard.TryConnect.
  apply triple_seq; [apply triple_reads; intros s; eexists; reflexivity|]. intros this.
  destruct (LinuxKeyboard.is_connected_ this); [intros s Hs; exact Hs|].
  apply triple_seq; [apply triple_reads; intros s; eexists; reflexivity|]. intros w.
  apply triple_seq; [apply triple_ForeachEventXFile; intros e x; apply kbd_analyze_device|].
  intros _.
  apply triple_seq; [apply triple_reads; intros s; eexists; reflexivity|]. intros this'.
  destruct (LinuxKeyboard.is_connected_ this'); [|intros s Hs; exact Hs].
  apply triple_seq; [apply triple_reads; intros s; eexists; reflexivity|]. intros w'.
  cbv zeta.
  apply triple_seq.
  { apply kbd_modify_frame. intros m. repeat split. intros H. exact H. }
  intros []. apply triple_seq; [apply kbd_dispatch|]. intros [].
  apply triple_seq; [apply triple_reads; intros s; eexists; reflexivity|]. intros this''.
  intros s Hs. exact Hs.
Qed.

Lemma kbd_Update : keeps (LinuxKeyboard.Update api beyond).
Proof.
  unfold LinuxKeyboard.Update.
  apply triple_seq; [apply triple_reads; intros s; eexists; reflexivity|]. intros this.
  apply triple_seq.
  { apply triple_in_glob. intros w Hw. unfold ProtectManagementAPI.
    destruct Hw as (Hg & Hn & Hc & Hp & Hk). rewrite Hg.
    destruct w as [g m]. exact (conj Hg (conj Hn (conj Hc (conj Hp Hk)))). }
  intros [].
  apply triple_seq.
  { destruct (LinuxKeyboard.is_connected_ this); [intros s Hs; exact Hs|apply kbd_TryConnect]. }
  intros connected. destruct (negb connected); [apply triple_skip|].
  apply triple_seq; [apply triple_reads; intros [g m]; eexists; reflexivity|]. intros now'.
  apply triple_seq.
  { apply kbd_modify_frame. intros m. repeat split. intros H. exact H. }
  intros []. apply triple_seq.
  { apply kbd_modify_frame. intros m. repeat split. intros H. exact H. }
  intros []. apply triple_seq; [apply triple_reads; intros s; eexists; reflexivity|].
  intros this'. apply triple_seq; [apply triple_reads; intros s; eexists; reflexivity|].
  intros w. apply triple_seq; [apply kbd_read_loop|].
  intros [[| |]|]; try apply triple_skip. apply kbd_Disconnect.
Qed.

End KeyboardUpdate.

(** X15 ([LinuxDevice::Update], [LinuxKeyboard::HandlePendingEvents],
    [HandleBufferOverrun], [OnDisconnected], [impl_linux.cpp] lines
    1354-1412 and 1823-1890).  A keyboard counts its pressed keys.  If,
    outside a callback, the counter agrees with the key cells, every
    pressed cell holds a timestamp other than 0, and the events still
    pending and those waiting in the nodes carry timestamps that are
    not 0 modulo [2^63], then however [Update] ends the same holds
    again: [GetNumKeysPressed] is the number of keys whose digital
    state is pressed (0 when disconnected) and lies between 0 and
    NUM_KEY_CODES.  This holds whatever [Key] the read behind the end
    of [keycode_mapping] finds for the code 256. *)
Theorem LinuxKeyboard_Update_counts_pressed_keys (update_body : ID -> M unit) (fuel : nat)
    (beyond : Z) (w w' : World LinuxKeyboard.t) :
  0 <= beyond ->
  glob_disable_management_api (w_glob w) = false ->
  nodes_timed (w_glob w) ->
  Forall timed (LinuxKeyboard.pending_events_ (w_this w)) ->
  counted (LinuxKeyboard.key_data_ (w_this w)) (LinuxKeyboard.num_keys_pressed_ (w_this w)) ->
  final_state (LinuxKeyboard.Update (run_api update_body (S fuel)) beyond w) = Some w' ->
  counted (LinuxKeyboard.key_data_ (w_this w')) (LinuxKeyboard.num_keys_pressed_ (w_this w'))
  /\ LinuxKeyboard.GetNumKeysPressed (w_this w')
     = (if LinuxKeyboard.is_connected_ (w_this w')
        then pressed_keys (LinuxKeyboard.key_data_ (w_this w')) else 0)
  /\ 0 <= LinuxKeyboard.GetNumKeysPressed (w_this w') <= NUM_KEY_CODES
  /\ glob_disable_management_api (w_glob w') = false
  /\ nodes_timed (w_glob w')
  /\ Forall timed (LinuxKeyboard.pending_events_ (w_this w'))
  /\ clock_now (w_glob w') = clock_now (w_glob w).
Proof.
  intros Hb Hg Hn Hp Hc Hf.
  assert (Hinv : kbd_inv (clock_now (w_glob w)) w') .
  { apply (triple_final (kbd_inv (clock_now (w_glob w))) (kbd_inv (clock_now (w_glob w)))
             (LinuxKeyboard.Update (run_api update_body (S fuel)) beyond)
             (fun _ => kbd_inv (clock_now (w_glob w))) w w').
    - apply kbd_Update. exact Hb.
    - exact (conj Hg (conj Hn (conj Hc (conj Hp eq_refl)))).
    - intros _ s Hs. exact Hs.
    - exact Hf. }
  destruct Hinv as (Hg' & Hn' & Hc' & Hp' & Hk').
  split; [exact Hc'|].
  destruct Hc' as (Hlen & _ & Hnum).
  pose proof (pressed_keys_bounds (LinuxKeyboard.key_data_ (w_this w'))) as Hbd.
  rewrite Hlen in Hbd. unfold NUM_KEY_CODES in *.
  unfold LinuxKeyboard.GetNumKeysPressed. rewrite Hnum.
  split; [reflexivity|]. split; [destruct (LinuxKeyboard.is_connected_ _); lia|].
  split; [exact Hg'|]. split; [exact Hn'|]. split; [exact Hp'|exact Hk'].
Qed.

Lemma LinuxKeyboard_Update_counts_pressed_keys_witness :
  LinuxKeyboard.GetNumKeysPressed (w_this keyboard_typed) = 1
  /\ pressed_keys (LinuxKeyboard.key_data_ (w_this keyboard_typed)) = 1.
Proof.
  assert (Hg : glob_disable_management_api (w_glob keyboard_created) = false)
    by (vm_compute; reflexivity).
  assert (Hn : nodes_timed (w_glob keyboard_created)).
  { unfold nodes_timed.
    replace (dev_input (w_glob keyboard_created)) with [typing_node] by (vm_compute; reflexivity).
    repeat constructor; vm_compute; discriminate. }
  assert (Hp : Forall timed (LinuxKeyboard.pending_events_ (w_this keyboard_created)))
    by constructor.
  assert (Hf : final_state (LinuxKeyboard.Update (run_api no_update 8) 0 keyboard_created)
               = Some keyboard_typed) by (vm_compute; reflexivity).
  destruct (LinuxKeyboard_Update_counts_pressed_keys no_update 7 0 keyboard_created
              keyboard_typed ltac:(lia) Hg Hn Hp counted_zeroed Hf) as (_ & H2 & _).
  assert (Hc : LinuxKeyboard.is_connected_ (w_this keyboard_typed) = true)
    by (vm_compute; reflexivity).
  rewrite Hc in H2.
  assert (H1 : LinuxKeyboard.GetNumKeysPressed (w_this keyboard_typed) = 1)
    by (vm_compute; reflexivity).
  split; [exact H1|]. rewrite <- H2. exact H1.
Defined.

Lemma triple_zoom {S T A} (I : T -> Prop) (J : S -> Prop) (proj : T -> S) (inj : S -> T -> T)
    (m : StM S A) (P : T -> Prop) (Q : A -> T -> Prop) (QS : A -> S -> Prop) :
  triple J J m QS ->
  (forall t, P t -> J (proj t)) ->
  (forall t s, P t -> J s -> I (inj s t)) ->
  (forall t a s, P t -> QS a s -> Q a (inj s t)) ->
  triple I P (zoom proj inj m) Q.
Proof.
  intros Hm HP HI HQ t Ht. unfold zoom. specialize (Hm (proj t) (HP t Ht)).
  destruct (m (proj t)) as [a s|e s|]; [apply HQ|apply HI|]; trivial.
Qed.

Section AggregateKeyboards.
Variable update_body : ID -> M unit.
Variable fuel : nat.
Variable beyond : Z.
Variable now : timestamp_t.
Hypothesis beyond_nonneg : 0 <= beyond.
Hypothesis now_timed : now mod 2 ^ 63 <> 0.

Local Abbreviation api := (run_api update_body (S fuel)).
Local Abbreviation keepsH m := (triple (kbd_heap_inv now) (kbd_heap_inv now) m (fun _ => kbd_heap_inv now)).
Local Abbreviation keepsA m := (triple (agg_kbd_inv now) (agg_kbd_inv now) m (fun _ => agg_kbd_inv now)).

Local Abbreviation kbds := (KeyboardHeap.IKeyboard api beyond).
Local Abbreviation devs := (KeyboardHeap.IDevice api beyond).

Lemma heap_Update (id : ID) : keepsH (KeyboardHeap.Update api beyond id).
Proof.
  unfold KeyboardHeap.Update.
  eapply triple_bind; [apply triple_get|]. intros w. cbv beta.
  destruct (w_this w !! id) as [m|] eqn:E.
  - unfold KeyboardHeap.object_method.
    apply (triple_zoom _ (kbd_inv now) _ _ _ _ _ (fun _ => kbd_inv now)).
    + apply kbd_Update. exact beyond_nonneg.
    + intros t [(Hg & Hn & Hh & Hk) ->]. destruct (Hh id m E) as [Hc Hp].
      exact (conj Hg (conj Hn (conj Hc (conj Hp Hk)))).
    + intros t s [(_ & _ & Hh & _) _] (Hg & Hn & Hc & Hp & Hk).
      split; [exact Hg|]. split; [exact Hn|]. split; [|exact Hk].
      cbn [w_this]. apply map_Forall_insert_2; [split; assumption|exact Hh].
    + intros t a s [(_ & _ & Hh & _) _] (Hg & Hn & Hc & Hp & Hk).
      split; [exact Hg|]. split; [exact Hn|]. split; [|exact Hk].
      cbn [w_this]. apply map_Forall_insert_2; [split; assumption|exact Hh].
  - intros s [Hs _]. exact Hs.
Qed.

Lemma heap_update_members (ms : list ID) :
  keepsH (@AggregateImpl.update_members _ devs ms).
Proof.
  induction ms as [|m ms IH].
  - intros s Hs. exact Hs.
  - cbn [AggregateImpl.update_members].
    apply triple_seq; [apply heap_Update|]. intros [].
    apply triple_seq; [apply triple_reads; intros s; eexists; reflexivity|]. intros w.
    destruct (negb _); [intros s Hs; exact Hs|exact IH].
Qed.


Lemma agg_on_heap_update_members (ms : list ID) :
  keepsA (AggregateImpl.on_heap (@AggregateImpl.update_members _ devs ms)).
Proof.
  unfold AggregateImpl.on_heap.
  apply (triple_zoom _ (kbd_heap_inv now) _ _ _ _ _ (fun _ => kbd_heap_inv now)).
  - apply heap_update_members.
  - intros t [Hh _]. exact Hh.
  - intros t s [_ Hc] Hs. split; [exact Hs|exact Hc].
  - intros t a s [_ Hc] Hs. split; [exact Hs|exact Hc].
Qed.

Lemma agg_modify_self (f : AggregateKeyboard.t -> AggregateKeyboard.t) :
  (forall a, counted (AggregateKeyboard.key_data_ a) (AggregateKeyboard.num_keys_pressed_ a) ->
             counted (AggregateKeyboard.key_data_ (f a))
                     (AggregateKeyboard.num_keys_pressed_ (f a))) ->
  keepsA (AggregateImpl.modify_self f).
Proof.
  intros Hf [g [h a]] [Hh Hc]. split; [exact Hh|]. cbn. apply Hf. exact Hc.
Qed.

Lemma agg_in_glob_dispatch (t : CallbackType) (D V : Z) (data : EventData)
    (P : AggregateKeyboard.t -> Prop) :
  triple (agg_kbd_inv now)
         (fun w => agg_kbd_inv now w /\ P (AggregateImpl.this (w_this w)))
         (in_glob (dispatch_filtered api t D V data))
         (fun _ w => agg_kbd_inv now w /\ P (AggregateImpl.this (w_this w))).
Proof.
  apply triple_in_glob. intros [g [h a]] [[(Hg & Hn & Hh & Hk) Hc] HP].
  cbn [w_glob w_this members_world AggregateImpl.heap AggregateImpl.this] in *.
  pose proof (dispatch_filtered_effect update_body fuel t D V data g) as He.
  pose proof (dispatch_filtered_environment update_body fuel t D V data g) as Hv.
  destruct (dispatch_filtered api t D V data g) as [[] g'|e g'|]; [| |exact Logic.I].
  - destruct (He g' Hg eq_refl) as (_ & _ & Hg' & _).
    destruct (Hv g' Hg eq_refl) as (Hd & Hck).
    split; [|exact HP]. split; [|exact Hc].
    split; [exact Hg'|]. split; [unfold nodes_timed; cbn; rewrite Hd; exact Hn|].
    split; [exact Hh|]. cbn. rewrite Hck. exact Hk.
  - destruct (He g' Hg eq_refl) as (_ & _ & Hg' & _).
    destruct (Hv g' Hg eq_refl) as (Hd & Hck).
    split; [|exact Hc].
    split; [exact Hg'|]. split; [unfold nodes_timed; cbn; rewrite Hd; exact Hn|].
    split; [exact Hh|]. cbn. rewrite Hck. exact Hk.
Qed.

(** After [AggregateImpl::Update] a connected aggregate holds the
    time of the update. *)
Lemma agg_AggregateImpl_Update :
  triple (agg_kbd_inv now) (agg_kbd_inv now)
         (@AggregateImpl.Update _ _ devs AggregateKeyboard.derived)
         (fun _ w => agg_kbd_inv now w
                     /\ (AggregateKeyboard.is_connected_ (AggregateImpl.this (w_this w)) = true ->
                         AggregateImpl.last_update_timestamp_
                           (AggregateKeyboard.impl (AggregateImpl.this (w_this w))) = now)).
Proof.
  unfold AggregateImpl.Update.
  eapply triple_bind; [apply triple_reads; intros s; eexists; reflexivity|]. intros a0.
  cbv beta.
  eapply triple_bind.
  { apply (triple_in_glob _ _ _ (fun _ => agg_kbd_inv now)). intros [g [h a]] Hw.
    unfold ProtectManagementAPI.
    destruct Hw as [(Hg & Hn & Hh & Hk) Hc]. cbn [w_glob members_world] in *. rewrite Hg.
    exact (conj (conj Hg (conj Hn (conj Hh Hk))) Hc). }
  intros []. cbv beta.
  eapply triple_bind; [apply agg_on_heap_update_members|]. intros connected. cbv beta.
  apply (triple_bind _ _ _ (fun a w => agg_kbd_inv now w /\ a = AggregateImpl.this (w_this w))).
  { intros s Hs. exact (conj Hs (eq_refl (AggregateImpl.this (w_this s)))). }
  intros a1. cbv beta.
  destruct connected.
  - (* every member is connected *)
    apply (triple_bind _ _ _ (fun _ => agg_kbd_inv now)).
    { destruct (negb (Bool.eqb true _)).
      - cbn [negb]. eapply triple_weaken; [apply agg_modify_self| |intros a s H; exact H].
        + intros a H. exact H.
        + intros s [Hs _]. exact Hs.
      - intros s [Hs _]. exact Hs. }
    intros []. eapply triple_bind; [apply triple_reads; intros s; eexists; reflexivity|].
    intros h. cbv beta.
    eapply triple_bind.
    { apply (triple_in_glob _ _ _ (fun t w => agg_kbd_inv now w /\ t = now)).
      intros [g [hp a]] Hw. cbn. split; [exact Hw|].
      destruct Hw as [(_ & _ & _ & Hk) _]. exact Hk. }
    intros t. cbv beta.
    intros [g [hp a]] [[Hh Hc] ->]. cbn. split; [split; [exact Hh|exact Hc]|].
    intros _. reflexivity.
  - (* a member is not connected *)
    apply (triple_bind _ _ _
             (fun _ w => agg_kbd_inv now w
                         /\ AggregateKeyboard.is_connected_ (AggregateImpl.this (w_this w))
                            = false)).
    + destruct (AggregateImpl.is_connected_ (AggregateImpl.base a1)) eqn:E1.
      * cbn [Bool.eqb negb].
        intros [g [hp a]] [[Hh Hc] _]. cbn. split; [|reflexivity].
        split; [exact Hh|]. cbn. apply counted_zeroed.
      * cbn [Bool.eqb negb].
        intros s [Hs Ha]. cbn. split; [exact Hs|]. rewrite <- Ha. exact E1.
    + intros []. intros s [Hs Hc]. cbn. split; [exact Hs|].
      intros H. rewrite Hc in H. discriminate H.
Qed.


Local Abbreviation stamped_inv :=
  (fun w : World (AggregateImpl.State (gmap Z LinuxKeyboard.t) AggregateKeyboard.t) =>
     agg_kbd_inv now w
     /\ AggregateImpl.last_update_timestamp_
          (AggregateKeyboard.impl (AggregateImpl.this (w_this w))) = now).

Lemma agg_update_keys (h : gmap Z LinuxKeyboard.t) (ks : list nat) :
  Forall (fun k => (k < Z.to_nat NUM_KEY_CODES)%nat) ks ->
  triple (agg_kbd_inv now) stamped_inv (@AggregateKeyboard.update_keys _ kbds api h ks)
         (fun _ => stamped_inv).
Proof.
  induction ks as [|k ks IH]; intros Hks.
  - intros s Hs. exact Hs.
  - apply Forall_cons in Hks as [Hk Hks].
    cbn [AggregateKeyboard.update_keys].
    apply (triple_bind _ _ _ (fun a w => stamped_inv w /\ a = AggregateImpl.this (w_this w))).
    { intros s Hs. exact (conj Hs (eq_refl (AggregateImpl.this (w_this s)))). }
    intros a. cbv beta zeta.
    apply (triple_assume _ _
             (counted (AggregateKeyboard.key_data_ a) (AggregateKeyboard.num_keys_pressed_ a)
              /\ AggregateImpl.last_update_timestamp_ (AggregateKeyboard.impl a) = now)).
    { intros s [[[_ Hc] Hts] ->]. split; assumption. }
    intros [Hc Hts].
    pose proof (counted_Modify_kbd _ _ k
                  (@AggregateKeyboard.merged_value _ kbds h
                     (AggregateImpl.members_ (AggregateKeyboard.impl a)) (Z.of_nat k))
                  (AggregateImpl.last_update_timestamp_ (AggregateKeyboard.impl a))
                  Hc Hk ltac:(rewrite Hts; exact now_timed)) as Hn'.
    destruct (Cell.Modify_kbd _ _ _ _) as [[[modified state] d] counter].
    cbn [fst snd] in Hn'.
    apply (triple_bind _ _ _ (fun _ => stamped_inv)).
    { intros [g [hp a']] [[[Hh _] Hts'] Ha]. cbn in Ha. subst a'.
      cbn. split; [split; [exact Hh|exact Hn']|exact Hts']. }
    intros [].
    apply (triple_bind _ _ _ (fun _ => stamped_inv)); [|intros []; apply IH; exact Hks].
    destruct modified; [|intros s Hs; exact Hs].
    apply (agg_in_glob_dispatch _ _ _ _
             (fun a => AggregateImpl.last_update_timestamp_ (AggregateKeyboard.impl a) = now)).
Qed.

Lemma agg_Update : keepsA (@AggregateKeyboard.Update _ kbds api).
Proof.
  unfold AggregateKeyboard.Update.
  eapply triple_bind; [apply agg_AggregateImpl_Update|]. intros []. cbv beta.
  apply (triple_bind _ _ _
           (fun a w => (agg_kbd_inv now w
                        /\ (AggregateKeyboard.is_connected_ (AggregateImpl.this (w_this w)) = true ->
                            AggregateImpl.last_update_timestamp_
                              (AggregateKeyboard.impl (AggregateImpl.this (w_this w))) = now))
                       /\ a = AggregateImpl.this (w_this w))).
  { intros s Hs. exact (conj Hs (eq_refl (AggregateImpl.this (w_this s)))). }
  intros a. cbv beta.
  destruct (AggregateKeyboard.is_connected_ a) eqn:Ec; cbn [negb].
  - eapply triple_bind; [apply triple_reads; intros s; eexists; reflexivity|]. intros h.
    cbv beta.
    eapply triple_weaken; [apply (agg_update_keys h)| |intros x s [Hs _]; exact Hs].
    + apply Forall_forall. intros k Hk. apply list_elem_of_In, in_seq in Hk. lia.
    + intros s [[Hs Hts] Ha]. split; [exact Hs|]. apply Hts. rewrite <- Ha. exact Ec.
  - intros s [[Hs _] _]. exact Hs.
Qed.

End AggregateKeyboards.

(** X16 ([AggregateKeyboard::Update], [impl.cpp] lines 667-696;
    [AggregateImpl::Update], [common.hpp] lines 968-1010).  An aggregate of Linux keyboards
    counts its pressed keys: when its counter agrees with its key cells, its
    members agree with theirs, and the clock and the events carry
    timestamps that are not 0 modulo [2^63], then however [Update]
    ends the aggregate and all its members agree again, and
    [GetNumKeysPressed] of the aggregate is the number of its keys
    whose digital state is pressed (0 when disconnected). *)
Theorem AggregateKeyboard_Update_counts_pressed_keys (update_body : ID -> M unit) (fuel : nat)
    (beyond : Z)
    (w w' : World (AggregateImpl.State (gmap Z LinuxKeyboard.t) AggregateKeyboard.t)) :
  0 <= beyond ->
  glob_disable_management_api (w_glob w) = false ->
  nodes_timed (w_glob w) ->
  clock_now (w_glob w) mod 2 ^ 63 <> 0 ->
  map_Forall (fun _ m => kbd_object_ok m) (AggregateImpl.heap (w_this w)) ->
  counted (AggregateKeyboard.key_data_ (AggregateImpl.this (w_this w)))
          (AggregateKeyboard.num_keys_pressed_ (AggregateImpl.this (w_this w))) ->
  final_state (@AggregateKeyboard.Update _
                 (KeyboardHeap.IKeyboard (run_api update_body (S fuel)) beyond)
                 (run_api update_body (S fuel)) w) = Some w' ->
  counted (AggregateKeyboard.key_data_ (AggregateImpl.this (w_this w')))
          (AggregateKeyboard.num_keys_pressed_ (AggregateImpl.this (w_this w')))
  /\ AggregateKeyboard.GetNumKeysPressed (AggregateImpl.this (w_this w'))
     = (if AggregateKeyboard.is_connected_ (AggregateImpl.this (w_this w'))
        then pressed_keys (AggregateKeyboard.key_data_ (AggregateImpl.this (w_this w')))
        else 0)
  /\ 0 <= AggregateKeyboard.GetNumKeysPressed (AggregateImpl.this (w_this w')) <= NUM_KEY_CODES
  /\ map_Forall (fun _ m => kbd_object_ok m) (AggregateImpl.heap (w_this w'))
  /\ glob_disable_management_api (w_glob w') = false
  /\ nodes_timed (w_glob w')
  /\ clock_now (w_glob w') = clock_now (w_glob w).
Proof.
  intros Hb Hg Hn Hk Hh Hc Hf.
  assert (Hinv : agg_kbd_inv (clock_now (w_glob w)) w').
  { apply (triple_final (agg_kbd_inv (clock_now (w_glob w))) (agg_kbd_inv (clock_now (w_glob w)))
             (@AggregateKeyboard.Update _
                (KeyboardHeap.IKeyboard (run_api update_body (S fuel)) beyond)
                (run_api update_body (S fuel)))
             (fun _ => agg_kbd_inv (clock_now (w_glob w))) w w').
    - apply agg_Update; assumption.
    - split; [|exact Hc]. exact (conj Hg (conj Hn (conj Hh eq_refl))).
    - intros _ s Hs. exact Hs.
    - exact Hf. }
  destruct Hinv as [(Hg' & Hn' & Hh' & Hk') Hc'].
  split; [exact Hc'|].
  destruct Hc' as (Hlen & _ & Hnum).
  pose proof (pressed_keys_bounds
                (AggregateKeyboard.key_data_ (AggregateImpl.this (w_this w')))) as Hbd.
  rewrite Hlen in Hbd. unfold NUM_KEY_CODES in *.
  unfold AggregateKeyboard.GetNumKeysPressed. rewrite Hnum.
  split; [reflexivity|]. split; [destruct (AggregateKeyboard.is_connected_ _); lia|].
  split; [exact Hh'|]. split; [exact Hg'|]. split; [exact Hn'|exact Hk'].
Qed.

Lemma AggregateKeyboard_Update_counts_pressed_keys_witness :
  AggregateKeyboard.GetNumKeysPressed (AggregateImpl.this (w_this keyboards_typed)) = 2
  /\ pressed_keys (AggregateKeyboard.key_data_ (AggregateImpl.this (w_this keyboards_typed))) = 2.
Proof.
  assert (Hg : glob_disable_management_api (w_glob keyboards_created) = false)
    by (vm_compute; reflexivity).
  assert (Hn : nodes_timed (w_glob keyboards_created)).
  { unfold nodes_timed.
    replace (dev_input (w_glob keyboards_created)) with [typing_node; second_node]
      by (vm_compute; reflexivity).
    repeat constructor; vm_compute; discriminate. }
  assert (Hk : clock_now (w_glob keyboards_created) mod 2 ^ 63 <> 0)
    by (vm_compute; discriminate).
  assert (Hh : map_Forall (fun _ m => kbd_object_ok m)
                          (AggregateImpl.heap (w_this keyboards_created))).
  { apply map_Forall_insert_2; [split; [apply counted_zeroed|constructor]|].
    apply map_Forall_insert_2; [split; [apply counted_zeroed|constructor]|].
    apply map_Forall_empty. }
  assert (Hf : final_state (@AggregateKeyboard.Update _
                              (KeyboardHeap.IKeyboard (run_api no_update 8) 0)
                              (run_api no_update 8) keyboards_created)
               = Some keyboards_typed) by (vm_compute; reflexivity).
  destruct (AggregateKeyboard_Update_counts_pressed_keys no_update 7 0 keyboards_created
              keyboards_typed ltac:(lia) Hg Hn Hk Hh counted_zeroed Hf) as (_ & H2 & _).
  assert (Hc : AggregateKeyboard.is_connected_ (AggregateImpl.this (w_this keyboards_typed))
               = true) by (vm_compute; reflexivity).
  rewrite Hc in H2.
  assert (H1 : AggregateKeyboard.GetNumKeysPressed (AggregateImpl.this (w_this keyboards_typed))
               = 2) by (vm_compute; reflexivity).
  split; [exact H1|]. rewrite <- H2. exact H1.
Defined.

(** ** Event nodes and key tables *)

Lemma all_digits_string_of_uint (d : Decimal.uint) :
  all_digits (DecimalString.NilEmpty.string_of_uint d) = true.
Proof. induction d; cbn; [reflexivity|exact IHd..]. Qed.

Lemma string_of_uint_cons (d : Decimal.uint) :
  exists c rest, DecimalString.NilZero.string_of_uint d = String c rest
                 /\ all_digits (String c rest) = true.
Proof.
  destruct d; cbn [DecimalString.NilZero.string_of_uint DecimalString.NilEmpty.string_of_uint];
    eexists _, _; (split; [reflexivity|]);
    first [reflexivity | apply (all_digits_string_of_uint (Decimal.D0 d))
          | apply (all_digits_string_of_uint (Decimal.D1 d))
          | apply (all_digits_string_of_uint (Decimal.D2 d))
          | apply (all_digits_string_of_uint (Decimal.D3 d))
          | apply (all_digits_string_of_uint (Decimal.D4 d))
          | apply (all_digits_string_of_uint (Decimal.D5 d))
          | apply (all_digits_string_of_uint (Decimal.D6 d))
          | apply (all_digits_string_of_uint (Decimal.D7 d))
          | apply (all_digits_string_of_uint (Decimal.D8 d))
          | apply (all_digits_string_of_uint (Decimal.D9 d))].
Qed.

Lemma to_uint_not_Nil (n : N) : N.to_uint n <> Decimal.Nil.
Proof.
  intros H. pose proof (DecimalN.Unsigned.of_to n) as E. rewrite H in E.
  cbn in E. subst n. cbn in H. discriminate H.
Qed.

(** X17 ([ForeachEventXFile], [impl_linux.cpp] lines 1150-1183).
    The number of an event node is read back from its file name: the
    name [event<n>] gives [n] when [n] is below [2^32]; in general it
    gives [n], saturated at [2^64 - 1] as by [strtoul], modulo
    [2^32] as by the cast to [unsigned int].  Only names made of
    [event] and one or more decimal digits give a number, and the
    number is below [2^32]. *)
Theorem eventX_number_of_name (n : N) :
  eventX_number (eventX_name n) = Some (uint32_wrap (Z.min (2 ^ 64 - 1) (Z.of_N n)))
  /\ (Z.of_N n < 2 ^ 32 -> eventX_number (eventX_name n) = Some (Z.of_N n))
  /\ (forall s x, eventX_number s = Some x ->
        0 <= x < 2 ^ 32
        /\ exists digits, s = ("event" ++ digits)%string
                          /\ digits <> EmptyString /\ all_digits digits = true).
Proof.
  assert (H1 : eventX_number (eventX_name n)
               = Some (uint32_wrap (Z.min (2 ^ 64 - 1) (Z.of_N n)))).
  { unfold eventX_name.
    destruct (string_of_uint_cons (N.to_uint n)) as (c & rest & E & Hd).
    pose proof (DecimalString.NilZero.usu (N.to_uint n) (to_uint_not_Nil n)) as Hu.
    rewrite E in Hu |- *.
    change ("event" ++ String c rest)%string
      with (String "e" (String "v" (String "e" (String "n" (String "t" (String c rest)))))).
    cbv beta iota delta [eventX_number]. rewrite Hd, Hu.
    cbn [default from_option]. unfold id. rewrite DecimalN.Unsigned.of_to. reflexivity. }
  split; [exact H1|]. split.
  - intros Hn. rewrite H1. f_equal. unfold uint32_wrap.
    rewrite Z.min_r by lia. apply Z.mod_small. lia.
  - intros s x Hs. unfold eventX_number in Hs.
    repeat match type of Hs with
           | match ?s with EmptyString => _ | String _ _ => _ end = _ =>
               destruct s as [|? ?]; try discriminate Hs
           | match ?c with Ascii _ _ _ _ _ _ _ _ => _ end = _ =>
               destruct c as [[] [] [] [] [] [] [] []]; try discriminate Hs
           | (if ?b then _ else _) = _ => destruct b eqn:?; try discriminate Hs
           end.
    injection Hs as <-. split.
    + unfold uint32_wrap. apply Z.mod_pos_bound. lia.
    + eexists. split; [reflexivity|]. split; [discriminate|assumption].
Qed.

Lemma every_key_has_code :
  forallb key_has_code (map Z.of_nat (seq 0 (Z.to_nat NUM_KEY_CODES))) = true.
Proof. vm_compute. reflexivity. Qed.

Lemma every_code_is_reversed :
  forallb code_is_reversed (map Z.of_nat (seq 0 256)) = true.
Proof. vm_compute. reflexivity. Qed.

(** X18 ([keycode_mapping], [reverse_keycode_mapping],
    [impl_linux.cpp] lines 177-450).  Every key has a Linux code, and
    the code that [reverse_keycode_mapping] gives for a key is mapped
    back to that key by [keycode_mapping].  In the other direction a
    code that is mapped to a valid key is the code of that key, but
    for four codes: 28 (KEY_ENTER), 83, 96 and 101 are mapped to keys
    whose code is a later one, so that [HandleBufferOverrun] reads the
    state of ENTER from the code 117. *)
Theorem keycode_tables_round_trip :
  (forall key, 0 <= key < NUM_KEY_CODES ->
     exists code, reverse_keycode_mapping !! Z.to_nat key = Some code
                  /\ 0 <= code <= 255
                  /\ keycode_mapping !! Z.to_nat code = Some key)
  /\ (forall code key, 0 <= code <= 255 ->
        keycode_mapping !! Z.to_nat code = Some key -> IsValidKey key = true ->
        code ∉ shadowed_codes ->
        reverse_keycode_mapping !! Z.to_nat key = Some code)
  /\ (forall code, code ∈ shadowed_codes ->
        exists key later, keycode_mapping !! Z.to_nat code = Some key
                          /\ IsValidKey key = true
                          /\ reverse_keycode_mapping !! Z.to_nat key = Some later
                          /\ code < later).
Proof.
  split; [|split].
  - intros key Hk. pose proof every_key_has_code as H. rewrite forallb_forall in H.
    specialize (H key). unfold key_has_code in H.
    destruct (reverse_keycode_mapping !! Z.to_nat key) as [code|].
    + exists code. split; [reflexivity|].
      assert (Hin : In key (map Z.of_nat (seq 0 (Z.to_nat NUM_KEY_CODES)))).
      { apply in_map_iff. exists (Z.to_nat key). split; [lia|]. apply in_seq.
        unfold NUM_KEY_CODES in *. lia. }
      specialize (H Hin). apply andb_true_iff in H as [H H3].
      apply andb_true_iff in H as [H1 H2].
      apply bool_decide_eq_true_1 in H3. split; [lia|exact H3].
    + discriminate H. apply in_map_iff. exists (Z.to_nat key). split; [lia|]. apply in_seq.
      unfold NUM_KEY_CODES in *. lia.
  - intros code key Hc Hm Hv Hs.
    pose proof every_code_is_reversed as H. rewrite forallb_forall in H.
    specialize (H code). unfold code_is_reversed in H. rewrite Hm, Hv in H.
    destruct (bool_decide (code ∈ shadowed_codes)) eqn:Es;
      [apply bool_decide_eq_true_1 in Es; contradiction|].
    cbn [negb orb] in H.
    assert (Hin : In code (map Z.of_nat (seq 0 256))).
    { apply in_map_iff. exists (Z.to_nat code). split; [lia|]. apply in_seq. lia. }
    specialize (H Hin). apply bool_decide_eq_true_1 in H. exact H.
  - intros code Hc. unfold shadowed_codes in Hc.
    repeat (apply elem_of_cons in Hc as [->|Hc]);
      [| | | |inversion Hc]; eexists _, _;
      (split; [vm_compute; reflexivity|]); (split; [reflexivity|]);
      (split; [vm_compute; reflexivity|]); lia.
Qed.

Lemma keycode_tables_round_trip_witness :
  reverse_keycode_mapping !! Z.to_nat 1 = Some 117
  /\ keycode_mapping !! Z.to_nat 28 = Some 1.
Proof.
  destruct keycode_tables_round_trip as (H1 & _ & H3).
  destruct (H3 28 ltac:(left)) as (key & later & Hk & _ & Hr & _).
  split; [|vm_compute; reflexivity].
  destruct (H1 1 ltac:(unfold NUM_KEY_CODES; lia)) as (code & Hc & _ & _).
  rewrite Hc. vm_compute in Hc. symmetry. exact Hc.
Defined.

(** ** A device whose hardware is absent *)

Section Absent.
Variable api : ApiCall -> M ApiResult.

Lemma analyze_foreign (m : LinuxMouse.t) (g : Glob) (e : DirEntry) (x : Z) :
  LinuxMouse.hardware_id_ m <> GetHWID e x
  \/ DeduceInputDeviceType e <> MOUSE
  \/ clock_settable e = false ->
  LinuxMouse.analyze_device e x (mkWorld g m) = Ok true (mkWorld g m).
Proof.
  intros H. unfold LinuxMouse.analyze_device. rewrite StM_bind_eq. unfold this_.
  cbv beta iota. cbn [w_this].
  destruct H as [H|[H|H]].
  - rewrite (bool_decide_eq_false_2 _ H). reflexivity.
  - rewrite (bool_decide_eq_false_2 (DeduceInputDeviceType e = MOUSE) H).
    rewrite andb_false_r. reflexivity.
  - rewrite H, andb_false_r. reflexivity.
Qed.

Lemma Foreach_foreign (m : LinuxMouse.t) (g : Glob) (pre post : list DirEntry) (num : Z) :
  Forall (foreign_node m) pre ->
  exists num',
    ForeachEventXFile open_rdwr_result LinuxMouse.analyze_device (pre ++ post) num
                      (mkWorld g m)
    = ForeachEventXFile open_rdwr_result LinuxMouse.analyze_device post num' (mkWorld g m).
Proof.
  intros H. revert num. induction H as [|e pre He Hpre IH]; intros num.
  - exists num. reflexivity.
  - cbn [app ForeachEventXFile].
    destruct He as [He|[He|(x & Hx & He)]].
    + rewrite He. apply IH.
    + destruct (is_directory e); [apply IH|]. rewrite He. apply IH.
    + destruct (is_directory e); [apply IH|]. rewrite Hx.
      destruct He as [He|[He Hf]]; rewrite He; [apply IH|].
      rewrite StM_bind_eq, (analyze_foreign m g e x Hf). apply IH.
Qed.

Lemma TryConnect_start (m : LinuxMouse.t) (g : Glob) :
  LinuxMouse.is_connected_ m = false ->
  forall n,
    ForeachEventXFile open_rdwr_result LinuxMouse.analyze_device (dev_input g) 0 (mkWorld g m)
    = Ok n (mkWorld g m) ->
    LinuxMouse.TryConnect api (mkWorld g m) = Ok false (mkWorld g m).
Proof.
  intros Hc n Hn. unfold LinuxMouse.TryConnect.
  rewrite StM_bind_eq. unfold this_ at 1. cbv beta iota. cbn [w_this]. rewrite Hc.
  rewrite StM_bind_eq. unfold get at 1. cbv beta iota. cbn [w_glob].
  rewrite StM_bind_eq, Hn.
  rewrite StM_bind_eq. unfold this_ at 1. cbv beta iota. cbn [w_this]. rewrite Hc.
  reflexivity.
Qed.

Lemma TryConnect_throw (m : LinuxMouse.t) (g : Glob) (e : exn) :
  LinuxMouse.is_connected_ m = false ->
  ForeachEventXFile open_rdwr_result LinuxMouse.analyze_device (dev_input g) 0 (mkWorld g m)
  = Throw e (mkWorld g m) ->
  LinuxMouse.TryConnect api (mkWorld g m) = Throw e (mkWorld g m).
Proof.
  intros Hc Hn. unfold LinuxMouse.TryConnect.
  rewrite StM_bind_eq. unfold this_ at 1. cbv beta iota. cbn [w_this]. rewrite Hc.
  rewrite StM_bind_eq. unfold get at 1. cbv beta iota. cbn [w_glob].
  rewrite StM_bind_eq, Hn. reflexivity.
Qed.

Lemma Update_start (m : LinuxMouse.t) (g : Glob) :
  glob_disable_management_api g = false ->
  LinuxMouse.is_connected_ m = false ->
  (LinuxMouse.TryConnect api (mkWorld g m) = Ok false (mkWorld g m) ->
   LinuxMouse.Update api (mkWorld g m) = Ok tt (mkWorld g m))
  /\ (forall e, LinuxMouse.TryConnect api (mkWorld g m) = Throw e (mkWorld g m) ->
        LinuxMouse.Update api (mkWorld g m) = Throw e (mkWorld g m)).
Proof.
  intros Hg Hc.
  split; [intros Ht|intros e Ht];
    unfold LinuxMouse.Update;
    rewrite StM_bind_eq; unfold this_ at 1; cbv beta iota; cbn [w_this];
    rewrite StM_bind_eq; unfold in_glob at 1, zoom at 1, ProtectManagementAPI at 1;
    cbn [w_glob]; rewrite Hg; cbv beta iota; cbn [w_this]; rewrite Hc;
    rewrite StM_bind_eq; cbv beta iota; rewrite Ht; reflexivity.
Qed.

(** X19 ([LinuxDevice::Update], [LinuxDevice::TryConnect],
    [ForeachEventXFile], [impl_linux.cpp] lines 1354-1358, 1416-1446
    and 1150-1183).  [Update] of a disconnected mouse, outside a
    callback: when no node of [/dev/input] is the mouse's, the call
    returns and changes nothing, and no event is dispatched.  When an
    event node that the process may not open (EPERM) comes before
    the first node of the mouse, the call throws the "access denied"
    error for that node and changes nothing, whether or not the node
    of the mouse follows. *)
Theorem LinuxMouse_Update_absent (m : LinuxMouse.t) (g : Glob) :
  glob_disable_management_api g = false ->
  LinuxMouse.is_connected_ m = false ->
  (Forall (foreign_node m) (dev_input g) ->
   LinuxMouse.Update api (mkWorld g m) = Ok tt (mkWorld g m))
  /\ (forall pre e post,
        dev_input g = pre ++ e :: post -> Forall (foreign_node m) pre -> denied_node e ->
        LinuxMouse.Update api (mkWorld g m)
        = Throw (runtime_error (access_denied_message ("/dev/input/" ++ filename e)))
                (mkWorld g m)).
Proof.
  intros Hg Hc. destruct (Update_start m g Hg Hc) as [Hok Hthrow].
  split.
  - intros Hall. apply Hok.
    destruct (Foreach_foreign m g (dev_input g) [] 0 Hall) as [n Hn].
    rewrite app_nil_r in Hn. apply (TryConnect_start m g Hc n). rewrite Hn. reflexivity.
  - intros pre e post Hd Hpre (He1 & [x He2] & He3). apply Hthrow.
    apply (TryConnect_throw m g _ Hc).
    destruct (Foreach_foreign m g pre (e :: post) 0 Hpre) as [n Hn].
    rewrite Hd, Hn. cbn [ForeachEventXFile]. rewrite He1, He2, He3. reflexivity.
Qed.

End Absent.

Lemma LinuxMouse_Update_absent_witness :
  LinuxMouse.Update (run_api no_update 8) (mkWorld one_mouse stranger)
  = Ok tt (mkWorld one_mouse stranger)
  /\ LinuxMouse.Update (run_api no_update 8) (mkWorld locked_dir (LinuxMouse.new 1 (HWID_c 0)))
     = Throw (runtime_error (access_denied_message "/dev/input/event3"))
             (mkWorld locked_dir (LinuxMouse.new 1 (HWID_c 0))).
Proof.
  split.
  - assert (Hg : glob_disable_management_api one_mouse = false) by (vm_compute; reflexivity).
    apply (proj1 (LinuxMouse_Update_absent (run_api no_update 8) stranger one_mouse Hg eq_refl)).
    replace (dev_input one_mouse) with [mouse_node "event0" [] false]
      by (vm_compute; reflexivity).
    constructor; [|constructor].
    right. right. exists 0. split; [vm_compute; reflexivity|].
    right. split; [reflexivity|]. left. vm_compute. discriminate.
  - apply (proj2 (LinuxMouse_Update_absent (run_api no_update 8) (LinuxMouse.new 1 (HWID_c 0))
                    locked_dir eq_refl eq_refl)
             [mkDirEntry true "by-id" OpenFailed None None None 0 0 0 OpenFailed false None [] false]
             locked_node [mouse_node "event0" [] false] eq_refl).
    + constructor; [|constructor]. left. reflexivity.
    + split; [reflexivity|]. split; [|reflexivity]. exists 3. vm_compute. reflexivity.
Defined.
